(** * CloudCIX Robot: worker life cycle, API client and token holder

    A shallow embedding of the Python sources of the regional agent
    (tasks/*, utils.py, cloudcix_token.py, mainloop.py) together with the
    properties of its life-cycle state machine.

    Conventions of the embedding.
    - API payloads are JSON values; Python dictionaries are association
      lists in insertion order.  Floating point numbers do not occur in the
      fields the workers inspect and are left out of [json].
    - Every effect of a worker is recorded in a trace of [Event]s: calls to
      the IaaS API (with the status code received), calls into the remote
      builders / scrubbers / quiescers / restarters, e-mails, metrics and
      tasks scheduled on the queue.
    - The outside world is an oracle ([World]): it answers the n-th API call
      of a run and decides what a remote driver does to the resource.
    - Logging and tracing spans have no influence on control flow and are
      dropped, except where the formatting of a log message indexes a
      dictionary (which may raise KeyError).  The text of error messages is
      abbreviated.  The [token=] argument of API calls is not part of
      [Request]; the token holder is modelled on its own in [cloudcix_token]. *)

From Stdlib Require Import ZArith List String Bool Lia.
Import ListNotations.
Open Scope string_scope.
Open Scope list_scope.
Open Scope Z_scope.
Set Warnings "-register-all".

(** ** JSON values and the Python operations used on them *)

Inductive json : Type :=
| JNull
| JBool (b : bool)
| JInt (z : Z)
| JStr (s : string)
| JList (l : list json)
| JDict (d : list (string * json)).

Inductive exn : Type :=
| KeyError (k : string)
| TypeError
| AttributeError
| ValueError
| RecursionError
| EmailError
| RemoteError (obj : json).

(** Result of running Python code: a value, an exception that propagates,
    or a loop that is still running when the fuel is exhausted. *)
Inductive res (A : Type) : Type :=
| Ret (a : A)
| Raise (e : exn)
| OutOfFuel.
Arguments Ret {A} a.
Arguments Raise {A} e.
Arguments OutOfFuel {A}.

Fixpoint assoc (k : string) (d : list (string * json)) : option json :=
  match d with
  | [] => None
  | (k', v) :: d' => if String.eqb k k' then Some v else assoc k d'
  end.

Fixpoint assoc_set (k : string) (v : json) (d : list (string * json))
  : list (string * json) :=
  match d with
  | [] => [(k, v)]
  | (k', v') :: d' =>
      if String.eqb k k' then (k, v) :: d' else (k', v') :: assoc_set k v d'
  end.

Fixpoint assoc_del (k : string) (d : list (string * json))
  : list (string * json) :=
  match d with
  | [] => []
  | (k', v') :: d' =>
      if String.eqb k k' then d' else (k', v') :: assoc_del k d'
  end.

(** [obj[k]] *)
Definition getitem (obj : json) (k : string) : res json :=
  match obj with
  | JDict d => match assoc k d with Some v => Ret v | None => Raise (KeyError k) end
  | _ => Raise TypeError
  end.

(** [obj[k] = v] *)
Definition setitem (obj : json) (k : string) (v : json) : res json :=
  match obj with
  | JDict d => Ret (JDict (assoc_set k v d))
  | _ => Raise TypeError
  end.

(** [obj.pop(k)] ; the popped value is never used by the workers. *)
Definition pop (obj : json) (k : string) : res json :=
  match obj with
  | JDict d =>
      match assoc k d with
      | Some _ => Ret (JDict (assoc_del k d))
      | None => Raise (KeyError k)
      end
  | JList _ => Raise TypeError
  | _ => Raise AttributeError
  end.

(** [obj.pop(k, None)] *)
Definition pop_default (obj : json) (k : string) : res json :=
  match obj with
  | JDict d => Ret (JDict (assoc_del k d))
  | JList _ => Raise TypeError
  | _ => Raise AttributeError
  end.

(** [obj.get(k, default)] *)
Definition get_default (obj : json) (k : string) (default : json) : res json :=
  match obj with
  | JDict d => Ret (match assoc k d with Some v => v | None => default end)
  | _ => Raise AttributeError
  end.

(** [bool(obj)] *)
Definition truthy (obj : json) : bool :=
  match obj with
  | JNull => false
  | JBool b => b
  | JInt z => negb (z =? 0)
  | JStr s => negb (String.eqb s "")
  | JList l => match l with [] => false | _ => true end
  | JDict d => match d with [] => false | _ => true end
  end.

(** [obj == z] for an integer constant [z]; [True == 1] and [False == 0]
    hold in Python. *)
Definition py_eq_int (obj : json) (z : Z) : bool :=
  match obj with
  | JInt n => n =? z
  | JBool b => (if b then 1 else 0) =? z
  | _ => false
  end.

(** [obj == s] for a string constant [s]. *)
Definition py_eq_str (obj : json) (s : string) : bool :=
  match obj with
  | JStr t => String.eqb t s
  | _ => false
  end.

Definition contains (needle hay : string) : bool :=
  match String.index 0 needle hay with Some _ => true | None => false end.

(** [s in obj] for a string constant [s]. *)
Definition py_in_str (s : string) (obj : json) : res bool :=
  match obj with
  | JStr t => Ret (contains s t)
  | JList l => Ret (existsb (fun x => py_eq_str x s) l)
  | JDict d => Ret (match assoc s d with Some _ => true | None => false end)
  | _ => Raise TypeError
  end.

Fixpoint chars (s : string) : list json :=
  match s with
  | EmptyString => []
  | String c s' => JStr (String c EmptyString) :: chars s'
  end.

(** The elements produced by iterating over [obj], as [deque.extend] does. *)
Definition py_iter (obj : json) : res (list json) :=
  match obj with
  | JList l => Ret l
  | JDict d => Ret (map (fun kv => JStr (fst kv)) d)
  | JStr s => Ret (chars s)
  | _ => Raise TypeError
  end.

(** [n < obj] for a Python int [n]. *)
Definition py_int_lt (n : Z) (obj : json) : res bool :=
  match obj with
  | JInt z => Ret (n <? z)
  | JBool b => Ret (n <? (if b then 1 else 0))
  | _ => Raise TypeError
  end.

(** [obj['errors'].append(msg)] *)
Definition append_error (obj : json) (msg : string) : res json :=
  match getitem obj "errors" with
  | Ret (JList l) => setitem obj "errors" (JList (l ++ [JStr msg]))
  | Ret _ => Raise AttributeError
  | Raise e => Raise e
  | OutOfFuel => OutOfFuel
  end.

(** ** States

    Modelled from the spec: state.py is imported by every task but is not
    among the sources.  The names are the canonical states of the data
    model; the numbers follow the comments of the workers (QUIESCING 12,
    RESTARTING 13, SCRUB_PREP 14) and are otherwise only required to be
    pairwise distinct. *)
Module state.
Definition REQUESTED : Z := 1.
Definition BUILDING : Z := 2.
Definition UNRESOURCED : Z := 3.
Definition RUNNING : Z := 4.
Definition QUIESCE : Z := 5.
Definition QUIESCED : Z := 6.
Definition RESTART : Z := 7.
Definition SCRUB : Z := 8.
Definition SCRUB_QUEUE : Z := 9.
Definition RUNNING_UPDATE : Z := 10.
Definition RUNNING_UPDATING : Z := 11.
Definition QUIESCING : Z := 12.
Definition RESTARTING : Z := 13.
Definition SCRUB_PREP : Z := 14.
Definition QUIESCED_UPDATE : Z := 15.
Definition QUIESCED_UPDATING : Z := 16.
Definition SCRUBBING : Z := 17.
Definition CLOSED : Z := 99.
End state.

(** ** The world and the effect monad *)

Inductive Request : Type :=
| Read (client : string) (pk : json)
| ListReq (client : string) (params : list (string * json))
| PartialUpdate (client : string) (pk : json) (data : list (string * json))
| Create (client : string) (data : list (string * json)).

(** A response of the HTTP client; [body = None] is a payload that is not
    JSON, on which [response.json()] raises ValueError. *)
Record Response : Type := mkResponse {
  status_code : Z;
  body : option json
}.

Inductive RemoteResult : Type :=
| Returns (success : bool) (obj : json)
| Raises (obj : json).

Record World : Type := mkWorld {
  (** answer to a request issued as the n-th API call of the run *)
  respond : Request -> nat -> Response;
  (** [cls.method(obj, span)] of builders, scrubbers, quiescers, restarters:
      the value returned and the resource dictionary as the driver left it *)
  remote : string -> string -> json -> RemoteResult;
  (** whether [datetime.strptime(s, '%Y-%m-%dT%H:%M:%S.%f')] succeeds *)
  strptime_ok : string -> bool;
  (** whether [EmailNotifier.name(obj)] returns without raising *)
  email_ok : string -> json -> bool;
  (** frames available to a recursive function before RecursionError *)
  recursion_limit : nat
}.

Inductive Event : Type :=
| EApi (req : Request) (status : Z)
| ERemote (cls method : string)
| ESchedule (task : string) (arg : Z) (delay_seconds : Z)
| EEmail (name : string)
| EMetric (name : string).

Record St : Type := mkSt {
  calls : nat;
  trace : list Event
}.

Definition M (A : Type) : Type := World -> St -> res A * St.

Definition ret {A} (a : A) : M A := fun _ st => (Ret a, st).

Definition raise {A} (e : exn) : M A := fun _ st => (Raise e, st).

Definition bind {A B} (m : M A) (k : A -> M B) : M B :=
  fun w st =>
    match m w st with
    | (Ret a, st') => k a w st'
    | (Raise e, st') => (Raise e, st')
    | (OutOfFuel, st') => (OutOfFuel, st')
    end.

Notation "x <- m ;; k" := (bind m (fun x => k))
  (at level 61, m at next level, right associativity).
Notation "m ;; k" := (bind m (fun _ => k))
  (at level 61, right associativity).

Definition lift {A} (r : res A) : M A := fun _ st => (r, st).

Definition ask : M World := fun w st => (Ret w, st).

Definition emit (e : Event) : M unit :=
  fun _ st => (Ret tt, mkSt (calls st) (trace st ++ [e])).

(** [try: m except Exception as e: h e] *)
Definition try_except {A} (m : M A) (h : exn -> M A) : M A :=
  fun w st =>
    match m w st with
    | (Raise e, st') => h e w st'
    | r => r
    end.

Definition api (req : Request) : M Response :=
  fun w st =>
    let r := respond w req (calls st) in
    (Ret r, mkSt (S (calls st)) (trace st ++ [EApi req (status_code r)])).

(** [response.json()] *)
Definition json_of (response : Response) : res json :=
  match body response with
  | Some j => Ret j
  | None => Raise ValueError
  end.

Definition metric (name : string) : M unit := emit (EMetric name).

(** [EmailNotifier.name(obj)] inside [try ... except Exception]: a failure
    to send is logged and never propagates. *)
Definition email (name : string) : M unit := emit (EEmail name).

(** [EmailNotifier.name(obj)] where a failure to send changes what the
    caller does next. *)
Definition send_email (name : string) (obj : json) : M unit :=
  fun w st =>
    let st' := mkSt (calls st) (trace st ++ [EEmail name]) in
    if email_ok w name obj then (Ret tt, st') else (Raise EmailError, st').

(** [task.s(arg).apply_async(eta=datetime.now() + timedelta(seconds=d))] *)
Definition apply_async (task : string) (arg : Z) (d : Z) : M unit :=
  emit (ESchedule task arg d).

(** A call into a remote driver.  An exception raised by the driver carries
    the dictionary as mutated so far, since the caller holds the same
    object. *)
Definition remote_call (cls method : string) (obj : json) : M (bool * json) :=
  fun w st =>
    let st' := mkSt (calls st) (trace st ++ [ERemote cls method]) in
    match remote w cls method obj with
    | Returns success obj' => (Ret (success, obj'), st')
    | Raises obj' => (Raise (RemoteError obj'), st')
    end.

Definition mutated (e : exn) (obj : json) : json :=
  match e with RemoteError obj' => obj' | _ => obj end.

Definition run {A} (m : M A) (w : World) : res A * St := m w (mkSt 0 []).

(** [response.status_code == 401 and 'token is expired' in response.json()['detail']] *)
Definition token_is_expired (response : Response) : M bool :=
  if status_code response =? 401 then
    data <- lift (json_of response) ;;
    detail <- lift (getitem data "detail") ;;
    lift (py_in_str "token is expired" detail)
  else ret false.

(** ** utils.py *)
Module utils.

Fixpoint api_read_rec (depth : nat) (client : string) (pk : json) : M json :=
  match depth with
  | O => raise RecursionError
  | S depth' =>
      response <- api (Read client pk) ;;
      expired <- token_is_expired response ;;
      if expired then api_read_rec depth' client pk
      else if status_code response =? 200 then
        data <- lift (json_of response) ;;
        lift (getitem data "content")
      else ret (JDict [])
  end.

Definition api_read (client : string) (pk : json) : M json :=
  w <- ask ;; api_read_rec (recursion_limit w) client pk.

(** The [while len(objects) < total_records] loop of [api_list]; [page]
    is the value of [params['page']] on entry. *)
Fixpoint fetch_rest (fuel : nat) (client : string)
    (params : list (string * json)) (page : Z)
    (objects : list json) (total_records : json) : M (list json) :=
  more <- lift (py_int_lt (Z.of_nat (List.length objects)) total_records) ;;
  if negb more then ret objects
  else
    match fuel with
    | O => lift OutOfFuel
    | S fuel' =>
        let page := page + 1 in
        let params := assoc_set "page" (JInt page) params in
        response <- api (ListReq client params) ;;
        expired <- token_is_expired response ;;
        (if expired then
           data <- lift (json_of response) ;;
           _ <- lift (setitem data "content" (JList [])) ;;
           ret tt
         else ret tt) ;;
        if negb (status_code response =? 200) then
          ret objects
        else
          data <- lift (json_of response) ;;
          content <- lift (getitem data "content") ;;
          items <- lift (py_iter content) ;;
          fetch_rest fuel' client params page (objects ++ items) total_records
    end.

Fixpoint api_list_rec (depth fuel : nat) (client : string)
    (params : list (string * json)) : M (list json) :=
  match depth with
  | O => raise RecursionError
  | S depth' =>
      let params := assoc_set "page" (JInt 0) params in
      response <- api (ListReq client params) ;;
      expired <- token_is_expired response ;;
      if expired then api_list_rec depth' fuel client params
      else if negb (status_code response =? 200) then ret []
      else
        response_data <- lift (json_of response) ;;
        content <- lift (getitem response_data "content") ;;
        objects <- lift (py_iter content) ;;
        metadata <- lift (getitem response_data "_metadata") ;;
        default <- lift (match metadata with
                         | JDict _ => getitem metadata "total_records"
                         | _ => Raise AttributeError
                         end) ;;
        total_records <- lift (get_default metadata "total_records" default) ;;
        fetch_rest fuel client params 0 objects total_records
  end.

(** [fuel] bounds the number of further pages fetched by the loop. *)
Definition api_list (fuel : nat) (client : string)
    (params : list (string * json)) : M (list json) :=
  w <- ask ;; api_list_rec (recursion_limit w) fuel client params.

End utils.

(** ** tasks/vm/build.py *)
Module tasks_vm_build.

Definition _unresource (vm : json) : M unit :=
  vm_id <- lift (getitem vm "id") ;;
  metric "vm_build_failure" ;;
  _ <- api (PartialUpdate "vm" vm_id [("state", JInt state.UNRESOURCED)]) ;;
  email "vm_build_failure".

(** The [try] block that selects the builder by server type; yields
    [(success, send_email, vm)]. *)
Definition call_builder (server_type vm : json) : M (bool * bool * json) :=
  try_except
    (if py_eq_str server_type "HyperV" then
       r <- remote_call "WindowsVM" "build" vm ;;
       ret (fst r, true, snd r)
     else if py_eq_str server_type "KVM" then
       r <- remote_call "LinuxVM" "build" vm ;;
       ret (fst r, true, snd r)
     else if py_eq_str server_type "Phantom" then
       ret (true, false, vm)
     else
       vm <- lift (append_error vm "Unsupported server type") ;;
       ret (false, true, vm))
    (fun err =>
       vm <- lift (append_error (mutated err vm) "An unexpected error occurred") ;;
       ret (false, true, vm)).

Definition _build_vm (vm_id : Z) : M unit :=
  vm <- utils.api_read "vm" (JInt vm_id) ;;
  if negb (truthy vm) then
    metric "vm_build_failure"
  else
  vm_state <- lift (getitem vm "state") ;;
  if negb (py_eq_int vm_state state.REQUESTED) then
    ret tt
  else
  vm <- lift (setitem vm "errors" (JList [])) ;;
  project <- lift (getitem vm "project") ;;
  vr_id <- lift (getitem project "virtual_router_id") ;;
  vm_vr <- utils.api_read "virtual_router" vr_id ;;
  vr_state <- lift (getitem vm_vr "state") ;;
  if py_eq_int vr_state state.UNRESOURCED then
    _ <- lift (getitem vm_vr "id") ;;
    vm <- lift (append_error vm "Virtual Router is UNRESOURCED") ;;
    _unresource vm
  else if negb (py_eq_int vr_state state.RUNNING) then
    _ <- lift (getitem vm_vr "id") ;;
    apply_async "build_vm" vm_id 10
  else
  response <- api (PartialUpdate "vm" (JInt vm_id) [("state", JInt state.BUILDING)]) ;;
  if negb (status_code response =? 200) then
    metric "vm_build_failure"
  else
  server_id <- lift (getitem vm "server_id") ;;
  server <- utils.api_read "server" server_id ;;
  if negb (truthy server) then
    _unresource vm
  else
  server_type_ <- lift (getitem server "type") ;;
  server_type <- lift (getitem server_type_ "name") ;;
  vm <- lift (setitem vm "server_data" server) ;;
  r <- call_builder server_type vm ;;
  let '(success, send_email, vm) := r in
  if success then
    _ <- api (PartialUpdate "vm" (JInt vm_id) [("state", JInt state.RUNNING)]) ;;
    (if send_email then email "vm_build_success" else ret tt) ;;
    created <- lift (getitem vm "created") ;;
    w <- ask ;;
    match created with
    | JStr s =>
        if strptime_ok w s then metric "vm_build_success" else raise ValueError
    | _ => raise TypeError
    end
  else
    vm <- lift (pop_default vm "admin_password") ;;
    vm <- lift (pop vm "server_data") ;;
    _unresource vm.

End tasks_vm_build.

(** ** tasks/vm/scrub.py *)
Module tasks_vm_scrub.

Definition call_scrubber (server_type vm : json) : M (bool * json) :=
  try_except
    (if py_eq_str server_type "HyperV" then
       remote_call "WindowsVM" "scrub" vm
     else if py_eq_str server_type "KVM" then
       remote_call "LinuxVM" "scrub" vm
     else if py_eq_str server_type "Phantom" then
       ret (true, vm)
     else
       vm <- lift (append_error vm "Unsupported server type") ;;
       ret (false, vm))
    (fun err =>
       vm <- lift (append_error (mutated err vm) "An unexpected error occurred") ;;
       ret (false, vm)).

Definition _scrub_vm (vm_id : Z) : M unit :=
  response <- api (Read "vm" (JInt vm_id)) ;;
  if status_code response =? 404 then
    ret tt
  else if negb (status_code response =? 200) then
    ret tt
  else
  data <- lift (json_of response) ;;
  vm <- lift (getitem data "content") ;;
  vm_state <- lift (getitem vm "state") ;;
  if negb (py_eq_int vm_state state.SCRUB_QUEUE) then
    ret tt
  else
  _ <- api (PartialUpdate "vm" (JInt vm_id) [("state", JInt state.SCRUBBING)]) ;;
  server_id <- lift (getitem vm "server_id") ;;
  server <- utils.api_read "server" server_id ;;
  if negb (truthy server) then
    ret tt
  else
  server_type_ <- lift (getitem server "type") ;;
  server_type <- lift (getitem server_type_ "name") ;;
  vm <- lift (setitem vm "server_data" server) ;;
  vm <- lift (setitem vm "errors" (JList [])) ;;
  r <- call_scrubber server_type vm ;;
  let '(success, vm) := r in
  if success then
    metric "vm_scrub_success" ;;
    _ <- api (PartialUpdate "vm" (JInt vm_id) [("state", JInt state.CLOSED)]) ;;
    ret tt
  else
    vm <- lift (pop vm "server_data") ;;
    metric "vm_scrub_failure" ;;
    _ <- api (PartialUpdate "vm" (JInt vm_id) [("state", JInt state.UNRESOURCED)]) ;;
    email "vm_failure".

End tasks_vm_scrub.

(** ** tasks/vm/quiesce.py *)
Module tasks_vm_quiesce.

Definition _unresource (vm : json) : M unit :=
  vm_id <- lift (getitem vm "id") ;;
  metric "vm_quiesce_failure" ;;
  _ <- api (PartialUpdate "vm" vm_id [("state", JInt state.UNRESOURCED)]) ;;
  email "vm_failure".

Definition call_quiescer (server_type vm : json) : M (bool * bool * json) :=
  try_except
    (if py_eq_str server_type "HyperV" then
       r <- remote_call "WindowsVM" "quiesce" vm ;;
       ret (fst r, true, snd r)
     else if py_eq_str server_type "KVM" then
       r <- remote_call "LinuxVM" "quiesce" vm ;;
       ret (fst r, true, snd r)
     else if py_eq_str server_type "Phantom" then
       ret (true, false, vm)
     else
       vm <- lift (append_error vm "Unsupported server type") ;;
       ret (false, true, vm))
    (fun err =>
       vm <- lift (append_error (mutated err vm) "An unexpected error occurred") ;;
       ret (false, true, vm)).

Definition _quiesce_vm (vm_id : Z) : M unit :=
  vm <- utils.api_read "vm" (JInt vm_id) ;;
  if negb (truthy vm) then
    metric "vm_quiesce_failure"
  else
  vm_state <- lift (getitem vm "state") ;;
  if negb (py_eq_int vm_state state.QUIESCE || py_eq_int vm_state state.SCRUB) then
    ret tt
  else
  response <-
    (if py_eq_int vm_state state.QUIESCE then
       api (PartialUpdate "vm" (JInt vm_id) [("state", JInt state.QUIESCING)])
     else
       api (PartialUpdate "vm" (JInt vm_id) [("state", JInt state.SCRUB_PREP)])) ;;
  if negb (status_code response =? 200) then
    metric "vm_quiesce_failure"
  else
  server_id <- lift (getitem vm "server_id") ;;
  server <- utils.api_read "server" server_id ;;
  if negb (truthy server) then
    _unresource vm
  else
  server_type_ <- lift (getitem server "type") ;;
  server_type <- lift (getitem server_type_ "name") ;;
  vm <- lift (setitem vm "server_data" server) ;;
  vm <- lift (setitem vm "errors" (JList [])) ;;
  r <- call_quiescer server_type vm ;;
  let '(success, send_email, vm) := r in
  if success then
    metric "vm_quiesce_success" ;;
    vm_state <- lift (getitem vm "state") ;;
    if py_eq_int vm_state state.QUIESCE then
      _ <- api (PartialUpdate "vm" (JInt vm_id) [("state", JInt state.QUIESCED)]) ;;
      ret tt
    else if py_eq_int vm_state state.SCRUB then
      _ <- api (PartialUpdate "vm" (JInt vm_id) [("state", JInt state.SCRUB_QUEUE)]) ;;
      _ <- lift (setitem vm "deletion_date" (JStr "in 7 days")) ;;
      if send_email then email "delete_schedule_success" else ret tt
    else
      ret tt
  else
    vm <- lift (pop vm "server_data") ;;
    _unresource vm.

End tasks_vm_quiesce.

(** ** tasks/vm/restart.py *)
Module tasks_vm_restart.

Definition _unresource (vm : json) : M unit :=
  vm_id <- lift (getitem vm "id") ;;
  metric "vm_restart_failure" ;;
  _ <- api (PartialUpdate "vm" vm_id [("state", JInt state.UNRESOURCED)]) ;;
  email "vm_failure".

Definition call_restarter (server_type vm : json) : M (bool * json) :=
  try_except
    (if py_eq_str server_type "HyperV" then
       remote_call "WindowsVM" "restart" vm
     else if py_eq_str server_type "KVM" then
       remote_call "LinuxVM" "restart" vm
     else if py_eq_str server_type "Phantom" then
       ret (true, vm)
     else
       vm <- lift (append_error vm "Unsupported server type") ;;
       ret (false, vm))
    (fun err =>
       vm <- lift (append_error (mutated err vm) "An unexpected error occurred") ;;
       ret (false, vm)).

Definition _restart_vm (vm_id : Z) : M unit :=
  vm <- utils.api_read "vm" (JInt vm_id) ;;
  if negb (truthy vm) then
    metric "vm_restart_failure"
  else
  vm_state <- lift (getitem vm "state") ;;
  if negb (py_eq_int vm_state state.RESTART) then
    ret tt
  else
  response <- api (PartialUpdate "vm" (JInt vm_id) [("state", JInt state.RESTARTING)]) ;;
  if negb (status_code response =? 200) then
    metric "vm_restart_failure"
  else
  server_id <- lift (getitem vm "server_id") ;;
  server <- utils.api_read "server" server_id ;;
  if negb (truthy server) then
    _unresource vm
  else
  server_type_ <- lift (getitem server "type") ;;
  server_type <- lift (getitem server_type_ "name") ;;
  vm <- lift (setitem vm "server_data" server) ;;
  vm <- lift (setitem vm "errors" (JList [])) ;;
  r <- call_restarter server_type vm ;;
  let '(success, vm) := r in
  if success then
    metric "vm_restart_success" ;;
    _ <- api (PartialUpdate "vm" (JInt vm_id) [("state", JInt state.RUNNING)]) ;;
    ret tt
  else
    vm <- lift (pop vm "server_data") ;;
    _unresource vm.

End tasks_vm_restart.

(** ** tasks/backup/build.py *)
Module tasks_backup_build.

Definition _unresource (backup : json) : M unit :=
  backup_id <- lift (getitem backup "id") ;;
  metric "backup_build_failure" ;;
  _ <- api (PartialUpdate "backup" backup_id [("state", JInt state.UNRESOURCED)]) ;;
  email "backup_build_failure".

Definition call_builder (server_type backup : json) : M (bool * json) :=
  try_except
    (if py_eq_str server_type "HyperV" then
       remote_call "WindowsBackup" "build" backup
     else if py_eq_str server_type "KVM" then
       remote_call "LinuxBackup" "build" backup
     else
       backup <- lift (append_error backup "Unsupported server type") ;;
       ret (false, backup))
    (fun err =>
       backup <- lift (append_error (mutated err backup) "An unexpected error occured") ;;
       ret (false, backup)).

Definition _build_backup (backup_id : Z) : M unit :=
  backup <- utils.api_read "backup" (JInt backup_id) ;;
  if negb (truthy backup) then
    metric "backup_build_failure"
  else
  backup_state <- lift (getitem backup "state") ;;
  if negb (py_eq_int backup_state state.REQUESTED) then
    ret tt
  else
  backup <- lift (setitem backup "errors" (JList [])) ;;
  response <- api (PartialUpdate "backup" (JInt backup_id) [("state", JInt state.BUILDING)]) ;;
  if negb (status_code response =? 200) then
    metric "backup_build_failure"
  else
  vm <- lift (getitem backup "vm") ;;
  server_id <- lift (getitem vm "server_id") ;;
  server <- utils.api_read "server" server_id ;;
  if negb (truthy server) then
    _unresource backup
  else
  server_type_ <- lift (getitem server "type") ;;
  server_type <- lift (getitem server_type_ "name") ;;
  backup <- lift (setitem backup "server_data" server) ;;
  r <- call_builder server_type backup ;;
  let '(success, backup) := r in
  if success then
    time_valid <- lift (getitem backup "time_valid") ;;
    _ <- api (PartialUpdate "backup" (JInt backup_id)
                [("state", JInt state.RUNNING); ("time_valid", time_valid)]) ;;
    ret tt
  else
    backup <- lift (pop backup "server_data") ;;
    _unresource backup.

End tasks_backup_build.

(** ** tasks/snapshot/build.py *)
Module tasks_snapshot_build.

Definition _unresource (snapshot : json) : M unit :=
  snapshot_id <- lift (getitem snapshot "id") ;;
  metric "snapshot_build_failure" ;;
  _ <- api (PartialUpdate "snapshot" snapshot_id [("state", JInt state.UNRESOURCED)]) ;;
  email "snapshot_build_failure".

Definition call_builder (server_type snapshot : json) : M (bool * json) :=
  try_except
    (if py_eq_str server_type "HyperV" then
       remote_call "WindowsSnapshot" "build" snapshot
     else if py_eq_str server_type "KVM" then
       remote_call "LinuxSnapshot" "build" snapshot
     else
       snapshot <- lift (append_error snapshot "Unsupported server type") ;;
       ret (false, snapshot))
    (fun err =>
       snapshot <- lift (append_error (mutated err snapshot) "An unexpected error occured") ;;
       ret (false, snapshot)).

Definition _build_snapshot (snapshot_id : Z) : M unit :=
  snapshot <- utils.api_read "snapshot" (JInt snapshot_id) ;;
  if negb (truthy snapshot) then
    metric "snapshot_build_failure"
  else
  snapshot_state <- lift (getitem snapshot "state") ;;
  if negb (py_eq_int snapshot_state state.REQUESTED) then
    ret tt
  else
  snapshot <- lift (setitem snapshot "errors" (JList [])) ;;
  response <- api (PartialUpdate "snapshot" (JInt snapshot_id) [("state", JInt state.BUILDING)]) ;;
  if negb (status_code response =? 200) then
    metric "snapshot_build_failure"
  else
  vm <- lift (getitem snapshot "vm") ;;
  server_id <- lift (getitem vm "server_id") ;;
  server <- utils.api_read "server" server_id ;;
  if negb (truthy server) then
    _unresource snapshot
  else
  server_type_ <- lift (getitem server "type") ;;
  server_type <- lift (getitem server_type_ "name") ;;
  snapshot <- lift (setitem snapshot "server_data" server) ;;
  r <- call_builder server_type snapshot ;;
  let '(success, snapshot) := r in
  if success then
    _ <- api (PartialUpdate "snapshot" (JInt snapshot_id) [("state", JInt state.RUNNING)]) ;;
    ret tt
  else
    snapshot <- lift (pop snapshot "server_data") ;;
    _unresource snapshot.

End tasks_snapshot_build.

(** ** tasks/virtual_router/scrub.py *)
Module tasks_virtual_router_scrub.

Definition call_scrubber (virtual_router : json) : M (bool * json) :=
  try_except
    (remote_call "VirtualRouter" "scrub" virtual_router)
    (fun err =>
       virtual_router <-
         lift (append_error (mutated err virtual_router) "An unexpected error occurred") ;;
       ret (false, virtual_router)).

(** [fuel] bounds the pages fetched by the [api_list] of project VMs. *)
Definition _scrub_virtual_router (fuel : nat) (virtual_router_id : Z) : M unit :=
  response <- api (Read "virtual_router" (JInt virtual_router_id)) ;;
  if status_code response =? 404 then
    ret tt
  else if negb (status_code response =? 200) then
    ret tt
  else
  data <- lift (json_of response) ;;
  virtual_router <- lift (getitem data "content") ;;
  vr_state <- lift (getitem virtual_router "state") ;;
  if negb (py_eq_int vr_state state.SCRUB_QUEUE) then
    ret tt
  else
  _ <- api (PartialUpdate "virtual_router" (JInt virtual_router_id)
              [("state", JInt state.SCRUBBING)]) ;;
  project <- lift (getitem virtual_router "project") ;;
  project_id <- lift (getitem project "id") ;;
  let params := [("search[project_id]", project_id);
                 ("exclude[state]", JInt state.CLOSED)] in
  vrf_vms <- utils.api_list fuel "vm" params ;;
  let vm_count := Z.of_nat (List.length vrf_vms) in
  if 0 <? vm_count then
    apply_async "scrub_virtual_router" virtual_router_id 60
  else
  virtual_router <- lift (setitem virtual_router "errors" (JList [])) ;;
  r <- call_scrubber virtual_router ;;
  let '(success, virtual_router) := r in
  if success then
    metric "virtual_router_scrub_success" ;;
    _ <- api (PartialUpdate "virtual_router" (JInt virtual_router_id)
                [("state", JInt state.CLOSED)]) ;;
    ret tt
  else
    metric "virtual_router_scrub_failure" ;;
    _ <- api (PartialUpdate "virtual_router" (JInt virtual_router_id)
                [("state", JInt state.UNRESOURCED)]) ;;
    email "virtual_router_failure".

End tasks_virtual_router_scrub.

(** ** tasks/backup/update.py *)
Module tasks_backup_update.

Definition _unresource (backup : json) : M unit :=
  backup_id <- lift (getitem backup "id") ;;
  metric "backup_update_failure" ;;
  _ <- api (PartialUpdate "backup" backup_id [("state", JInt state.UNRESOURCED)]) ;;
  email "backup_failure".

Definition call_updater (server_type backup : json) : M (bool * json) :=
  try_except
    (if py_eq_str server_type "HyperV" then
       remote_call "WindowsBackup" "update" backup
     else if py_eq_str server_type "KVM" then
       remote_call "LinuxBackup" "update" backup
     else
       backup <- lift (append_error backup "Unsupported server type") ;;
       ret (false, backup))
    (fun err =>
       backup <- lift (append_error (mutated err backup) "An unexpected error occurred") ;;
       ret (false, backup)).

Definition _update_backup (backup_id : Z) : M unit :=
  backup <- utils.api_read "backup" (JInt backup_id) ;;
  if negb (truthy backup) then
    metric "backup_update_failure"
  else
  backup_state <- lift (getitem backup "state") ;;
  if negb (py_eq_int backup_state state.RUNNING_UPDATE) then
    ret tt
  else
  response <- api (PartialUpdate "backup" (JInt backup_id)
                     [("state", JInt state.RUNNING_UPDATING)]) ;;
  if negb (status_code response =? 200) then
    metric "backup_update_failure"
  else
  vm <- lift (getitem backup "vm") ;;
  server_id <- lift (getitem vm "server_id") ;;
  server <- utils.api_read "server" server_id ;;
  if negb (truthy server) then
    ret tt
  else
  server_type_ <- lift (getitem server "type") ;;
  server_type <- lift (getitem server_type_ "name") ;;
  backup <- lift (setitem backup "server_data" server) ;;
  backup <- lift (setitem backup "errors" (JList [])) ;;
  r <- call_updater server_type backup ;;
  let '(success, backup) := r in
  if success then
    response <- api (PartialUpdate "backup" (JInt backup_id)
                       [("state", JInt state.RUNNING)]) ;;
    if negb (status_code response =? 200) then
      metric "backup_update_failure"
    else
      metric "backup_update_success"
  else
    backup <- lift (pop backup "server_data") ;;
    _unresource backup.

End tasks_backup_update.

(** ** tasks/backup/scrub.py *)
Module tasks_backup_scrub.

Definition _unresource (backup : json) : M unit :=
  backup_id <- lift (getitem backup "id") ;;
  metric "backup_scrub_failure" ;;
  _ <- api (PartialUpdate "backup" backup_id [("state", JInt state.UNRESOURCED)]) ;;
  email "backup_failure".

Definition call_scrubber (server_type backup : json) : M (bool * json) :=
  try_except
    (if py_eq_str server_type "HyperV" then
       remote_call "WindowsBackup" "scrub" backup
     else if py_eq_str server_type "KVM" then
       remote_call "LinuxBackup" "scrub" backup
     else
       backup <- lift (append_error backup "Unsupported server type") ;;
       ret (false, backup))
    (fun err =>
       backup <- lift (append_error (mutated err backup) "An unexpected error occured") ;;
       ret (false, backup)).

Definition _scrub_backup (backup_id : Z) : M unit :=
  response <- api (Read "backup" (JInt backup_id)) ;;
  if status_code response =? 404 then
    ret tt
  else if negb (status_code response =? 200) then
    ret tt
  else
  data <- lift (json_of response) ;;
  backup <- lift (getitem data "content") ;;
  backup_state <- lift (getitem backup "state") ;;
  if negb (py_eq_int backup_state state.SCRUB) then
    ret tt
  else
  response <- api (PartialUpdate "backup" (JInt backup_id)
                     [("state", JInt state.SCRUBBING)]) ;;
  (if negb (status_code response =? 200) then
     metric "backup_update_failure"
   else ret tt) ;;
  vm <- lift (getitem backup "vm") ;;
  server_id <- lift (getitem vm "server_id") ;;
  server <- utils.api_read "server" server_id ;;
  if negb (truthy server) then
    ret tt
  else
  server_type_ <- lift (getitem server "type") ;;
  server_type <- lift (getitem server_type_ "name") ;;
  backup <- lift (setitem backup "server_data" server) ;;
  backup <- lift (setitem backup "errors" (JList [])) ;;
  r <- call_scrubber server_type backup ;;
  let '(success, backup) := r in
  if success then
    metric "backup_scrub_success" ;;
    _ <- api (PartialUpdate "backup" (JInt backup_id) [("state", JInt state.CLOSED)]) ;;
    ret tt
  else
    backup <- lift (pop backup "server_data") ;;
    _unresource backup.

End tasks_backup_scrub.

(** ** tasks/snapshot/update.py *)
Module tasks_snapshot_update.

Definition _unresource (snapshot : json) : M unit :=
  snapshot_id <- lift (getitem snapshot "id") ;;
  metric "snapshot_update_failure" ;;
  _ <- api (PartialUpdate "snapshot" snapshot_id [("state", JInt state.UNRESOURCED)]) ;;
  email "snapshot_failure".

Definition call_updater (server_type snapshot : json) : M (bool * json) :=
  try_except
    (if py_eq_str server_type "HyperV" then
       remote_call "WindowsSnapshot" "update" snapshot
     else if py_eq_str server_type "KVM" then
       remote_call "LinuxSnapshot" "update" snapshot
     else
       snapshot <- lift (append_error snapshot "Unsupported server type") ;;
       ret (false, snapshot))
    (fun err =>
       snapshot <- lift (append_error (mutated err snapshot) "An unexpected error occurred") ;;
       ret (false, snapshot)).

Definition _update_snapshot (snapshot_id : Z) : M unit :=
  snapshot <- utils.api_read "snapshot" (JInt snapshot_id) ;;
  if negb (truthy snapshot) then
    metric "snapshot_update_failure"
  else
  snapshot_state <- lift (getitem snapshot "state") ;;
  if negb (py_eq_int snapshot_state state.RUNNING_UPDATE) then
    ret tt
  else
  response <- api (PartialUpdate "snapshot" (JInt snapshot_id)
                     [("state", JInt state.RUNNING_UPDATING)]) ;;
  if negb (status_code response =? 200) then
    metric "snapshot_update_failure"
  else
  vm <- lift (getitem snapshot "vm") ;;
  server_id <- lift (getitem vm "server_id") ;;
  server <- utils.api_read "server" server_id ;;
  if negb (truthy server) then
    ret tt
  else
  server_type_ <- lift (getitem server "type") ;;
  server_type <- lift (getitem server_type_ "name") ;;
  snapshot <- lift (setitem snapshot "server_data" server) ;;
  snapshot <- lift (setitem snapshot "errors" (JList [])) ;;
  r <- call_updater server_type snapshot ;;
  let '(success, snapshot) := r in
  if success then
    response <- api (PartialUpdate "snapshot" (JInt snapshot_id)
                       [("state", JInt state.RUNNING)]) ;;
    if negb (status_code response =? 200) then
      metric "snapshot_update_failure"
    else
      metric "snapshot_update_success"
  else
    snapshot <- lift (pop snapshot "server_data") ;;
    _unresource snapshot.

End tasks_snapshot_update.

(** ** tasks/snapshot/scrub.py *)
Module tasks_snapshot_scrub.

Definition _unresource (snapshot : json) : M unit :=
  snapshot_id <- lift (getitem snapshot "id") ;;
  metric "snapshot_scrub_failure" ;;
  _ <- api (PartialUpdate "snapshot" snapshot_id [("state", JInt state.UNRESOURCED)]) ;;
  email "snapshot_failure".

Definition call_scrubber (server_type snapshot : json) : M (bool * json) :=
  try_except
    (if py_eq_str server_type "HyperV" then
       remote_call "WindowsSnapshot" "scrub" snapshot
     else if py_eq_str server_type "KVM" then
       remote_call "LinuxSnapshot" "scrub" snapshot
     else
       snapshot <- lift (append_error snapshot "Unsupported server type") ;;
       ret (false, snapshot))
    (fun err =>
       snapshot <- lift (append_error (mutated err snapshot) "An unexpected error occured") ;;
       ret (false, snapshot)).

Definition _scrub_snapshot (snapshot_id : Z) : M unit :=
  response <- api (Read "snapshot" (JInt snapshot_id)) ;;
  if status_code response =? 404 then
    ret tt
  else if negb (status_code response =? 200) then
    ret tt
  else
  data <- lift (json_of response) ;;
  snapshot <- lift (getitem data "content") ;;
  snapshot_state <- lift (getitem snapshot "state") ;;
  if negb (py_eq_int snapshot_state state.SCRUB) then
    ret tt
  else
  response <- api (PartialUpdate "snapshot" (JInt snapshot_id)
                     [("state", JInt state.SCRUBBING)]) ;;
  (if negb (status_code response =? 200) then
     metric "snapshot_update_failure"
   else ret tt) ;;
  vm <- lift (getitem snapshot "vm") ;;
  server_id <- lift (getitem vm "server_id") ;;
  server <- utils.api_read "server" server_id ;;
  if negb (truthy server) then
    ret tt
  else
  server_type_ <- lift (getitem server "type") ;;
  server_type <- lift (getitem server_type_ "name") ;;
  snapshot <- lift (setitem snapshot "server_data" server) ;;
  snapshot <- lift (setitem snapshot "errors" (JList [])) ;;
  r <- call_scrubber server_type snapshot ;;
  let '(success, snapshot) := r in
  if success then
    metric "snapshot_scrub_success" ;;
    _ <- api (PartialUpdate "snapshot" (JInt snapshot_id) [("state", JInt state.CLOSED)]) ;;
    ret tt
  else
    snapshot <- lift (pop snapshot "server_data") ;;
    _unresource snapshot.

End tasks_snapshot_scrub.

(** ** VPN notifications after a router build or update *)

(** [[vpn for vpn in vpns if vpn['send_email']]] *)
Fixpoint send_email_vpns (vpns : list json) : res (list json) :=
  match vpns with
  | [] => Ret []
  | vpn :: rest =>
      match getitem vpn "send_email" with
      | Ret flag =>
          match send_email_vpns rest with
          | Ret selected => Ret (if truthy flag then vpn :: selected else selected)
          | Raise e => Raise e
          | OutOfFuel => OutOfFuel
          end
      | Raise e => Raise e
      | OutOfFuel => OutOfFuel
      end
  end.

(** The loop [for vpn in send_email_vpns] shared by the build and update
    tasks of the router; [notifier] is [vpn_build_success] or
    [vpn_update_success].  The handler of the [try] formats a message with
    [vpn["id"]]. *)
Fixpoint notify_vpns (notifier : string) (virtual_router : json)
    (vpns : list json) : M unit :=
  match vpns with
  | [] => ret tt
  | vpn :: rest =>
      ip <- lift (getitem virtual_router "virtual_router_ip") ;;
      vpn <- lift (setitem vpn "virtual_router_ip" ip) ;;
      cpe <- lift (getitem virtual_router "podnet_cpe") ;;
      vpn <- lift (setitem vpn "podnet_cpe" cpe) ;;
      try_except
        (send_email notifier vpn ;;
         vpn_id <- lift (getitem vpn "id") ;;
         _ <- api (PartialUpdate "vpn" vpn_id [("send_email", JBool false)]) ;;
         ret tt)
        (fun _ => _ <- lift (getitem vpn "id") ;; ret tt) ;;
      notify_vpns notifier virtual_router rest
  end.

(** ** tasks/virtual_router/build.py *)
Module tasks_virtual_router_build.

Definition call_builder (virtual_router : json) : M (bool * json) :=
  try_except
    (remote_call "VirtualRouter" "build" virtual_router)
    (fun err => ret (false, mutated err virtual_router)).

Definition _build_virtual_router (virtual_router_id : Z) : M unit :=
  virtual_router <- utils.api_read "virtual_router" (JInt virtual_router_id) ;;
  if negb (truthy virtual_router) then
    metric "virtual_router_build_failure"
  else
  vr_state <- lift (getitem virtual_router "state") ;;
  if negb (py_eq_int vr_state state.REQUESTED) then
    ret tt
  else
  virtual_router <- lift (setitem virtual_router "errors" (JList [])) ;;
  response <- api (PartialUpdate "virtual_router" (JInt virtual_router_id)
                     [("state", JInt state.BUILDING)]) ;;
  if negb (status_code response =? 200) then
    metric "virtual_router_build_failure"
  else
  r <- call_builder virtual_router ;;
  let '(success, virtual_router) := r in
  if success then
    metric "virtual_router_build_success" ;;
    _ <- api (PartialUpdate "virtual_router" (JInt virtual_router_id)
                [("state", JInt state.RUNNING)]) ;;
    vpns <- lift (get_default virtual_router "vpns" (JList [])) ;;
    vpns <- lift (py_iter vpns) ;;
    selected <- lift (send_email_vpns vpns) ;;
    notify_vpns "vpn_build_success" virtual_router selected
  else
    metric "virtual_router_build_failure" ;;
    _ <- api (PartialUpdate "virtual_router" (JInt virtual_router_id)
                [("state", JInt state.UNRESOURCED)]) ;;
    email "virtual_router_failure".

End tasks_virtual_router_build.

(** ** tasks/virtual_router/update.py *)
Module tasks_virtual_router_update.

Definition call_updater (virtual_router : json) : M (bool * json) :=
  try_except
    (remote_call "VirtualRouter" "update" virtual_router)
    (fun err =>
       virtual_router <-
         lift (append_error (mutated err virtual_router) "An unexpected error occurred") ;;
       ret (false, virtual_router)).

Definition _update_virtual_router (virtual_router_id : Z) : M unit :=
  virtual_router <- utils.api_read "virtual_router" (JInt virtual_router_id) ;;
  if negb (truthy virtual_router) then
    metric "virtual_router_update_failure"
  else
  vr_state <- lift (getitem virtual_router "state") ;;
  if negb (py_eq_int vr_state state.RUNNING_UPDATE
           || py_eq_int vr_state state.QUIESCED_UPDATE) then
    ret tt
  else
  let progress_state :=
    if py_eq_int vr_state state.QUIESCED_UPDATE
    then state.QUIESCED_UPDATING else state.RUNNING_UPDATING in
  let stable_state :=
    if py_eq_int vr_state state.QUIESCED_UPDATE
    then state.QUIESCED else state.RUNNING in
  response <- api (PartialUpdate "virtual_router" (JInt virtual_router_id)
                     [("state", JInt progress_state)]) ;;
  if negb (status_code response =? 200) then
    metric "virtual_router_update_failure"
  else
  virtual_router <- lift (setitem virtual_router "errors" (JList [])) ;;
  r <- call_updater virtual_router ;;
  let '(success, virtual_router) := r in
  if success then
    metric "virtual_router_update_success" ;;
    _ <- api (PartialUpdate "virtual_router" (JInt virtual_router_id)
                [("state", JInt stable_state)]) ;;
    vpns <- lift (get_default virtual_router "vpns" (JList [])) ;;
    vpns <- lift (py_iter vpns) ;;
    selected <- lift (send_email_vpns vpns) ;;
    notify_vpns "vpn_update_success" virtual_router selected
  else
    metric "virtual_router_update_failure" ;;
    _ <- api (PartialUpdate "virtual_router" (JInt virtual_router_id)
                [("state", JInt state.UNRESOURCED)]) ;;
    email "virtual_router_failure".

End tasks_virtual_router_update.

(** ** tasks/virtual_router/quiesce.py *)
Module tasks_virtual_router_quiesce.

Definition call_quiescer (virtual_router : json) : M (bool * json) :=
  try_except
    (remote_call "VirtualRouter" "quiesce" virtual_router)
    (fun err =>
       virtual_router <-
         lift (append_error (mutated err virtual_router) "An unexpected error occurred") ;;
       ret (false, virtual_router)).

Definition _quiesce_virtual_router (virtual_router_id : Z) : M unit :=
  virtual_router <- utils.api_read "virtual_router" (JInt virtual_router_id) ;;
  if negb (truthy virtual_router) then
    metric "virtual_router_quiesce_failure"
  else
  vr_state <- lift (getitem virtual_router "state") ;;
  if negb (py_eq_int vr_state state.QUIESCE || py_eq_int vr_state state.SCRUB) then
    ret tt
  else
  response <-
    (if py_eq_int vr_state state.QUIESCE then
       api (PartialUpdate "virtual_router" (JInt virtual_router_id)
              [("state", JInt state.QUIESCING)])
     else
       api (PartialUpdate "virtual_router" (JInt virtual_router_id)
              [("state", JInt state.SCRUB_PREP)])) ;;
  if negb (status_code response =? 200) then
    metric "virtual_router_quiesce_failure"
  else
  virtual_router <- lift (setitem virtual_router "errors" (JList [])) ;;
  r <- call_quiescer virtual_router ;;
  let '(success, virtual_router) := r in
  if success then
    metric "virtual_router_quiesce_success" ;;
    vr_state <- lift (getitem virtual_router "state") ;;
    if py_eq_int vr_state state.QUIESCE then
      _ <- api (PartialUpdate "virtual_router" (JInt virtual_router_id)
                  [("state", JInt state.QUIESCED)]) ;;
      ret tt
    else if py_eq_int vr_state state.SCRUB then
      _ <- api (PartialUpdate "virtual_router" (JInt virtual_router_id)
                  [("state", JInt state.SCRUB_QUEUE)]) ;;
      ret tt
    else
      ret tt
  else
    metric "virtual_router_quiesce_failure" ;;
    _ <- api (PartialUpdate "virtual_router" (JInt virtual_router_id)
                [("state", JInt state.UNRESOURCED)]) ;;
    email "virtual_router_failure".

End tasks_virtual_router_quiesce.

(** ** tasks/virtual_router/restart.py *)
Module tasks_virtual_router_restart.

Definition call_restarter (virtual_router : json) : M (bool * json) :=
  try_except
    (remote_call "VirtualRouter" "restart" virtual_router)
    (fun err =>
       virtual_router <-
         lift (append_error (mutated err virtual_router) "An unexpected error occurred") ;;
       ret (false, virtual_router)).

Definition _restart_virtual_router (virtual_router_id : Z) : M unit :=
  virtual_router <- utils.api_read "virtual_router" (JInt virtual_router_id) ;;
  if negb (truthy virtual_router) then
    metric "virtual_router_restart_failure"
  else
  vr_state <- lift (getitem virtual_router "state") ;;
  if negb (py_eq_int vr_state state.RESTART) then
    ret tt
  else
  response <- api (PartialUpdate "virtual_router" (JInt virtual_router_id)
                     [("state", JInt state.RESTARTING)]) ;;
  if negb (status_code response =? 200) then
    metric "virtual_router_restart_failure"
  else
  virtual_router <- lift (setitem virtual_router "errors" (JList [])) ;;
  r <- call_restarter virtual_router ;;
  let '(success, virtual_router) := r in
  if success then
    metric "virtual_router_restart_success" ;;
    _ <- api (PartialUpdate "virtual_router" (JInt virtual_router_id)
                [("state", JInt state.RUNNING)]) ;;
    ret tt
  else
    metric "virtual_router_restart_failure" ;;
    _ <- api (PartialUpdate "virtual_router" (JInt virtual_router_id)
                [("state", JInt state.UNRESOURCED)]) ;;
    email "virtual_router_failure".

End tasks_virtual_router_restart.

(** ** mainloop.py *)
Module mainloop.

(** [len(obj)] *)
Definition py_len (obj : json) : res Z :=
  match obj with
  | JList l => Ret (Z.of_nat (List.length l))
  | JDict d => Ret (Z.of_nat (List.length d))
  | JStr s => Ret (Z.of_nat (String.length s))
  | _ => Raise TypeError
  end.

(** [run_robot_get()]; [None] is Python's None.  The whole body sits in
    [try ... except Exception: return None]. *)
Fixpoint run_robot_get_rec (depth : nat) : M (option json) :=
  match depth with
  | O => raise RecursionError
  | S depth' =>
      try_except
        (response <- api (ListReq "run_robot" []) ;;
         expired <- token_is_expired response ;;
         (if expired then _ <- run_robot_get_rec depth' ;; ret tt else ret tt) ;;
         if negb (status_code response =? 200) then
           ret None
         else
           data <- lift (json_of response) ;;
           content <- lift (getitem data "content") ;;
           project_ids <- lift (getitem content "project_ids") ;;
           n <- lift (py_len project_ids) ;;
           if 0 <? n then ret (Some content) else ret None)
        (fun _ => ret None)
  end.

Definition run_robot_get : M (option json) :=
  w <- ask ;; run_robot_get_rec (recursion_limit w).

End mainloop.

(** ** cloudcix_token.py *)
Module cloudcix_token.

(** [datetime.timedelta], normalised as Python does:
    [0 <= seconds < 86400] and [0 <= microseconds < 10^6]. *)
Record timedelta : Type := mkTimedelta {
  days : Z;
  seconds : Z;
  microseconds : Z
}.

(** [a - b] for two datetimes given in microseconds since the epoch. *)
Definition datetime_sub (a b : Z) : timedelta :=
  let us := a - b in
  mkTimedelta (us / 86400000000)
              ((us mod 86400000000) / 1000000)
              (us mod 1000000).

Definition THRESHOLD : Z := 40.

Record Token : Type := mkToken {
  _token : string;
  _created : Z
}.

(** The [token] property.  [now] is the value of the first
    [datetime.utcnow()], [now'] the value of the second one and
    [admin_token] what [get_admin_token()] returns if it is called.
    The test [delta.seconds / 60 > THRESHOLD] is a true division of an
    integer below 86400 by 60 compared with 40; it holds exactly when
    [seconds > 60 * THRESHOLD].  The result is the token returned, the
    holder afterwards, and whether [get_admin_token()] was called. *)
Definition token (self : Token) (now now' : Z) (admin_token : string)
  : string * Token * bool :=
  if 60 * THRESHOLD <? seconds (datetime_sub now (_created self)) then
    (admin_token, mkToken admin_token now', true)
  else
    (_token self, self, false).

End cloudcix_token.

(** * Observations on runs *)

(** ** Traces *)

Definition is_read (e : Event) : Prop :=
  match e with
  | EApi (Read _ _) _ => True
  | EApi (ListReq _ _) _ => True
  | _ => False
  end.

Definition is_remote (e : Event) : bool :=
  match e with ERemote _ _ => true | _ => false end.

Definition is_write (e : Event) : bool :=
  match e with
  | EApi (PartialUpdate _ _ _) _ => true
  | EApi (Create _ _) _ => true
  | _ => false
  end.

(** The values of [state] sent in partial updates of resource [id] of
    [client], in the order in which the run sent them. *)
Definition state_writes (client : string) (id : Z) (tr : list Event) : list json :=
  flat_map
    (fun e =>
       match e with
       | EApi (PartialUpdate c (JInt pk) data) _ =>
           if String.eqb c client && (pk =? id) then
             match assoc "state" data with Some v => [v] | None => [] end
           else []
       | _ => []
       end) tr.

(** The state of resource [id] in the API after a run that started with the
    resource in state [init]: a partial update takes effect when it is
    answered with 200. *)
Definition api_state (client : string) (id : Z) (init : json) (tr : list Event) : json :=
  fold_left
    (fun cur e =>
       match e with
       | EApi (PartialUpdate c (JInt pk) data) status =>
           if String.eqb c client && (pk =? id) && (status =? 200) then
             match assoc "state" data with Some v => v | None => cur end
           else cur
       | _ => cur
       end) tr init.

Definition scheduled (tr : list Event) : list (string * Z * Z) :=
  flat_map
    (fun e => match e with ESchedule t a d => [(t, a, d)] | _ => [] end) tr.

Definition remote_calls (tr : list Event) : list Event := filter is_remote tr.

(** ** Effect discipline: which events a computation may add *)

Definition emits {A} (P : Event -> Prop) (m : M A) : Prop :=
  forall w st, exists evs,
    trace (snd (m w st)) = trace st ++ evs /\ Forall P evs.


(** * Scenarios: concrete worlds on which the workers are run *)
Module scenarios.

Definition ok (content : json) : Response :=
  mkResponse 200 (Some (JDict [("content", content)])).

Definition failed (status : Z) : Response :=
  mkResponse status (Some (JDict [("detail", JStr "error")])).

Definition expired : Response :=
  mkResponse 401
    (Some (JDict [("detail", JStr "JWT token is expired. Please login again.")])).

Definition page (content : list json) (total_records : Z) : Response :=
  mkResponse 200
    (Some (JDict [("content", JList content);
                  ("_metadata", JDict [("total_records", JInt total_records)])])).

Definition server (id : Z) (type : string) : json :=
  JDict [("id", JInt id); ("type", JDict [("name", JStr type)])].

Definition vm (id st server_id vr_id : Z) : json :=
  JDict [("id", JInt id); ("state", JInt st); ("server_id", JInt server_id);
         ("project", JDict [("id", JInt 1); ("virtual_router_id", JInt vr_id)]);
         ("created", JStr "2020-01-01T00:00:00.000000")].

Definition virtual_router (id st project_id : Z) : json :=
  JDict [("id", JInt id); ("state", JInt st);
         ("project", JDict [("id", JInt project_id)])].

Definition backup (id st vm_id server_id : Z) : json :=
  JDict [("id", JInt id); ("state", JInt st);
         ("vm", JDict [("id", JInt vm_id); ("server_id", JInt server_id)])].

(** A remote driver that succeeds and leaves the resource untouched. *)
Definition driver_ok : string -> string -> json -> RemoteResult :=
  fun _ _ obj => Returns true obj.

(** Whether a partial update asks for state [s]. *)
Definition sets_state (data : list (string * json)) (s : Z) : bool :=
  match assoc "state" data with Some v => py_eq_int v s | None => false end.

(** A world given by its answers to reads, lists and partial updates,
    independent of the position of the call in the run. *)
Definition world_of (reads : string -> json -> Response)
    (lists : string -> Response)
    (updates : string -> list (string * json) -> Response) : World :=
  mkWorld
    (fun req _ =>
       match req with
       | Read client pk => reads client pk
       | ListReq client _ => lists client
       | PartialUpdate client _ data => updates client data
       | Create _ _ => failed 500
       end)
    driver_ok (fun _ => true) (fun _ _ => true) 1000.

(** VM 100 waits in SCRUB_QUEUE on KVM server 7; the API refuses the
    update to SCRUBBING with HTTP 500 and accepts every other update. *)
Definition vm_scrub_update_refused : World :=
  world_of
    (fun client _ =>
       if String.eqb client "vm" then ok (vm 100 state.SCRUB_QUEUE 7 5)
       else if String.eqb client "server" then ok (server 7 "KVM")
       else failed 404)
    (fun _ => page [] 0)
    (fun _ data => if sets_state data state.SCRUBBING then failed 500 else ok JNull).

(** Virtual router 9 of project 3 waits in SCRUB_QUEUE, the project has no
    VM left; the API refuses the update to SCRUBBING with HTTP 500. *)
Definition vr_scrub_update_refused : World :=
  world_of
    (fun client _ =>
       if String.eqb client "virtual_router"
       then ok (virtual_router 9 state.SCRUB_QUEUE 3)
       else failed 404)
    (fun _ => page [] 0)
    (fun _ data => if sets_state data state.SCRUBBING then failed 500 else ok JNull).

(** Virtual router 9 of project 3 is in state [st]; VM 42 of the project
    is RUNNING; every update is accepted. *)
Definition vr_scrub_live_vm (st : Z) : World :=
  world_of
    (fun client _ =>
       if String.eqb client "virtual_router" then ok (virtual_router 9 st 3)
       else failed 404)
    (fun _ => page [vm 42 state.RUNNING 7 9] 1)
    (fun _ _ => ok JNull).

(** VM 100 waits in SCRUB_QUEUE; its server 7 cannot be read (HTTP 500);
    every update is accepted. *)
Definition vm_scrub_server_unreadable : World :=
  world_of
    (fun client _ =>
       if String.eqb client "vm" then ok (vm 100 state.SCRUB_QUEUE 7 5)
       else failed 500)
    (fun _ => page [] 0)
    (fun _ _ => ok JNull).

Definition pending_work : json :=
  JDict [("project_ids", JList [JInt 1]);
         ("vms", JDict [("build", JList [JInt 42])])].

(** The first call of the run is answered "token is expired", every later
    call is answered 200 with pending work for project 1. *)
Definition token_expired_once : World :=
  mkWorld
    (fun _ n => match n with O => expired | S _ => ok pending_work end)
    driver_ok (fun _ => true) (fun _ _ => true) 1000.

(** VM 42 (server 7, router 9) is in state [vm_state] and router 9 in
    state [vr_state]; server 7 has type [server_type]; every update is
    accepted. *)
Definition vm_and_router (vm_state vr_state : Z) (server_type : string) : World :=
  world_of
    (fun client _ =>
       if String.eqb client "vm" then ok (vm 42 vm_state 7 9)
       else if String.eqb client "virtual_router"
       then ok (virtual_router 9 vr_state 1)
       else if String.eqb client "server" then ok (server 7 server_type)
       else failed 404)
    (fun _ => page [] 0)
    (fun _ _ => ok JNull).

(** VM 42 is REQUESTED; the read of its router 9 is answered 500. *)
Definition vm_router_unreadable : World :=
  world_of
    (fun client _ =>
       if String.eqb client "vm" then ok (vm 42 state.REQUESTED 7 9)
       else failed 500)
    (fun _ => page [] 0)
    (fun _ _ => ok JNull).


(** Backup 5 of VM 42 is REQUESTED; server 7 of the VM has type Phantom;
    every update is accepted. *)
Definition backup_on_phantom : World :=
  world_of
    (fun client _ =>
       if String.eqb client "backup" then ok (backup 5 state.REQUESTED 42 7)
       else if String.eqb client "server" then ok (server 7 "Phantom")
       else failed 404)
    (fun _ => page [] 0)
    (fun _ _ => ok JNull).

End scenarios.

(** * The workers as a family *)

Inductive Worker : Type :=
| BuildVM
| ScrubVM
| QuiesceVM
| RestartVM
| BuildBackup
| UpdateBackup
| ScrubBackup
| BuildSnapshot
| UpdateSnapshot
| ScrubSnapshot
| BuildVirtualRouter
| UpdateVirtualRouter
| QuiesceVirtualRouter
| RestartVirtualRouter
| ScrubVirtualRouter (fuel : nat).

Definition task (k : Worker) : Z -> M unit :=
  match k with
  | BuildVM => tasks_vm_build._build_vm
  | ScrubVM => tasks_vm_scrub._scrub_vm
  | QuiesceVM => tasks_vm_quiesce._quiesce_vm
  | RestartVM => tasks_vm_restart._restart_vm
  | BuildBackup => tasks_backup_build._build_backup
  | UpdateBackup => tasks_backup_update._update_backup
  | ScrubBackup => tasks_backup_scrub._scrub_backup
  | BuildSnapshot => tasks_snapshot_build._build_snapshot
  | UpdateSnapshot => tasks_snapshot_update._update_snapshot
  | ScrubSnapshot => tasks_snapshot_scrub._scrub_snapshot
  | BuildVirtualRouter => tasks_virtual_router_build._build_virtual_router
  | UpdateVirtualRouter => tasks_virtual_router_update._update_virtual_router
  | QuiesceVirtualRouter => tasks_virtual_router_quiesce._quiesce_virtual_router
  | RestartVirtualRouter => tasks_virtual_router_restart._restart_virtual_router
  | ScrubVirtualRouter fuel => tasks_virtual_router_scrub._scrub_virtual_router fuel
  end.

(** The API client of the resource kind a worker operates on. *)
Definition client_of (k : Worker) : string :=
  match k with
  | BuildVM | ScrubVM | QuiesceVM | RestartVM => "vm"
  | BuildBackup | UpdateBackup | ScrubBackup => "backup"
  | BuildSnapshot | UpdateSnapshot | ScrubSnapshot => "snapshot"
  | BuildVirtualRouter | UpdateVirtualRouter | QuiesceVirtualRouter
  | RestartVirtualRouter | ScrubVirtualRouter _ => "virtual_router"
  end.

(** The states in which a worker accepts the resource. *)
Definition trigger_states (k : Worker) : list Z :=
  match k with
  | BuildVM | BuildBackup | BuildSnapshot | BuildVirtualRouter => [state.REQUESTED]
  | UpdateBackup | UpdateSnapshot => [state.RUNNING_UPDATE]
  | UpdateVirtualRouter => [state.RUNNING_UPDATE; state.QUIESCED_UPDATE]
  | ScrubVM | ScrubVirtualRouter _ => [state.SCRUB_QUEUE]
  | ScrubBackup | ScrubSnapshot => [state.SCRUB]
  | QuiesceVM | QuiesceVirtualRouter => [state.QUIESCE; state.SCRUB]
  | RestartVM | RestartVirtualRouter => [state.RESTART]
  end.

(** A single [client.read] whose content is used only when the status is
    200, as the scrub workers read their resource. *)
Definition direct_read (client : string) (id : Z) : M json :=
  response <- api (Read client (JInt id)) ;;
  if status_code response =? 200 then
    data <- lift (json_of response) ;;
    lift (getitem data "content")
  else ret (JDict []).

(** The first step of every worker: the read of its resource. *)
Definition fetch (k : Worker) (id : Z) : M json :=
  match k with
  | ScrubVM | ScrubBackup | ScrubSnapshot | ScrubVirtualRouter _ =>
      direct_read (client_of k) id
  | _ => utils.api_read (client_of k) (JInt id)
  end.


(** * Statements about single workers *)





(** ** Phantom servers *)

(** The in-progress state and the success state of the operation of worker
    [k] started from trigger state [s] (table of the state machine). *)
Definition in_progress (k : Worker) (s : Z) : Z :=
  match k with
  | BuildVM | BuildBackup | BuildSnapshot | BuildVirtualRouter => state.BUILDING
  | UpdateBackup | UpdateSnapshot => state.RUNNING_UPDATING
  | UpdateVirtualRouter =>
      if s =? state.QUIESCED_UPDATE
      then state.QUIESCED_UPDATING else state.RUNNING_UPDATING
  | ScrubVM | ScrubBackup | ScrubSnapshot | ScrubVirtualRouter _ => state.SCRUBBING
  | QuiesceVM | QuiesceVirtualRouter =>
      if s =? state.QUIESCE then state.QUIESCING else state.SCRUB_PREP
  | RestartVM | RestartVirtualRouter => state.RESTARTING
  end.

Definition success (k : Worker) (s : Z) : Z :=
  match k with
  | BuildVM | BuildBackup | BuildSnapshot | BuildVirtualRouter => state.RUNNING
  | UpdateBackup | UpdateSnapshot => state.RUNNING
  | UpdateVirtualRouter =>
      if s =? state.QUIESCED_UPDATE then state.QUIESCED else state.RUNNING
  | ScrubVM | ScrubBackup | ScrubSnapshot | ScrubVirtualRouter _ => state.CLOSED
  | QuiesceVM | QuiesceVirtualRouter =>
      if s =? state.QUIESCE then state.QUIESCED else state.SCRUB_QUEUE
  | RestartVM | RestartVirtualRouter => state.RUNNING
  end.

(** The run of worker [k] on resource [id], found in trigger state [s],
    short-circuits: no remote driver is called and the states written are
    the in-progress state followed by the success state only. *)
Definition short_circuits (k : Worker) (w : World) (id s : Z) : Prop :=
  let tr := trace (snd (run (task k id) w)) in
  remote_calls tr = []
  /\ state_writes (client_of k) id tr
     = [JInt (in_progress k s); JInt (success k s)].

(** The run is treated as a failure without remote work: no remote driver
    is called and the states written are the in-progress state followed by
    UNRESOURCED. *)
Definition unresourced_without_remote (k : Worker) (w : World) (id s : Z) : Prop :=
  let tr := trace (snd (run (task k id) w)) in
  remote_calls tr = []
  /\ state_writes (client_of k) id tr
     = [JInt (in_progress k s); JInt state.UNRESOURCED].

(** Every read of [pk] on [client] is answered 200 with content [obj]. *)
Definition serves (w : World) (client : string) (pk obj : json) : Prop :=
  forall n,
    status_code (respond w (Read client pk) n) = 200
    /\ exists data,
         body (respond w (Read client pk) n) = Some data
         /\ getitem data "content" = Ret obj.

(** The update of resource [id] of [client] to state [s] is answered 200. *)
Definition accepts (w : World) (client : string) (id s : Z) : Prop :=
  forall n,
    status_code (respond w (PartialUpdate client (JInt id) [("state", JInt s)]) n)
    = 200.

(** [obj] is a server record of the given type. *)
Definition server_of_type (obj : json) (type : string) : Prop :=
  exists t, getitem obj "type" = Ret t /\ getitem t "name" = Ret (JStr type).

(** The key under which the resource of worker [k] names its server:
    a VM carries [server_id], a backup or snapshot carries it in its [vm]. *)
Definition server_id_of (k : Worker) (resource : json) : res json :=
  match k with
  | BuildBackup | UpdateBackup | ScrubBackup
  | BuildSnapshot | UpdateSnapshot | ScrubSnapshot =>
      match getitem resource "vm" with
      | Ret vm => getitem vm "server_id"
      | Raise e => Raise e
      | OutOfFuel => OutOfFuel
      end
  | _ => getitem resource "server_id"
  end.

(** For the VM build worker: the router of the VM's project is served in
    state RUNNING; no condition for the other workers. *)
Definition router_running (k : Worker) (w : World) (resource : json) : Prop :=
  match k with
  | BuildVM =>
      exists project vr_id vr vr_pk,
        getitem resource "project" = Ret project
        /\ getitem project "virtual_router_id" = Ret vr_id
        /\ serves w "virtual_router" vr_id vr
        /\ getitem vr "state" = Ret (JInt state.RUNNING)
        /\ getitem vr "id" = Ret vr_pk
  | _ => True
  end.

(** What a worker does on a Phantom server: the VM workers short-circuit,
    the Backup and Snapshot workers have no case for Phantom and take the
    path of an unsupported server type.  The workers of the virtual router
    read no server. *)
Definition on_phantom (k : Worker) (w : World) (id s : Z) : Prop :=
  match k with
  | BuildVM | ScrubVM | QuiesceVM | RestartVM => short_circuits k w id s
  | BuildBackup | UpdateBackup | ScrubBackup
  | BuildSnapshot | UpdateSnapshot | ScrubSnapshot =>
      unresourced_without_remote k w id s
  | BuildVirtualRouter | UpdateVirtualRouter | QuiesceVirtualRouter
  | RestartVirtualRouter | ScrubVirtualRouter _ => True
  end.

(** * Further statements on the workers *)



(** The workers that test the answer to their in-progress update. *)
Definition checks_in_progress (k : Worker) : bool :=
  match k with
  | ScrubVM | ScrubBackup | ScrubSnapshot | ScrubVirtualRouter _ => false
  | _ => true
  end.

(** The states a worker may write: UNRESOURCED and, for each of its trigger
    states, the in-progress and the success state of the operation. *)
Definition lifecycle_states (k : Worker) : list Z :=
  state.UNRESOURCED
  :: flat_map (fun s => [in_progress k s; success k s]) (trigger_states k).

(** The events a run of worker [k] may contain: anything but a create, and
    of the partial updates only those that set a life-cycle state of [k] on
    a resource of its own kind or reset [send_email] of a VPN. *)
Definition allowed_event (k : Worker) (e : Event) : Prop :=
  match e with
  | EApi (PartialUpdate client _ data) _ =>
      (client = client_of k
       /\ exists s, assoc "state" data = Some (JInt s) /\ In s (lifecycle_states k))
      \/ (client = "vpn" /\ data = [("send_email", JBool false)])
  | EApi (Create _ _) _ => False
  | _ => True
  end.



(** ** The outcome of the remote driver and the final state *)









(** The scrub workers. *)
Definition scrubs (k : Worker) : bool := negb (checks_in_progress k).

(** ** Further worlds *)
Module cases.

(** The API answers every request with HTTP 500. *)
Definition api_down : World :=
  scenarios.world_of
    (fun _ _ => scenarios.failed 500)
    (fun _ => scenarios.failed 500)
    (fun _ _ => scenarios.failed 500).



End cases.

(** ** Expired tokens *)

(** The answer the API gives to a request made with an expired token. *)
Definition token_expired (r : Response) : Prop :=
  status_code r = 401
  /\ exists data detail,
       body r = Some data
       /\ getitem data "detail" = Ret detail
       /\ py_in_str "token is expired" detail = Ret true.

(** ** A collection served in pages *)

(** The API serves the records of [client] as the pages [pages], selected
    by the [page] parameter of the request, and reports [total] records. *)
Definition serves_pages (w : World) (client : string)
    (pages : list (list json)) (total : Z) : Prop :=
  forall params i n,
    assoc "page" params = Some (JInt (Z.of_nat i)) ->
    (i < List.length pages)%nat ->
    let r := respond w (ListReq client params) n in
    status_code r = 200
    /\ exists data metadata,
         body r = Some data
         /\ getitem data "content" = Ret (JList (nth i pages []))
         /\ getitem data "_metadata" = Ret metadata
         /\ getitem metadata "total_records" = Ret (JInt total).

(** The requests of a listing that fetches pages [from], [from + 1], ...
    one after the other, each answered 200. *)
Fixpoint page_requests (client : string) (params : list (string * json))
    (from : Z) (count : nat) : list Event :=
  match count with
  | O => []
  | S count' =>
      EApi (ListReq client (assoc_set "page" (JInt from) params)) 200
      :: page_requests client params (from + 1) count'
  end.

Module listing.

(** VMs 1, 2 and 3 are served on two pages, selected by the [page]
    parameter; any other page is answered 404. *)
Definition two_pages : World :=
  mkWorld
    (fun req _ =>
       match req with
       | ListReq _ params =>
           match assoc "page" params with
           | Some (JInt 0) => scenarios.page [JInt 1; JInt 2] 3
           | Some (JInt 1) => scenarios.page [JInt 3] 3
           | _ => scenarios.failed 404
           end
       | _ => scenarios.failed 404
       end)
    scenarios.driver_ok (fun _ => true) (fun _ _ => true) 1000.

End listing.

(** ** What [run_robot_get] hands to the main loop *)

(** The answer carries pending work: status 200 and, under [content], a
    non-empty [project_ids]. *)
Definition pending (r : Response) (content : json) : Prop :=
  status_code r = 200
  /\ exists data project_ids n,
       body r = Some data
       /\ getitem data "content" = Ret content
       /\ getitem content "project_ids" = Ret project_ids
       /\ mainloop.py_len project_ids = Ret n
       /\ 0 < n.

(** * The main loop *)

(** What the main loop does, in order: the effects of the API layer, the
    tasks it queues, its heartbeat, its sleeps and the flush of its logs. *)
Inductive Action : Type :=
| Did (e : Event)
| Delay (task : string) (arg : json)
| Heartbeat
| Sleep (seconds : Z)
| Flush.

Record Loop : Type := mkLoop {
  api_calls : nat;
  actions : list Action
}.

Definition L (A : Type) : Type := World -> Loop -> res A * Loop.

Declare Scope loop_scope.
Delimit Scope loop_scope with loop.
Bind Scope loop_scope with L.

Definition lret {A} (a : A) : L A := fun _ st => (Ret a, st).

Definition lbind {A B} (m : L A) (k : A -> L B) : L B :=
  fun w st =>
    match m w st with
    | (Ret a, st') => k a w st'
    | (Raise e, st') => (Raise e, st')
    | (OutOfFuel, st') => (OutOfFuel, st')
    end.

Notation "x <- m ;; k" := (lbind m (fun x => k))
  (at level 61, m at next level, right associativity) : loop_scope.
Notation "m ;; k" := (lbind m (fun _ => k))
  (at level 61, right associativity) : loop_scope.

Definition llift {A} (r : res A) : L A := fun _ st => (r, st).

Definition act (a : Action) : L unit :=
  fun _ st => (Ret tt, mkLoop (api_calls st) (actions st ++ [a])).


(** An effectful computation of the API layer, run inside the loop. *)
Definition embed {A} (m : M A) : L A :=
  fun w st =>
    let '(r, st') := m w (mkSt (api_calls st) []) in
    (r, mkLoop (calls st') (actions st ++ map Did (trace st'))).

(** [task.delay(arg)] *)
Definition delay (task : string) (arg : json) : L unit := act (Delay task arg).

(** [for x in items: body(x)] *)
Fixpoint for_each (items : list json) (body : json -> L unit) : L unit :=
  match items with
  | [] => lret tt
  | x :: items' => lbind (body x) (fun _ => for_each items' body)
  end.

Definition lrun {A} (m : L A) (w : World) : res A * Loop := m w (mkLoop 0 []).

(** [a + b] *)
Definition py_add (a b : json) : res json :=
  match a, b with
  | JList l1, JList l2 => Ret (JList (l1 ++ l2))
  | JStr s1, JStr s2 => Ret (JStr (s1 ++ s2))
  | JInt x, JInt y => Ret (JInt (x + y))
  | JInt x, JBool y => Ret (JInt (x + (if y then 1 else 0)))
  | JBool x, JInt y => Ret (JInt ((if x then 1 else 0) + y))
  | JBool x, JBool y => Ret (JInt ((if x then 1 else 0) + (if y then 1 else 0)))
  | _, _ => Raise TypeError
  end.

(** [a += b]: a list is extended in place by the elements of any iterable. *)
Definition py_iadd (a b : json) : res json :=
  match a with
  | JList l =>
      match py_iter b with
      | Ret items => Ret (JList (l ++ items))
      | Raise e => Raise e
      | OutOfFuel => OutOfFuel
      end
  | _ => py_add a b
  end.

(** ** dispatcher/vm.py, backup.py, snapshot.py, virtual_router.py *)
Module dispatchers.

Module VM.
Definition build (vm_id : json) : L unit := delay "build_vm" vm_id.
Definition quiesce (vm_id : json) : L unit := delay "quiesce_vm" vm_id.
Definition restart (vm_id : json) : L unit := delay "restart_vm" vm_id.
Definition scrub (vm_id : json) : L unit := delay "scrub_vm" vm_id.
Definition update (vm_id : json) : L unit := delay "update_vm" vm_id.
End VM.

Module Backup.
Definition build (backup_id : json) : L unit := delay "build_backup" backup_id.
Definition scrub (backup_id : json) : L unit := delay "scrub_backup" backup_id.
Definition update (backup_id : json) : L unit := delay "update_backup" backup_id.
End Backup.

Module Snapshot.
Definition build (snapshot_id : json) : L unit := delay "build_snapshot" snapshot_id.
Definition scrub (snapshot_id : json) : L unit := delay "scrub_snapshot" snapshot_id.
Definition update (snapshot_id : json) : L unit := delay "update_snapshot" snapshot_id.
End Snapshot.

(** What [Robot] calls on its [virtual_router_dispatcher], which is a
    [VirtualRouter] or a [PhantomVirtualRouter]. *)
Record VirtualRouterDispatcher : Type := mkVirtualRouterDispatcher {
  build : json -> L unit;
  quiesce : json -> L unit;
  restart : json -> L unit;
  scrub : json -> L unit;
  update : json -> L unit
}.

Definition VirtualRouter : VirtualRouterDispatcher :=
  mkVirtualRouterDispatcher
    (fun virtual_router_id => delay "build_virtual_router" virtual_router_id)
    (fun virtual_router_id => delay "quiesce_virtual_router" virtual_router_id)
    (fun virtual_router_id => delay "restart_virtual_router" virtual_router_id)
    (fun virtual_router_id => delay "scrub_virtual_router" virtual_router_id)
    (fun virtual_router_id => delay "update_virtual_router" virtual_router_id).

End dispatchers.

(** ** settings.py *)
Module settings.

Definition VIRTUAL_ROUTERS_ENABLED : bool := true.
Definition IN_PRODUCTION : bool := true.

End settings.

(** ** robot.py *)
Module robot.
Local Open Scope loop_scope.

(** The buckets are the dictionaries of the [run_robot] answer: for each
    kind of resource, the ids to work on under the keys [build], [quiesce],
    [restart], [scrub], [running_update] and [quiesced_update].  The four
    dictionaries are distinct objects. *)
Record Robot : Type := mkRobot {
  virtual_router_dispatcher : dispatchers.VirtualRouterDispatcher;
  backups : json;
  snapshots : json;
  virtual_routers : json;
  vms : json
}.

(** [settings.VIRTUAL_ROUTERS_ENABLED] selects the dispatcher of the
    virtual routers; with the value of this repository it is
    [dispatchers.VirtualRouter]. *)
Definition __init__ (backups snapshots virtual_routers vms : json) : Robot :=
  mkRobot dispatchers.VirtualRouter backups snapshots virtual_routers vms.

(** [to_update = buckets['running_update']] followed by
    [to_update += buckets['quiesced_update']].  When [running_update] holds
    a list, [+=] extends that very list, so that the bucket holds the
    extended list afterwards; the second component is the dictionary after
    the statement. *)
Definition to_update (buckets : json) : res (json * json) :=
  match getitem buckets "running_update" with
  | Ret running =>
      match getitem buckets "quiesced_update" with
      | Ret quiesced =>
          match py_iadd running quiesced with
          | Ret extended =>
              match running with
              | JList _ =>
                  match setitem buckets "running_update" extended with
                  | Ret buckets' => Ret (extended, buckets')
                  | Raise e => Raise e
                  | OutOfFuel => OutOfFuel
                  end
              | _ => Ret (extended, buckets)
              end
          | Raise e => Raise e
          | OutOfFuel => OutOfFuel
          end
      | Raise e => Raise e
      | OutOfFuel => OutOfFuel
      end
  | Raise e => Raise e
  | OutOfFuel => OutOfFuel
  end.

(** [to_quiesce = buckets['quiesce'] + buckets['scrub']] *)
Definition to_quiesce (buckets : json) : res json :=
  match getitem buckets "quiesce" with
  | Ret quiesce =>
      match getitem buckets "scrub" with
      | Ret scrub => py_add quiesce scrub
      | Raise e => Raise e
      | OutOfFuel => OutOfFuel
      end
  | Raise e => Raise e
  | OutOfFuel => OutOfFuel
  end.

(** [for id in ids: dispatch(id)] *)
Definition dispatch_all (ids : json) (dispatch : json -> L unit) : L unit :=
  items <- llift (py_iter ids) ;;
  for_each items dispatch.

(** [Robot.__call__]; the result is the robot after the call. *)
Definition __call__ (self : Robot) : L Robot :=
  let vr := virtual_router_dispatcher self in
  backups_to_build <- llift (getitem (backups self) "build") ;;
  backups_update <- llift (to_update (backups self)) ;;
  let '(backups_to_update, backups') := backups_update in
  backups_to_scrub <- llift (getitem backups' "scrub") ;;

  snapshots_to_build <- llift (getitem (snapshots self) "build") ;;
  snapshots_update <- llift (to_update (snapshots self)) ;;
  let '(snapshots_to_update, snapshots') := snapshots_update in
  snapshots_to_scrub <- llift (getitem snapshots' "scrub") ;;

  virtual_routers_to_build <- llift (getitem (virtual_routers self) "build") ;;
  virtual_routers_to_quiesce <- llift (to_quiesce (virtual_routers self)) ;;
  virtual_routers_update <- llift (to_update (virtual_routers self)) ;;
  let '(virtual_routers_to_update, virtual_routers') := virtual_routers_update in
  virtual_routers_to_restart <- llift (getitem virtual_routers' "restart") ;;

  vms_to_build <- llift (getitem (vms self) "build") ;;
  vms_to_quiesce <- llift (to_quiesce (vms self)) ;;
  vms_update <- llift (to_update (vms self)) ;;
  let '(vms_to_update, vms') := vms_update in
  vms_to_restart <- llift (getitem vms' "restart") ;;

  dispatch_all backups_to_build dispatchers.Backup.build ;;
  dispatch_all snapshots_to_build dispatchers.Snapshot.build ;;
  dispatch_all virtual_routers_to_build (dispatchers.build vr) ;;
  dispatch_all vms_to_build dispatchers.VM.build ;;

  dispatch_all virtual_routers_to_quiesce (dispatchers.quiesce vr) ;;
  dispatch_all vms_to_quiesce dispatchers.VM.quiesce ;;

  dispatch_all backups_to_update dispatchers.Backup.update ;;
  dispatch_all snapshots_to_update dispatchers.Snapshot.update ;;
  dispatch_all virtual_routers_to_update (dispatchers.update vr) ;;
  dispatch_all vms_to_update dispatchers.VM.update ;;

  dispatch_all virtual_routers_to_restart (dispatchers.restart vr) ;;
  dispatch_all vms_to_restart dispatchers.VM.restart ;;

  dispatch_all backups_to_scrub dispatchers.Backup.scrub ;;
  dispatch_all snapshots_to_scrub dispatchers.Snapshot.scrub ;;

  act Flush ;;
  lret (mkRobot vr backups' snapshots' virtual_routers' vms').

(** The parameters of the listings of [Robot.scrub]. *)
Definition scrub_params (timestamp : option json) : list (string * json) :=
  let params := [("search[state]", JInt state.SCRUB_QUEUE)] in
  match timestamp with
  | Some t => assoc_set "search[updated__lte]" t params
  | None => params
  end.

(** [fuel] bounds the pages fetched by [api_list]. *)
Definition _virtual_router_scrub (fuel : nat) (self : Robot)
    (timestamp : option json) : L unit :=
  virtual_routers <- embed (utils.api_list fuel "virtual_router" (scrub_params timestamp)) ;;
  for_each virtual_routers
    (fun virtual_router =>
       id <- llift (getitem virtual_router "id") ;;
       dispatchers.scrub (virtual_router_dispatcher self) id).

Definition _vm_scrub (fuel : nat) (self : Robot) (timestamp : option json) : L unit :=
  vms <- embed (utils.api_list fuel "vm" (scrub_params timestamp)) ;;
  for_each vms
    (fun vm =>
       id <- llift (getitem vm "id") ;;
       dispatchers.VM.scrub id).

(** [Robot.scrub] *)
Definition scrub (fuel : nat) (self : Robot) (timestamp : option json) : L unit :=
  _vm_scrub fuel self timestamp ;;
  _virtual_router_scrub fuel self timestamp ;;
  act Flush.

End robot.

(** ** tasks/__init__.py *)
Module tasks.
Local Open Scope loop_scope.

(** The beat task [scrub]; [week_ago] is
    [(datetime.now() - timedelta(days=7)).isoformat()]. *)
Definition scrub (fuel : nat) (week_ago : string) : L unit :=
  let timestamp := if settings.IN_PRODUCTION then Some (JStr week_ago) else None in
  let robot_scrub := robot.__init__ (JList []) (JList []) (JList []) (JList []) in
  robot.scrub fuel robot_scrub timestamp.

End tasks.

(** ** mainloop.py, continued *)
Module loop.

(** [run_robot_post(project_ids)] *)
Fixpoint run_robot_post_rec (depth : nat) (project_ids : json) : M unit :=
  match depth with
  | O => raise RecursionError
  | S depth' =>
      response <- api (Create "run_robot" [("project_ids", project_ids)]) ;;
      expired <- token_is_expired response ;;
      (if expired then run_robot_post_rec depth' project_ids else ret tt) ;;
      ret tt
  end.

Definition run_robot_post (project_ids : json) : M unit :=
  w <- ask ;; run_robot_post_rec (recursion_limit w) project_ids.

Local Open Scope loop_scope.

(** One round of the [while True] of [mainloop]. *)
Definition round : L unit :=
  act Heartbeat ;;
  data <- embed mainloop.run_robot_get ;;
  match data with
  | Some data =>
      project_ids <- llift (getitem data "project_ids") ;;
      backups <- llift (getitem data "backups") ;;
      snapshots <- llift (getitem data "snapshots") ;;
      virtual_routers <- llift (getitem data "virtual_routers") ;;
      vms <- llift (getitem data "vms") ;;
      let robot := robot.__init__ backups snapshots virtual_routers vms in
      robot.__call__ robot ;;
      embed (run_robot_post project_ids)
  | None =>
      act (Sleep 15)
  end.

(** [mainloop]: the loop has no exit; [rounds] bounds the rounds run. *)
Fixpoint mainloop (rounds : nat) : L unit :=
  match rounds with
  | O => llift OutOfFuel
  | S rounds' => round ;; mainloop rounds'
  end.

End loop.

(** ** Observations on the main loop *)

(** The bucket dictionary [buckets] holds, under each of [keys], the list
    of ids [ids key]. *)
Definition sorted_into (buckets : json) (keys : list string)
    (ids : string -> list json) : Prop :=
  Forall (fun key => getitem buckets key = Ret (JList (ids key))) keys.

Definition backup_keys : list string :=
  ["build"; "running_update"; "quiesced_update"; "scrub"].

Definition vm_keys : list string :=
  ["build"; "quiesce"; "scrub"; "running_update"; "quiesced_update"; "restart"].

(** The task [task] queued for each of [ids], in order. *)
Definition queued (task : string) (ids : list json) : list Action :=
  map (Delay task) ids.

(** The order in which one call of the robot queues the work sorted into
    the buckets of the backups [b], snapshots [s], virtual routers [r] and
    VMs [v]. *)
Definition plan (b s r v : string -> list json) : list Action :=
  queued "build_backup" (b "build")
  ++ queued "build_snapshot" (s "build")
  ++ queued "build_virtual_router" (r "build")
  ++ queued "build_vm" (v "build")
  ++ queued "quiesce_virtual_router" (r "quiesce" ++ r "scrub")
  ++ queued "quiesce_vm" (v "quiesce" ++ v "scrub")
  ++ queued "update_backup" (b "running_update" ++ b "quiesced_update")
  ++ queued "update_snapshot" (s "running_update" ++ s "quiesced_update")
  ++ queued "update_virtual_router" (r "running_update" ++ r "quiesced_update")
  ++ queued "update_vm" (v "running_update" ++ v "quiesced_update")
  ++ queued "restart_virtual_router" (r "restart")
  ++ queued "restart_vm" (v "restart")
  ++ queued "scrub_backup" (b "scrub")
  ++ queued "scrub_snapshot" (s "scrub")
  ++ [Flush].

(** Effect discipline of the loop: the actions a computation may add. *)
Definition performs {A} (P : Action -> Prop) (m : L A) : Prop :=
  forall w st, exists acts,
    actions (snd (m w st)) = actions st ++ acts /\ Forall P acts.

(** The exceptions a computation may raise. *)
Definition raises_only {A} (P : exn -> Prop) (m : L A) : Prop :=
  forall w st e, fst (m w st) = Raise e -> P e.

(** What a call of the robot may do: queue one of the tasks below, or
    flush the logs. *)
Definition call_action (a : Action) : Prop :=
  match a with
  | Delay task _ =>
      In task ["build_backup"; "build_snapshot"; "build_virtual_router"; "build_vm";
               "quiesce_virtual_router"; "quiesce_vm";
               "update_backup"; "update_snapshot"; "update_virtual_router";
               "update_vm"; "restart_virtual_router"; "restart_vm";
               "scrub_backup"; "scrub_snapshot"]
  | Flush => True
  | _ => False
  end.

(** The buckets after a call of the robot: [+=] has extended the list
    under [running_update] by the ids under [quiesced_update]. *)
Definition after_call (ids : string -> list json) : string -> list json :=
  fun key =>
    if String.eqb key "running_update"
    then ids "running_update" ++ ids "quiesced_update"
    else ids key.

(** The list of ids a bucket dictionary holds under [key]. *)
Definition ids_of (buckets : json) (key : string) : list json :=
  match getitem buckets key with
  | Ret (JList ids) => ids
  | _ => []
  end.

Module work.

Definition backups : json :=
  JDict [("build", JList [JInt 11]); ("running_update", JList []);
         ("quiesced_update", JList [JInt 12]); ("scrub", JList [JInt 13])].

Definition snapshots : json :=
  JDict [("build", JList []); ("running_update", JList [JInt 21]);
         ("quiesced_update", JList []); ("scrub", JList [])].

Definition virtual_routers : json :=
  JDict [("build", JList [JInt 9]); ("quiesce", JList []);
         ("restart", JList []); ("scrub", JList [JInt 8]);
         ("running_update", JList []); ("quiesced_update", JList [])].

Definition vms : json :=
  JDict [("build", JList [JInt 42]); ("quiesce", JList [JInt 43]);
         ("restart", JList [JInt 44]); ("scrub", JList [JInt 45]);
         ("running_update", JList [JInt 46]); ("quiesced_update", JList [JInt 47])].

(** Pending work of project 1. *)
Definition content : json :=
  JDict [("project_ids", JList [JInt 1]);
         ("backups", backups); ("snapshots", snapshots);
         ("virtual_routers", virtual_routers); ("vms", vms)].

(** Pending work of project 1 whose [vms] lack the bucket [restart]. *)
Definition no_restart_bucket : json :=
  JDict [("project_ids", JList [JInt 1]);
         ("backups", backups); ("snapshots", snapshots);
         ("virtual_routers", virtual_routers);
         ("vms", JDict [("build", JList [JInt 42]); ("quiesce", JList []);
                        ("scrub", JList []); ("running_update", JList []);
                        ("quiesced_update", JList [])])].

(** Every listing and read is answered with [content]; everything else is
    answered 200 as well. *)
Definition region (content : json) : World :=
  scenarios.world_of
    (fun _ _ => scenarios.ok content)
    (fun _ => scenarios.ok content)
    (fun _ _ => scenarios.ok JNull).

End work.

(** The answer [r] carries the pending work [content] of the projects
    [project_ids], with the buckets [backups], [snapshots],
    [virtual_routers] and [vms]. *)
Definition brings (r : Response) (content project_ids backups snapshots
    virtual_routers vms : json) : Prop :=
  pending r content
  /\ getitem content "project_ids" = Ret project_ids
  /\ getitem content "backups" = Ret backups
  /\ getitem content "snapshots" = Ret snapshots
  /\ getitem content "virtual_routers" = Ret virtual_routers
  /\ getitem content "vms" = Ret vms.

Module midnight.


End midnight.

(** * Further tasks *)

(** ** tasks/virtual_router/debug.py *)
Module tasks_virtual_router_debug.

(** [for firewall in rules: if firewall['debug_logging']: debug = True;
    firewall['debug_logging'] = False]; yields [debug] and the rules after
    the loop. *)
Fixpoint reset_debug_logging (rules : list json) : res (bool * list json) :=
  match rules with
  | [] => Ret (false, [])
  | firewall :: rest =>
      match getitem firewall "debug_logging" with
      | Ret flag =>
          match (if truthy flag
                 then setitem firewall "debug_logging" (JBool false)
                 else Ret firewall) with
          | Ret firewall' =>
              match reset_debug_logging rest with
              | Ret (debug, rest') => Ret (truthy flag || debug, firewall' :: rest')
              | Raise e => Raise e
              | OutOfFuel => OutOfFuel
              end
          | Raise e => Raise e
          | OutOfFuel => OutOfFuel
          end
      | Raise e => Raise e
      | OutOfFuel => OutOfFuel
      end
  end.

Definition call_updater (virtual_router : json) : M (bool * json) :=
  try_except
    (remote_call "VirtualRouter" "update" virtual_router)
    (fun err =>
       virtual_router <-
         lift (append_error (mutated err virtual_router) "An unexpected error occurred") ;;
       ret (false, virtual_router)).

Definition _debug_logs (virtual_router_id : Z) : M unit :=
  virtual_router <- utils.api_read "virtual_router" (JInt virtual_router_id) ;;
  if negb (truthy virtual_router) then
    metric "virtual_router_update_failure"
  else
  vr_state <- lift (getitem virtual_router "state") ;;
  if negb (py_eq_int vr_state state.RUNNING) then
    ret tt
  else
  firewall_rules <- lift (getitem virtual_router "firewall_rules") ;;
  rules <- lift (py_iter firewall_rules) ;;
  r <- lift (reset_debug_logging rules) ;;
  let '(debug, rules) := r in
  if negb debug then
    ret tt
  else
  (* the rules that were reset are elements of the list under
     [firewall_rules]; an iterable that is not a list yields strings, on
     which the loop raises *)
  virtual_router <- lift (match firewall_rules with
                          | JList _ => setitem virtual_router "firewall_rules" (JList rules)
                          | _ => Ret virtual_router
                          end) ;;
  virtual_router <- lift (setitem virtual_router "errors" (JList [])) ;;
  r <- call_updater virtual_router ;;
  let '(success, virtual_router) := r in
  if success then
    metric "virtual_router_update_success" ;;
    virtual_router <- utils.api_read "virtual_router" (JInt virtual_router_id) ;;
    vr_state <- lift (getitem virtual_router "state") ;;
    if py_eq_int vr_state state.RUNNING then
      _ <- api (PartialUpdate "virtual_router" (JInt virtual_router_id)
                  [("debug", JBool false)]) ;;
      ret tt
    else ret tt
  else
    metric "virtual_router_update_failure" ;;
    email "virtual_router_failure".

End tasks_virtual_router_debug.

(** ** dispatcher/phantom_virtual_router.py *)

(** The dispatcher used where the region builds no virtual routers: it
    moves the router through the states itself.  [quiesce] and [scrub]
    are embedded; [build], [restart] and [update] send full updates
    ([IAAS.virtual_router.update]), which the requests of this embedding
    do not cover. *)
Module PhantomVirtualRouter.

(** The two updates of one branch of [quiesce]. *)
Definition two_steps (virtual_router_id : json) (first second : Z) : M unit :=
  response <- api (PartialUpdate "virtual_router" virtual_router_id
                     [("state", JInt first)]) ;;
  if negb (status_code response =? 200) then
    metric "virtual_router_quiesce_failure"
  else
  response <- api (PartialUpdate "virtual_router" virtual_router_id
                     [("state", JInt second)]) ;;
  if negb (status_code response =? 200) then
    metric "virtual_router_quiesce_failure"
  else
    metric "virtual_router_quiesce_success".

Definition quiesce (virtual_router_id : json) : M unit :=
  virtual_router <- utils.api_read "virtual_router" virtual_router_id ;;
  if negb (truthy virtual_router) then
    ret tt
  else
  vr_state <- lift (getitem virtual_router "state") ;;
  if py_eq_int vr_state state.QUIESCE then
    two_steps virtual_router_id state.QUIESCING state.QUIESCED
  else if py_eq_int vr_state state.SCRUB then
    two_steps virtual_router_id state.SCRUB_PREP state.SCRUB_QUEUE
  else
    metric "virtual_router_quiesce_failure".

Definition scrub (virtual_router_id : json) : M unit :=
  response <- api (PartialUpdate "virtual_router" virtual_router_id
                     [("state", JInt state.SCRUBBING)]) ;;
  (if negb (status_code response =? 200) then
     metric "virtual_router_scrub_failure"
   else ret tt) ;;
  response <- api (PartialUpdate "virtual_router" virtual_router_id
                     [("state", JInt state.CLOSED)]) ;;
  if negb (status_code response =? 200) then
    metric "virtual_router_scrub_failure"
  else
    metric "virtual_router_scrub_success".

End PhantomVirtualRouter.

(** What a run of [_debug_logs] on router [id] may do: read, count,
    send an e-mail, call the updater of the router, and reset [debug] on
    the router.  It writes no state and schedules nothing. *)
Definition debug_event (id : Z) (e : Event) : Prop :=
  match e with
  | EApi (PartialUpdate client pk data) _ =>
      client = "virtual_router" /\ pk = JInt id /\ data = [("debug", JBool false)]
  | EApi (Create _ _) _ => False
  | ERemote cls method => cls = "VirtualRouter" /\ method = "update"
  | ESchedule _ _ _ => False
  | _ => True
  end.

(** No firewall rule asks for debug logging. *)
Definition no_debug_logging (rules : list json) : Prop :=
  Forall (fun rule => exists flag,
            getitem rule "debug_logging" = Ret flag /\ truthy flag = false) rules.

Module firewall.

Definition rule (debug_logging : bool) : json :=
  JDict [("debug_logging", JBool debug_logging)].

Definition router (rules : list json) : json :=
  JDict [("id", JInt 9); ("state", JInt state.RUNNING);
         ("firewall_rules", JList rules)].

(** Router 9 is RUNNING with the firewall rules [rules]; every update is
    accepted. *)
Definition served (rules : list json) : World :=
  scenarios.world_of
    (fun _ _ => scenarios.ok (router rules))
    (fun _ => scenarios.page [] 0)
    (fun _ _ => scenarios.ok JNull).


End firewall.
(** * Properties *)

(** ** Effect discipline: closure lemmas *)

Lemma emits_ret {A} P (a : A) : emits P (ret a).
Proof. intros w st; exists []; simpl; rewrite app_nil_r; auto. Qed.

Lemma emits_raise {A} P e : emits P (@raise A e).
Proof. intros w st; exists []; simpl; rewrite app_nil_r; auto. Qed.

Lemma emits_lift {A} P (r : res A) : emits P (lift r).
Proof. intros w st; exists []; simpl; rewrite app_nil_r; auto. Qed.

Lemma emits_ask P : emits P ask.
Proof. intros w st; exists []; simpl; rewrite app_nil_r; auto. Qed.

Lemma emits_emit P e : P e -> emits P (emit e).
Proof. intros H w st; exists [e]; simpl; auto. Qed.

Lemma emits_api P req : (forall s, P (EApi req s)) -> emits P (api req).
Proof. intros H w st; eexists [_]; simpl; split; [reflexivity | auto]. Qed.

Lemma emits_remote_call P cls method obj :
  P (ERemote cls method) -> emits P (remote_call cls method obj).
Proof.
  intros H w st; exists [ERemote cls method]; unfold remote_call.
  destruct (remote w cls method obj); simpl; auto.
Qed.

Lemma emits_bind {A B} P (m : M A) (k : A -> M B) :
  emits P m -> (forall a, emits P (k a)) -> emits P (bind m k).
Proof.
  intros Hm Hk w st. unfold bind.
  destruct (Hm w st) as [evs [E F]].
  destruct (m w st) as [[a | e |] st']; simpl in E.
  - destruct (Hk a w st') as [evs' [E' F']].
    exists (evs ++ evs'); rewrite E', E, app_assoc; split; auto.
    apply Forall_app; auto.
  - exists evs; auto.
  - exists evs; auto.
Qed.

Lemma emits_try_except {A} P (m : M A) (h : exn -> M A) :
  emits P m -> (forall e, emits P (h e)) -> emits P (try_except m h).
Proof.
  intros Hm Hh w st. unfold try_except.
  destruct (Hm w st) as [evs [E F]].
  destruct (m w st) as [[a | e |] st']; simpl in E.
  - exists evs; auto.
  - destruct (Hh e w st') as [evs' [E' F']].
    exists (evs ++ evs'); rewrite E', E, app_assoc; split; auto.
    apply Forall_app; auto.
  - exists evs; auto.
Qed.

(** Decomposes a goal [emits P m] along the syntax of [m]. *)
Ltac emits_step :=
  match goal with
  | |- emits _ (bind _ _) => apply emits_bind; [| intros]
  | |- emits _ (try_except _ _) => apply emits_try_except; [| intros]
  | |- emits _ (ret _) => apply emits_ret
  | |- emits _ (raise _) => apply emits_raise
  | |- emits _ (lift _) => apply emits_lift
  | |- emits _ ask => apply emits_ask
  | |- emits _ (metric _) => apply emits_emit
  | |- emits _ (email _) => apply emits_emit
  | |- emits _ (apply_async _ _ _) => apply emits_emit
  | |- emits _ (emit _) => apply emits_emit
  | |- emits _ (api _) => apply emits_api; intros
  | |- emits _ (remote_call _ _ _) => apply emits_remote_call
  | |- emits _ (if ?b then _ else _) => destruct b
  | |- emits _ (match ?x with _ => _ end) => destruct x
  | |- emits _ (let '(_, _) := ?x in _) => destruct x
  end.

Lemma emits_token_is_expired P response : emits P (token_is_expired response).
Proof. unfold token_is_expired. repeat emits_step. Qed.

Lemma emits_api_read_rec P depth client pk :
  (forall s, P (EApi (Read client pk) s)) ->
  emits P (utils.api_read_rec depth client pk).
Proof.
  intros H. induction depth as [| d IH]; simpl.
  - apply emits_raise.
  - apply emits_bind; [apply emits_api; auto | intros r].
    apply emits_bind; [apply emits_token_is_expired | intros b].
    destruct b; auto. repeat emits_step.
Qed.

Lemma emits_api_read P client pk :
  (forall s, P (EApi (Read client pk) s)) ->
  emits P (utils.api_read client pk).
Proof.
  intros H. unfold utils.api_read.
  apply emits_bind; [apply emits_ask | intros w].
  apply emits_api_read_rec; auto.
Qed.

(** A run of [api_read] from the empty trace leaves only read events. *)
Lemma api_read_trace client pk w r st1 :
  run (utils.api_read client pk) w = (r, st1) -> Forall is_read (trace st1).
Proof.
  intros H.
  destruct (emits_api_read is_read client pk (fun _ => I) w (mkSt 0 []))
    as [evs [E F]].
  unfold run in H. rewrite H in E. simpl in E. rewrite E. exact F.
Qed.

(** ** Trigger-to-in-progress update of the scrub workers *)

(** C1: the claim that a refused update to the in-progress state aborts the
    run is evaluated on the VM scrub worker and on the VirtualRouter scrub
    worker.  With the update to SCRUBBING answered 500 both workers go on:
    they call the remote scrubber and then write CLOSED. *)
Theorem C1_scrub_continues_after_refused_update :
  run (tasks_vm_scrub._scrub_vm 100) scenarios.vm_scrub_update_refused
  = (Ret tt,
     mkSt 4
       [EApi (Read "vm" (JInt 100)) 200;
        EApi (PartialUpdate "vm" (JInt 100) [("state", JInt state.SCRUBBING)]) 500;
        EApi (Read "server" (JInt 7)) 200;
        ERemote "LinuxVM" "scrub";
        EMetric "vm_scrub_success";
        EApi (PartialUpdate "vm" (JInt 100) [("state", JInt state.CLOSED)]) 200])
  /\
  run (tasks_virtual_router_scrub._scrub_virtual_router 5 9)
      scenarios.vr_scrub_update_refused
  = (Ret tt,
     mkSt 4
       [EApi (Read "virtual_router" (JInt 9)) 200;
        EApi (PartialUpdate "virtual_router" (JInt 9)
                [("state", JInt state.SCRUBBING)]) 500;
        EApi (ListReq "vm" [("search[project_id]", JInt 3);
                            ("exclude[state]", JInt state.CLOSED);
                            ("page", JInt 0)]) 200;
        ERemote "VirtualRouter" "scrub";
        EMetric "virtual_router_scrub_success";
        EApi (PartialUpdate "virtual_router" (JInt 9)
                [("state", JInt state.CLOSED)]) 200]).
Proof. split; vm_compute; reflexivity. Qed.

(** ** VirtualRouter scrub gated on the project's VMs *)

(** C2: router 9 is in SCRUB_QUEUE and VM 42 of its project is RUNNING.
    The worker calls no remote scrubber and schedules itself 60 seconds
    later, but it has already sent the update to SCRUBBING, which the API
    accepted: the router is no longer in SCRUB_QUEUE.  The rescheduled run
    then finds state SCRUBBING and returns at the state guard. *)
Theorem C2_vr_scrub_postponed_after_state_write :
  let r := run (tasks_virtual_router_scrub._scrub_virtual_router 5 9)
               (scenarios.vr_scrub_live_vm state.SCRUB_QUEUE) in
  fst r = Ret tt
  /\ remote_calls (trace (snd r)) = []
  /\ scheduled (trace (snd r)) = [("scrub_virtual_router", 9, 60)]
  /\ state_writes "virtual_router" 9 (trace (snd r)) = [JInt state.SCRUBBING]
  /\ api_state "virtual_router" 9 (JInt state.SCRUB_QUEUE) (trace (snd r))
     = JInt state.SCRUBBING
  /\ run (tasks_virtual_router_scrub._scrub_virtual_router 5 9)
         (scenarios.vr_scrub_live_vm state.SCRUBBING)
     = (Ret tt, mkSt 1 [EApi (Read "virtual_router" (JInt 9)) 200]).
Proof. vm_compute. repeat split; reflexivity. Qed.

(** ** Failure paths and UNRESOURCED *)

(** C3: VM 100 is in SCRUB_QUEUE and its server cannot be read.  The VM
    scrub worker returns after the failed read of the server: the only
    state it wrote is SCRUBBING, and the VM stays in SCRUBBING instead of
    UNRESOURCED. *)
Theorem C3_vm_scrub_server_unreadable_not_unresourced :
  let r := run (tasks_vm_scrub._scrub_vm 100)
               scenarios.vm_scrub_server_unreadable in
  r = (Ret tt,
       mkSt 3
         [EApi (Read "vm" (JInt 100)) 200;
          EApi (PartialUpdate "vm" (JInt 100) [("state", JInt state.SCRUBBING)]) 200;
          EApi (Read "server" (JInt 7)) 500])
  /\ state_writes "vm" 100 (trace (snd r)) = [JInt state.SCRUBBING]
  /\ api_state "vm" 100 (JInt state.SCRUB_QUEUE) (trace (snd r))
     = JInt state.SCRUBBING
  /\ state.SCRUBBING <> state.UNRESOURCED.
Proof. vm_compute. repeat split; try reflexivity; discriminate. Qed.

(** ** Retry after an expired token *)

(** C6: the first call is answered 401 "token is expired" and the retried
    call is answered 200 with pending work.  [run_robot_get] issues the
    retry but drops its result and returns None; [api_read] in the same
    world returns the content of the retried call. *)
Theorem C6_run_robot_get_drops_retried_result :
  run mainloop.run_robot_get scenarios.token_expired_once
  = (Ret None,
     mkSt 2 [EApi (ListReq "run_robot" []) 401;
             EApi (ListReq "run_robot" []) 200])
  /\ respond scenarios.token_expired_once (ListReq "run_robot" []) 1%nat
     = scenarios.ok scenarios.pending_work
  /\ fst (run (utils.api_read "vm" (JInt 42)) scenarios.token_expired_once)
     = Ret scenarios.pending_work.
Proof. vm_compute. repeat split; reflexivity. Qed.

(** ** Age of the token *)

(** C8: a token created at time 0 is read 24 hours and 5 minutes later,
    and another one 40 minutes and half a second later.  In both cases more
    than 40 minutes have elapsed, yet the stored token is returned and
    [get_admin_token] is not called: the test looks at the [seconds] field
    of the difference, which leaves out whole days and microseconds. *)
Theorem C8_token_not_refreshed_after_a_day :
  let self := cloudcix_token.mkToken "stored" 0 in
  let minute := 60 * 1000000 in
  let late := (24 * 60 + 5) * minute in
  let just_over := 40 * minute + 500000 in
  late - cloudcix_token._created self > cloudcix_token.THRESHOLD * minute
  /\ cloudcix_token.token self late (late + 1) "fresh" = ("stored", self, false)
  /\ just_over - cloudcix_token._created self > cloudcix_token.THRESHOLD * minute
  /\ cloudcix_token.token self just_over (just_over + 1) "fresh"
     = ("stored", self, false).
Proof. vm_compute. repeat split; reflexivity. Qed.

(** ** Basic facts on dictionaries and on the monad *)

Lemma getitem_truthy obj k v : getitem obj k = Ret v -> truthy obj = true.
Proof.
  destruct obj as [| | | | | d]; simpl; try discriminate.
  destruct d; simpl; [discriminate | reflexivity].
Qed.

Lemma bind_ret {A B} (m : M A) (k : A -> M B) w st a st' :
  m w st = (Ret a, st') -> bind m k w st = k a w st'.
Proof. intros H; unfold bind; rewrite H; reflexivity. Qed.

Lemma bind_lift {A B} (r : res A) (k : A -> M B) w st a :
  r = Ret a -> bind (lift r) k w st = k a w st.
Proof. intros ->; reflexivity. Qed.

Lemma is_read_no_write tr : Forall is_read tr -> filter is_write tr = [].
Proof.
  induction 1 as [| e tr He _ IH]; simpl; auto.
  destruct e as [[| | |] | | | |]; simpl in *; tauto.
Qed.

Lemma is_read_no_remote tr : Forall is_read tr -> remote_calls tr = [].
Proof.
  induction 1 as [| e tr He _ IH]; simpl; auto.
  destruct e as [[| | |] | | | |]; simpl in *; tauto.
Qed.

Lemma is_read_no_schedule tr : Forall is_read tr -> scheduled tr = [].
Proof.
  induction 1 as [| e tr He _ IH]; simpl; auto.
  destruct e as [[| | |] | | | |]; simpl in *; tauto.
Qed.

Lemma direct_read_trace client id w r st1 :
  run (direct_read client id) w = (r, st1) -> Forall is_read (trace st1).
Proof.
  unfold run, direct_read, bind, api; simpl.
  destruct (status_code _ =? 200);
    [destruct (json_of _); [destruct (getitem _ _) |..] |];
    unfold lift, ret; intros H; inversion H; subst; simpl;
    repeat constructor.
Qed.

Lemma fetch_trace k id w r st1 :
  run (fetch k id) w = (r, st1) -> Forall is_read (trace st1).
Proof.
  destruct k; simpl; eauto using api_read_trace, direct_read_trace.
Qed.

(** ** State guard: duplicate dispatch is a no-op *)

Ltac head_of t :=
  lazymatch t with
  | ?f _ => head_of f
  | _ => t
  end.

(** Runs a worker that starts with [api_read] up to its state guard. *)
Ltac through_guard Hfetch Hs :=
  unfold run in *;
  rewrite (bind_ret _ _ _ _ _ _ Hfetch);
  rewrite (getitem_truthy _ _ _ Hs); cbn [negb];
  rewrite (bind_lift _ _ _ _ _ Hs).

(** Same for a worker that starts with a plain [client.read]. *)
Ltac through_direct_guard Hfetch Hs :=
  unfold run, direct_read, bind, api, lift, ret in *; cbn [calls trace] in *;
  match type of Hfetch with
  | context [status_code ?r =? 200] =>
      let E := fresh "E" in
      destruct (status_code r =? 200) eqn:E;
      [ apply Z.eqb_eq in E; rewrite E; cbn [Z.eqb Pos.eqb negb];
        destruct (json_of r) as [data | |]; try discriminate;
        destruct (getitem data "content") as [content | |]; try discriminate;
        injection Hfetch as ? ?; subst; cbn [app]; rewrite Hs
      | injection Hfetch as <- _; discriminate Hs ]
  end.

(** C4: a worker that reads its resource in a state that is none of its
    trigger states returns right after that read: the run consists of the
    read alone, so it sends no write to the API, calls no remote driver and
    schedules nothing. *)
Theorem C4_state_guard_no_op (k : Worker) (w : World) (id : Z)
    (resource s : json) (st1 : St) :
  run (fetch k id) w = (Ret resource, st1) ->
  getitem resource "state" = Ret s ->
  existsb (py_eq_int s) (trigger_states k) = false ->
  run (task k id) w = (Ret tt, st1)
  /\ Forall is_read (trace st1)
  /\ filter is_write (trace st1) = []
  /\ remote_calls (trace st1) = []
  /\ scheduled (trace st1) = [].
Proof.
  intros Hfetch Hs Hguard.
  pose proof (fetch_trace _ _ _ _ _ Hfetch) as Hreads.
  split; [| auto using is_read_no_write, is_read_no_remote, is_read_no_schedule].
  clear Hreads.
  destruct k; cbn [fetch client_of task trigger_states existsb] in *;
    rewrite ?orb_false_r in Hguard.
  all: match goal with
       | |- run ?worker _ = _ => let f := head_of worker in unfold f
       end.
  all: first
         [ through_guard Hfetch Hs; rewrite Hguard; reflexivity
         | through_direct_guard Hfetch Hs;
           rewrite Hguard; cbn [negb]; rewrite E; reflexivity ].
Qed.

Lemma C4_state_guard_no_op_witness :
  run (task BuildVM 42)
      (scenarios.vm_and_router state.RUNNING state.RUNNING "KVM")
  = (Ret tt, mkSt 1 [EApi (Read "vm" (JInt 42)) 200])
  /\ Forall is_read [EApi (Read "vm" (JInt 42)) 200]
  /\ filter is_write [EApi (Read "vm" (JInt 42)) 200] = []
  /\ remote_calls [EApi (Read "vm" (JInt 42)) 200] = []
  /\ scheduled [EApi (Read "vm" (JInt 42)) 200] = [].
Proof.
  apply (C4_state_guard_no_op BuildVM
           (scenarios.vm_and_router state.RUNNING state.RUNNING "KVM") 42
           (scenarios.vm 42 state.RUNNING 7 9) (JInt state.RUNNING)
           (mkSt 1 [EApi (Read "vm" (JInt 42)) 200]));
    vm_compute; reflexivity.
Defined.

(** ** Dictionaries under assignment *)

Lemma getitem_dict_inv obj k v :
  getitem obj k = Ret v -> exists d, obj = JDict d /\ assoc k d = Some v.
Proof.
  destruct obj as [| | | | | d]; simpl; try discriminate.
  destruct (assoc k d) eqn:E; [| discriminate].
  intros [= ->]; eauto.
Qed.

Lemma assoc_set_same k v d : assoc k (assoc_set k v d) = Some v.
Proof.
  induction d as [| [k' v'] d IH]; simpl.
  - rewrite String.eqb_refl; reflexivity.
  - destruct (String.eqb k k') eqn:E; simpl.
    + rewrite String.eqb_refl; reflexivity.
    + rewrite E; exact IH.
Qed.

Lemma assoc_set_other k k' v d :
  String.eqb k k' = false -> assoc k (assoc_set k' v d) = assoc k d.
Proof.
  intros Hk. induction d as [| [k0 v0] d IH]; simpl.
  - rewrite Hk; reflexivity.
  - destruct (String.eqb k' k0) eqn:E; simpl.
    + apply String.eqb_eq in E; subst k0. rewrite Hk; reflexivity.
    + rewrite IH; reflexivity.
Qed.

Lemma assoc_del_other k k' d :
  String.eqb k k' = false -> assoc k (assoc_del k' d) = assoc k d.
Proof.
  intros Hk. induction d as [| [k0 v0] d IH]; simpl; auto.
  destruct (String.eqb k' k0) eqn:E; simpl.
  - apply String.eqb_eq in E; subst k0. rewrite Hk; reflexivity.
  - rewrite IH; reflexivity.
Qed.

Lemma state_writes_reads client id tr :
  Forall is_read tr -> state_writes client id tr = [].
Proof.
  induction 1 as [| e tr He _ IH]; simpl; auto.
  destruct e as [[| | |] | | | |]; simpl in *; tauto.
Qed.

Lemma remote_calls_app tr1 tr2 :
  remote_calls (tr1 ++ tr2) = remote_calls tr1 ++ remote_calls tr2.
Proof. unfold remote_calls; apply filter_app. Qed.

Lemma scheduled_app tr1 tr2 :
  scheduled (tr1 ++ tr2) = scheduled tr1 ++ scheduled tr2.
Proof. unfold scheduled; apply flat_map_app. Qed.


(** The events of a run of two [api_read]s in sequence are reads. *)
Lemma api_read_extends client pk w st r st' :
  utils.api_read client pk w st = (r, st') ->
  exists evs, trace st' = trace st ++ evs /\ Forall is_read evs.
Proof.
  intros H.
  destruct (emits_api_read is_read client pk (fun _ => I) w st) as [evs [E F]].
  rewrite H in E. eauto.
Qed.

(** ** VM build gated on the project's router *)


Lemma bind_api {B} req (k : Response -> M B) w st :
  bind (api req) k w st
  = k (respond w req (calls st)) w
      (mkSt (S (calls st))
         (trace st ++ [EApi req (status_code (respond w req (calls st)))])).
Proof. reflexivity. Qed.


(** Runs [_build_vm] up to the read of the project's router; leaves the
    VM as a dictionary [d] with the facts [Astate], [Aproject]. *)
Ltac to_router_read Hvm Hstate Hproject Hvr_id Hvr :=
  unfold tasks_vm_build._build_vm; through_guard Hvm Hstate;
  let d := fresh "d" in
  let Astate := fresh "Astate" in
  let Aproject := fresh "Aproject" in
  destruct (getitem_dict_inv _ _ _ Hstate) as [d [-> Astate]];
  apply getitem_dict_inv in Hproject as [? [[= <-] Aproject]];
  cbn [py_eq_int state.REQUESTED Z.eqb Pos.eqb negb setitem];
  rewrite (bind_lift _ _ _ _ _ eq_refl);
  unfold getitem at 1;
  rewrite assoc_set_other, Aproject by reflexivity;
  rewrite (bind_lift _ _ _ _ _ eq_refl);
  rewrite (bind_lift _ _ _ _ _ Hvr_id);
  rewrite (bind_ret _ _ _ _ _ _ Hvr).

Section vm_build_gate.

Variables (w : World) (id : Z).
Variables (vm project vr_id vm_vr vr_state vr_pk : json) (st1 st2 : St).

Hypothesis Hvm : run (utils.api_read "vm" (JInt id)) w = (Ret vm, st1).
Hypothesis Hstate : getitem vm "state" = Ret (JInt state.REQUESTED).
Hypothesis Hid : getitem vm "id" = Ret (JInt id).
Hypothesis Hproject : getitem vm "project" = Ret project.
Hypothesis Hvr_id : getitem project "virtual_router_id" = Ret vr_id.
Hypothesis Hvr : utils.api_read "virtual_router" vr_id w st1 = (Ret vm_vr, st2).
Hypothesis Hvr_state : getitem vm_vr "state" = Ret vr_state.
Hypothesis Hvr_pk : getitem vm_vr "id" = Ret vr_pk.




Lemma router_reads_only : Forall is_read (trace st2).
Proof.
  destruct (api_read_extends _ _ _ _ _ _ Hvr) as [evs [-> Hevs]].
  apply Forall_app; split; [exact (api_read_trace _ _ _ _ _ Hvm) | exact Hevs].
Qed.


End vm_build_gate.


(** ** VM build when the router cannot be read *)

(** C10: the VM build worker reads VM [id] in state REQUESTED, and the read
    of the router of its project yields the empty record that [api_read]
    returns on an error.  The run ends with an uncaught [KeyError] on
    ['state'] right after that read: it consists of reads only, so the VM is
    written neither to BUILDING nor to UNRESOURCED. *)
Theorem C10_vm_build_router_unreadable_raises (w : World) (id : Z)
    (vm project vr_id : json) (st1 st2 : St) :
  run (utils.api_read "vm" (JInt id)) w = (Ret vm, st1) ->
  getitem vm "state" = Ret (JInt state.REQUESTED) ->
  getitem vm "project" = Ret project ->
  getitem project "virtual_router_id" = Ret vr_id ->
  utils.api_read "virtual_router" vr_id w st1 = (Ret (JDict []), st2) ->
  run (tasks_vm_build._build_vm id) w = (Raise (KeyError "state"), st2)
  /\ Forall is_read (trace st2)
  /\ filter is_write (trace st2) = []
  /\ state_writes "vm" id (trace st2) = []
  /\ remote_calls (trace st2) = [].
Proof.
  intros Hvm Hstate Hproject Hvr_id Hvr.
  pose proof (router_reads_only _ _ _ _ _ _ _ Hvm Hvr) as Hreads.
  split; [| auto using is_read_no_write, is_read_no_remote, state_writes_reads].
  to_router_read Hvm Hstate Hproject Hvr_id Hvr.
  reflexivity.
Qed.

Lemma C10_vm_build_router_unreadable_raises_witness :
  run (tasks_vm_build._build_vm 42) scenarios.vm_router_unreadable
  = (Raise (KeyError "state"),
     mkSt 2 [EApi (Read "vm" (JInt 42)) 200;
             EApi (Read "virtual_router" (JInt 9)) 500]).
Proof.
  apply (C10_vm_build_router_unreadable_raises
           scenarios.vm_router_unreadable 42
           (scenarios.vm 42 state.REQUESTED 7 9)
           (JDict [("id", JInt 1); ("virtual_router_id", JInt 9)])
           (JInt 9)
           (mkSt 1 [EApi (Read "vm" (JInt 42)) 200])
           (mkSt 2 [EApi (Read "vm" (JInt 42)) 200;
                    EApi (Read "virtual_router" (JInt 9)) 500]));
    vm_compute; reflexivity.
Defined.

Lemma fetch_rest_unfold fuel client params page objects total_records :
  utils.fetch_rest fuel client params page objects total_records
  = (more <- lift (py_int_lt (Z.of_nat (List.length objects)) total_records) ;;
     if negb more then ret objects
     else
       match fuel with
       | O => lift OutOfFuel
       | S fuel' =>
           let page := page + 1 in
           let params := assoc_set "page" (JInt page) params in
           response <- api (ListReq client params) ;;
           expired <- token_is_expired response ;;
           (if expired then
              data <- lift (json_of response) ;;
              _ <- lift (setitem data "content" (JList [])) ;;
              ret tt
            else ret tt) ;;
           if negb (status_code response =? 200) then
             ret objects
           else
             data <- lift (json_of response) ;;
             content <- lift (getitem data "content") ;;
             items <- lift (py_iter content) ;;
             utils.fetch_rest fuel' client params page (objects ++ items) total_records
       end).
Proof. destruct fuel; reflexivity. Qed.

Lemma fetch_rest_exit fuel client params page objects total w st :
  total <= Z.of_nat (List.length objects) ->
  utils.fetch_rest fuel client params page objects (JInt total) w st
  = (Ret objects, st).
Proof.
  intros H. rewrite fetch_rest_unfold. cbn [py_int_lt].
  rewrite (bind_lift _ _ _ _ _ eq_refl).
  replace (Z.of_nat (List.length objects) <? total) with false
    by (symmetry; apply Z.ltb_ge; exact H).
  reflexivity.
Qed.



Lemma fetch_rest_next fuel client params page objects total w st data content items :
  let next := ListReq client (assoc_set "page" (JInt (page + 1)) params) in
  let response := respond w next (calls st) in
  Z.of_nat (List.length objects) < total ->
  status_code response = 200 ->
  body response = Some data ->
  getitem data "content" = Ret content ->
  py_iter content = Ret items ->
  utils.fetch_rest (S fuel) client params page objects (JInt total) w st
  = utils.fetch_rest fuel client (assoc_set "page" (JInt (page + 1)) params)
      (page + 1) (objects ++ items) (JInt total) w
      (mkSt (S (calls st)) (trace st ++ [EApi next 200])).
Proof.
  intros next response Hlt Hstatus Hbody Hcontent Hitems.
  rewrite (fetch_rest_unfold (S fuel)). cbn [py_int_lt].
  rewrite (bind_lift _ _ _ _ _ eq_refl).
  replace (Z.of_nat (List.length objects) <? total) with true
    by (symmetry; apply Z.ltb_lt; exact Hlt).
  cbn [negb]. cbv zeta. rewrite bind_api. fold next. fold response.
  unfold token_is_expired. rewrite Hstatus. cbn [Z.eqb Pos.eqb negb].
  unfold json_of. rewrite Hbody.
  unfold bind at 1 2. cbn [ret].
  rewrite (bind_lift _ _ _ _ _ eq_refl), (bind_lift _ _ _ _ _ Hcontent),
    (bind_lift _ _ _ _ _ Hitems).
  reflexivity.
Qed.




(** [api_list] enters its loop with the records and the total of the first
    page when that page is answered 200. *)
Lemma api_list_first_page fuel client params w st data content objects metadata total :
  let first := ListReq client (assoc_set "page" (JInt 0) params) in
  let response := respond w first (calls st) in
  recursion_limit w <> O ->
  status_code response = 200 ->
  body response = Some data ->
  getitem data "content" = Ret content ->
  py_iter content = Ret objects ->
  getitem data "_metadata" = Ret metadata ->
  getitem metadata "total_records" = Ret total ->
  utils.api_list fuel client params w st
  = utils.fetch_rest fuel client (assoc_set "page" (JInt 0) params) 0 objects total w
      (mkSt (S (calls st)) (trace st ++ [EApi first 200])).
Proof.
  intros first response Hlimit Hs Hbody Hcontent Hitems Hmeta Htotal.
  unfold utils.api_list, bind at 1, ask.
  destruct (recursion_limit w) as [| depth]; [congruence |].
  cbn [utils.api_list_rec]. rewrite bind_api. fold first. fold response.
  unfold token_is_expired. rewrite Hs. cbn [Z.eqb Pos.eqb negb].
  unfold bind at 1. cbn [ret].
  unfold json_of. rewrite Hbody.
  rewrite (bind_lift _ _ _ _ _ eq_refl), (bind_lift _ _ _ _ _ Hcontent),
    (bind_lift _ _ _ _ _ Hitems), (bind_lift _ _ _ _ _ Hmeta).
  destruct (getitem_dict_inv _ _ _ Htotal) as [d [-> Hassoc]].
  rewrite (bind_lift _ _ _ _ _ Htotal).
  unfold get_default. rewrite Hassoc.
  rewrite (bind_lift _ _ _ _ _ eq_refl). reflexivity.
Qed.

(** ** Pagination of [api_list] *)



(** ** Phantom servers *)

(** C9, as stated, fails for the Backup build worker: backup 5 sits on a
    Phantom server, and the run writes BUILDING and then UNRESOURCED
    instead of the success state RUNNING. *)
Lemma C9_backup_on_phantom_is_unresourced :
  ~ short_circuits BuildBackup scenarios.backup_on_phantom 5 state.REQUESTED.
Proof.
  unfold short_circuits. vm_compute. intros [_ H]. discriminate H.
Qed.

Lemma api_read_serves client pk obj w st :
  recursion_limit w <> O ->
  serves w client pk obj ->
  utils.api_read client pk w st
  = (Ret obj, mkSt (S (calls st)) (trace st ++ [EApi (Read client pk) 200])).
Proof.
  intros Hlimit Hserves.
  unfold utils.api_read, bind at 1, ask.
  destruct (recursion_limit w) as [| depth]; [congruence |].
  cbn [utils.api_read_rec]. rewrite bind_api.
  destruct (Hserves (calls st)) as [Hs [data [Hb Hc]]].
  unfold token_is_expired. rewrite Hs. cbn [Z.eqb Pos.eqb].
  unfold bind at 1. cbn [ret].
  unfold json_of. rewrite Hb.
  rewrite (bind_lift _ _ _ _ _ eq_refl). unfold lift. rewrite Hc. reflexivity.
Qed.

Lemma getitem_set_same k v d : getitem (JDict (assoc_set k v d)) k = Ret v.
Proof. unfold getitem; rewrite assoc_set_same; reflexivity. Qed.

Lemma getitem_set_other k k' v d :
  String.eqb k k' = false ->
  getitem (JDict (assoc_set k' v d)) k = getitem (JDict d) k.
Proof. intros H; unfold getitem; rewrite assoc_set_other by exact H; reflexivity. Qed.

Lemma getitem_del_other k k' d :
  String.eqb k k' = false ->
  getitem (JDict (assoc_del k' d)) k = getitem (JDict d) k.
Proof. intros H; unfold getitem; rewrite assoc_del_other by exact H; reflexivity. Qed.

Lemma pop_present d k v :
  getitem (JDict d) k = Ret v -> pop (JDict d) k = Ret (JDict (assoc_del k d)).
Proof.
  unfold getitem, pop. destruct (assoc k d); [reflexivity | discriminate].
Qed.

Create Rewrite HintDb dict.
#[local] Hint Rewrite getitem_set_same : dict.
#[local] Hint Rewrite getitem_set_other using reflexivity : dict.
#[local] Hint Rewrite getitem_del_other using reflexivity : dict.

Lemma bind_ret_l {A B} (a : A) (k : A -> M B) w st :
  bind (ret a) k w st = k a w st.
Proof. reflexivity. Qed.

Lemma bind_ask {B} (k : World -> M B) w st : bind ask k w st = k w w st.
Proof. reflexivity. Qed.

Lemma bind_metric {B} name (k : unit -> M B) w st :
  bind (metric name) k w st
  = k tt w (mkSt (calls st) (trace st ++ [EMetric name])).
Proof. reflexivity. Qed.

Lemma bind_email {B} name (k : unit -> M B) w st :
  bind (email name) k w st
  = k tt w (mkSt (calls st) (trace st ++ [EEmail name])).
Proof. reflexivity. Qed.

(** One step of a run along a path fixed by the hypotheses: an API call, an
    [api_read] whose answer is known, or a dictionary access whose result
    is known. *)
Ltac step :=
  autorewrite with dict; cbn [calls trace];
  first
    [ rewrite bind_api; cbn [calls trace]
    | rewrite bind_ret_l
    | rewrite bind_ask
    | rewrite bind_metric
    | rewrite bind_email
    | match goal with
      | H : forall st, utils.api_read ?c ?pk ?w st = _
        |- context [bind (utils.api_read ?c ?pk) _ ?w ?st] =>
          rewrite (bind_ret _ _ _ _ _ _ (H st))
      | H : ?r = Ret _ |- context [bind (lift ?r) _] =>
          rewrite (bind_lift _ _ _ _ _ H)
      | |- context [bind (lift (Ret _)) _] =>
          rewrite (bind_lift _ _ _ _ _ eq_refl)
      | H : getitem ?o _ = Ret _ |- context [truthy ?o] =>
          rewrite (getitem_truthy _ _ _ H); cbn [negb]
      | H : accepts ?w ?c ?id ?s
        |- context [respond ?w (PartialUpdate ?c (JInt ?id) [("state", JInt ?s)]) ?n] =>
          rewrite (H n); cbn [Z.eqb Pos.eqb negb]
      | |- context [py_eq_int (JInt ?a) ?b] =>
          let v := eval vm_compute in (py_eq_int (JInt a) b) in
          change (py_eq_int (JInt a) b) with v; cbn [negb orb]
      | |- context [py_eq_str (JStr ?a) ?b] =>
          let v := eval vm_compute in (py_eq_str (JStr a) b) in
          change (py_eq_str (JStr a) b) with v
      | |- context [pop (JDict ?d) ?k] =>
          erewrite (pop_present d k) by (autorewrite with dict; eassumption || reflexivity)
      end ].

(** Runs a worker along the path fixed by the hypotheses. *)
Ltac run_path := repeat (repeat step; cbn [setitem pop_default]).

(** Reads off the remote calls and the state writes of an explicit trace. *)
Ltac read_trace :=
  unfold bind, lift, ret, raise, metric, email, apply_async, emit, api;
  cbn [snd trace app calls];
  split;
  [ reflexivity
  | cbn [app]; unfold state_writes; cbn [flat_map app];
    rewrite ?String.eqb_refl, ?Z.eqb_refl; reflexivity ].

Lemma vm_build_call_builder_phantom vm w st :
  tasks_vm_build.call_builder (JStr "Phantom") vm w st = (Ret (true, false, vm), st).
Proof. reflexivity. Qed.

Lemma phantom_build_vm (w : World) (id : Z) (resource server_id server : json) :
  recursion_limit w <> O ->
  serves w "vm" (JInt id) resource ->
  getitem resource "id" = Ret (JInt id) ->
  getitem resource "state" = Ret (JInt state.REQUESTED) ->
  router_running BuildVM w resource ->
  accepts w "vm" id state.BUILDING ->
  getitem resource "server_id" = Ret server_id ->
  serves w "server" server_id server ->
  server_of_type server "Phantom" ->
  short_circuits BuildVM w id state.REQUESTED.
Proof.
  intros Hlimit Hvm Hid Hstate (project & vr_id & vr & vr_pk & Hproject & Hvr_id
                                 & Hvr & Hvr_state & Hvr_pk)
    Haccept Hserver_id Hserver (ty & Hty & Hname).
  pose proof (fun st => api_read_serves _ _ _ w st Hlimit Hvm) as Hread.
  pose proof (fun st => api_read_serves _ _ _ w st Hlimit Hvr) as Hread_vr.
  pose proof (fun st => api_read_serves _ _ _ w st Hlimit Hserver) as Hread_server.
  destruct (getitem_dict_inv _ _ _ Hid) as [d [-> _]].
  unfold short_circuits, run; cbn [task client_of in_progress success]; cbv zeta.
  unfold tasks_vm_build._build_vm.
  repeat (repeat step; cbn [setitem]).
  rewrite (bind_ret _ _ _ _ _ _ (vm_build_call_builder_phantom _ _ _)).
  repeat step.
  destruct (getitem (JDict d) "created") as [created | e |];
    [| read_trace | read_trace].
  repeat step.
  destruct created as [| b | z | c | l | dd];
    try read_trace.
  destruct (strptime_ok w c); read_trace.
Qed.

Lemma vm_scrub_call_scrubber_phantom vm w st :
  tasks_vm_scrub.call_scrubber (JStr "Phantom") vm w st = (Ret (true, vm), st).
Proof. reflexivity. Qed.

Lemma vm_quiesce_call_quiescer_phantom vm w st :
  tasks_vm_quiesce.call_quiescer (JStr "Phantom") vm w st
  = (Ret (true, false, vm), st).
Proof. reflexivity. Qed.

Lemma vm_restart_call_restarter_phantom vm w st :
  tasks_vm_restart.call_restarter (JStr "Phantom") vm w st = (Ret (true, vm), st).
Proof. reflexivity. Qed.

(** Opens a worker that starts with a plain [client.read] served by [H]. *)
Ltac direct_read_served H :=
  rewrite bind_api; cbn [calls trace];
  let Hs := fresh "Hs" in
  let data := fresh "data" in
  let Hb := fresh "Hb" in
  let Hc := fresh "Hc" in
  destruct (H O) as [Hs [data [Hb Hc]]];
  rewrite Hs; cbn [Z.eqb Pos.eqb negb];
  unfold json_of; rewrite Hb.

Lemma phantom_scrub_vm (w : World) (id : Z) (resource server_id server : json) :
  recursion_limit w <> O ->
  serves w "vm" (JInt id) resource ->
  getitem resource "id" = Ret (JInt id) ->
  getitem resource "state" = Ret (JInt state.SCRUB_QUEUE) ->
  getitem resource "server_id" = Ret server_id ->
  serves w "server" server_id server ->
  server_of_type server "Phantom" ->
  short_circuits ScrubVM w id state.SCRUB_QUEUE.
Proof.
  intros Hlimit Hvm Hid Hstate Hserver_id Hserver (ty & Hty & Hname).
  pose proof (fun st => api_read_serves _ _ _ w st Hlimit Hserver) as Hread_server.
  destruct (getitem_dict_inv _ _ _ Hid) as [d [-> _]].
  unfold short_circuits, run; cbn [task client_of in_progress success]; cbv zeta.
  unfold tasks_vm_scrub._scrub_vm.
  direct_read_served Hvm.
  run_path.
  rewrite (bind_ret _ _ _ _ _ _ (vm_scrub_call_scrubber_phantom _ _ _)).
  run_path. read_trace.
Qed.

Lemma phantom_quiesce_vm (w : World) (id s : Z) (resource server_id server : json) :
  recursion_limit w <> O ->
  serves w "vm" (JInt id) resource ->
  getitem resource "id" = Ret (JInt id) ->
  getitem resource "state" = Ret (JInt s) ->
  In s [state.QUIESCE; state.SCRUB] ->
  accepts w "vm" id (in_progress QuiesceVM s) ->
  getitem resource "server_id" = Ret server_id ->
  serves w "server" server_id server ->
  server_of_type server "Phantom" ->
  short_circuits QuiesceVM w id s.
Proof.
  intros Hlimit Hvm Hid Hstate Hs Haccept Hserver_id Hserver (ty & Hty & Hname).
  pose proof (fun st => api_read_serves _ _ _ w st Hlimit Hvm) as Hread.
  pose proof (fun st => api_read_serves _ _ _ w st Hlimit Hserver) as Hread_server.
  destruct (getitem_dict_inv _ _ _ Hid) as [d [-> _]].
  unfold short_circuits, run; cbn [task client_of]; cbv zeta.
  unfold tasks_vm_quiesce._quiesce_vm.
  destruct Hs as [<- | [<- | []]];
    change (in_progress QuiesceVM state.QUIESCE) with state.QUIESCING in *;
    change (success QuiesceVM state.QUIESCE) with state.QUIESCED in *;
    change (in_progress QuiesceVM state.SCRUB) with state.SCRUB_PREP in *;
    change (success QuiesceVM state.SCRUB) with state.SCRUB_QUEUE in *.
  - run_path.
    rewrite (bind_ret _ _ _ _ _ _ (vm_quiesce_call_quiescer_phantom _ _ _)).
    run_path. read_trace.
  - run_path.
    rewrite (bind_ret _ _ _ _ _ _ (vm_quiesce_call_quiescer_phantom _ _ _)).
    run_path. read_trace.
Qed.

Lemma phantom_restart_vm (w : World) (id : Z) (resource server_id server : json) :
  recursion_limit w <> O ->
  serves w "vm" (JInt id) resource ->
  getitem resource "id" = Ret (JInt id) ->
  getitem resource "state" = Ret (JInt state.RESTART) ->
  accepts w "vm" id state.RESTARTING ->
  getitem resource "server_id" = Ret server_id ->
  serves w "server" server_id server ->
  server_of_type server "Phantom" ->
  short_circuits RestartVM w id state.RESTART.
Proof.
  intros Hlimit Hvm Hid Hstate Haccept Hserver_id Hserver (ty & Hty & Hname).
  pose proof (fun st => api_read_serves _ _ _ w st Hlimit Hvm) as Hread.
  pose proof (fun st => api_read_serves _ _ _ w st Hlimit Hserver) as Hread_server.
  destruct (getitem_dict_inv _ _ _ Hid) as [d [-> _]].
  unfold short_circuits, run; cbn [task client_of in_progress success]; cbv zeta.
  unfold tasks_vm_restart._restart_vm.
  run_path.
  rewrite (bind_ret _ _ _ _ _ _ (vm_restart_call_restarter_phantom _ _ _)).
  run_path. read_trace.
Qed.

Lemma backup_call_builder_phantom d l w st :
  getitem (JDict d) "errors" = Ret (JList l) ->
  tasks_backup_build.call_builder (JStr "Phantom") (JDict d) w st
  = (Ret (false,
          JDict (assoc_set "errors" (JList (l ++ [JStr "Unsupported server type"])) d)),
     st).
Proof.
  intros H. unfold tasks_backup_build.call_builder, try_except, append_error.
  repeat step. rewrite H. reflexivity.
Qed.

Lemma snapshot_call_builder_phantom d l w st :
  getitem (JDict d) "errors" = Ret (JList l) ->
  tasks_snapshot_build.call_builder (JStr "Phantom") (JDict d) w st
  = (Ret (false,
          JDict (assoc_set "errors" (JList (l ++ [JStr "Unsupported server type"])) d)),
     st).
Proof.
  intros H. unfold tasks_snapshot_build.call_builder, try_except, append_error.
  repeat step. rewrite H. reflexivity.
Qed.

Lemma phantom_build_backup (w : World) (id : Z) (resource server_id server : json) :
  recursion_limit w <> O ->
  serves w "backup" (JInt id) resource ->
  getitem resource "id" = Ret (JInt id) ->
  getitem resource "state" = Ret (JInt state.REQUESTED) ->
  accepts w "backup" id state.BUILDING ->
  server_id_of BuildBackup resource = Ret server_id ->
  serves w "server" server_id server ->
  server_of_type server "Phantom" ->
  unresourced_without_remote BuildBackup w id state.REQUESTED.
Proof.
  intros Hlimit Hbackup Hid Hstate Haccept Hserver_id Hserver (ty & Hty & Hname).
  pose proof (fun st => api_read_serves _ _ _ w st Hlimit Hbackup) as Hread.
  pose proof (fun st => api_read_serves _ _ _ w st Hlimit Hserver) as Hread_server.
  destruct (getitem_dict_inv _ _ _ Hid) as [d [-> _]].
  unfold server_id_of in Hserver_id.
  destruct (getitem (JDict d) "vm") as [vm | |] eqn:Hvm; try discriminate.
  unfold unresourced_without_remote, run; cbn [task client_of in_progress]; cbv zeta.
  unfold tasks_backup_build._build_backup.
  run_path.
  match goal with
  | |- context [tasks_backup_build.call_builder _ (JDict ?dd)] =>
      rewrite (bind_ret _ _ _ _ _ _
                 (backup_call_builder_phantom dd [] w _
                    ltac:(autorewrite with dict; reflexivity)))
  end.
  run_path.
  unfold tasks_backup_build._unresource.
  run_path. read_trace.
Qed.

Lemma phantom_build_snapshot (w : World) (id : Z) (resource server_id server : json) :
  recursion_limit w <> O ->
  serves w "snapshot" (JInt id) resource ->
  getitem resource "id" = Ret (JInt id) ->
  getitem resource "state" = Ret (JInt state.REQUESTED) ->
  accepts w "snapshot" id state.BUILDING ->
  server_id_of BuildSnapshot resource = Ret server_id ->
  serves w "server" server_id server ->
  server_of_type server "Phantom" ->
  unresourced_without_remote BuildSnapshot w id state.REQUESTED.
Proof.
  intros Hlimit Hsnapshot Hid Hstate Haccept Hserver_id Hserver (ty & Hty & Hname).
  pose proof (fun st => api_read_serves _ _ _ w st Hlimit Hsnapshot) as Hread.
  pose proof (fun st => api_read_serves _ _ _ w st Hlimit Hserver) as Hread_server.
  destruct (getitem_dict_inv _ _ _ Hid) as [d [-> _]].
  unfold server_id_of in Hserver_id.
  destruct (getitem (JDict d) "vm") as [vm | |] eqn:Hvm; try discriminate.
  unfold unresourced_without_remote, run; cbn [task client_of in_progress]; cbv zeta.
  unfold tasks_snapshot_build._build_snapshot.
  run_path.
  match goal with
  | |- context [tasks_snapshot_build.call_builder _ (JDict ?dd)] =>
      rewrite (bind_ret _ _ _ _ _ _
                 (snapshot_call_builder_phantom dd [] w _
                    ltac:(autorewrite with dict; reflexivity)))
  end.
  run_path.
  unfold tasks_snapshot_build._unresource.
  run_path. read_trace.
Qed.

(** The path of an unsupported server type through a [call_...] block. *)
Ltac call_unsupported call :=
  let H := fresh "H" in
  intros H; unfold call, try_except, append_error;
  repeat step; rewrite H; reflexivity.

Lemma backup_call_updater_phantom d l w st :
  getitem (JDict d) "errors" = Ret (JList l) ->
  tasks_backup_update.call_updater (JStr "Phantom") (JDict d) w st
  = (Ret (false,
          JDict (assoc_set "errors" (JList (l ++ [JStr "Unsupported server type"])) d)),
     st).
Proof. call_unsupported tasks_backup_update.call_updater. Qed.

Lemma backup_call_scrubber_phantom d l w st :
  getitem (JDict d) "errors" = Ret (JList l) ->
  tasks_backup_scrub.call_scrubber (JStr "Phantom") (JDict d) w st
  = (Ret (false,
          JDict (assoc_set "errors" (JList (l ++ [JStr "Unsupported server type"])) d)),
     st).
Proof. call_unsupported tasks_backup_scrub.call_scrubber. Qed.

Lemma snapshot_call_updater_phantom d l w st :
  getitem (JDict d) "errors" = Ret (JList l) ->
  tasks_snapshot_update.call_updater (JStr "Phantom") (JDict d) w st
  = (Ret (false,
          JDict (assoc_set "errors" (JList (l ++ [JStr "Unsupported server type"])) d)),
     st).
Proof. call_unsupported tasks_snapshot_update.call_updater. Qed.

Lemma snapshot_call_scrubber_phantom d l w st :
  getitem (JDict d) "errors" = Ret (JList l) ->
  tasks_snapshot_scrub.call_scrubber (JStr "Phantom") (JDict d) w st
  = (Ret (false,
          JDict (assoc_set "errors" (JList (l ++ [JStr "Unsupported server type"])) d)),
     st).
Proof. call_unsupported tasks_snapshot_scrub.call_scrubber. Qed.

(** Runs a Backup or Snapshot worker on a Phantom server: [call_lemma]
    takes it through the block that selects the driver, [unresource] is the
    [_unresource] of the task. *)
Ltac unsupported_path call_lemma unresource :=
  run_path;
  match goal with
  | |- context [bind (_ (JStr "Phantom") (JDict ?dd)) _ ?w ?st] =>
      rewrite (bind_ret _ _ _ _ _ _
                 (call_lemma dd [] w st
                    ltac:(autorewrite with dict; reflexivity)))
  end;
  run_path; unfold unresource; run_path; read_trace.

Section backup_snapshot_on_phantom.

Variables (w : World) (id : Z) (resource vm server_id server : json).

Hypothesis Hlimit : recursion_limit w <> O.
Hypothesis Hid : getitem resource "id" = Ret (JInt id).
Hypothesis Hvm : getitem resource "vm" = Ret vm.
Hypothesis Hserver_id : getitem vm "server_id" = Ret server_id.
Hypothesis Hserver : serves w "server" server_id server.
Hypothesis Htype : server_of_type server "Phantom".

Lemma phantom_update_backup :
  serves w "backup" (JInt id) resource ->
  getitem resource "state" = Ret (JInt state.RUNNING_UPDATE) ->
  accepts w "backup" id state.RUNNING_UPDATING ->
  unresourced_without_remote UpdateBackup w id state.RUNNING_UPDATE.
Proof.
  intros Hres Hstate Haccept. destruct Htype as (ty & Hty & Hname).
  pose proof (fun st => api_read_serves _ _ _ w st Hlimit Hres) as Hread.
  pose proof (fun st => api_read_serves _ _ _ w st Hlimit Hserver) as Hread_server.
  destruct (getitem_dict_inv _ _ _ Hid) as [d [-> _]].
  unfold unresourced_without_remote, run; cbn [task client_of in_progress]; cbv zeta.
  unfold tasks_backup_update._update_backup.
  unsupported_path backup_call_updater_phantom tasks_backup_update._unresource.
Qed.

Lemma phantom_update_snapshot :
  serves w "snapshot" (JInt id) resource ->
  getitem resource "state" = Ret (JInt state.RUNNING_UPDATE) ->
  accepts w "snapshot" id state.RUNNING_UPDATING ->
  unresourced_without_remote UpdateSnapshot w id state.RUNNING_UPDATE.
Proof.
  intros Hres Hstate Haccept. destruct Htype as (ty & Hty & Hname).
  pose proof (fun st => api_read_serves _ _ _ w st Hlimit Hres) as Hread.
  pose proof (fun st => api_read_serves _ _ _ w st Hlimit Hserver) as Hread_server.
  destruct (getitem_dict_inv _ _ _ Hid) as [d [-> _]].
  unfold unresourced_without_remote, run; cbn [task client_of in_progress]; cbv zeta.
  unfold tasks_snapshot_update._update_snapshot.
  unsupported_path snapshot_call_updater_phantom tasks_snapshot_update._unresource.
Qed.

Lemma phantom_scrub_backup :
  serves w "backup" (JInt id) resource ->
  getitem resource "state" = Ret (JInt state.SCRUB) ->
  accepts w "backup" id state.SCRUBBING ->
  unresourced_without_remote ScrubBackup w id state.SCRUB.
Proof.
  intros Hres Hstate Haccept. destruct Htype as (ty & Hty & Hname).
  pose proof (fun st => api_read_serves _ _ _ w st Hlimit Hserver) as Hread_server.
  destruct (getitem_dict_inv _ _ _ Hid) as [d [-> _]].
  unfold unresourced_without_remote, run; cbn [task client_of in_progress]; cbv zeta.
  unfold tasks_backup_scrub._scrub_backup.
  direct_read_served Hres.
  unsupported_path backup_call_scrubber_phantom tasks_backup_scrub._unresource.
Qed.

Lemma phantom_scrub_snapshot :
  serves w "snapshot" (JInt id) resource ->
  getitem resource "state" = Ret (JInt state.SCRUB) ->
  accepts w "snapshot" id state.SCRUBBING ->
  unresourced_without_remote ScrubSnapshot w id state.SCRUB.
Proof.
  intros Hres Hstate Haccept. destruct Htype as (ty & Hty & Hname).
  pose proof (fun st => api_read_serves _ _ _ w st Hlimit Hserver) as Hread_server.
  destruct (getitem_dict_inv _ _ _ Hid) as [d [-> _]].
  unfold unresourced_without_remote, run; cbn [task client_of in_progress]; cbv zeta.
  unfold tasks_snapshot_scrub._scrub_snapshot.
  direct_read_served Hres.
  unsupported_path snapshot_call_scrubber_phantom tasks_snapshot_scrub._unresource.
Qed.

End backup_snapshot_on_phantom.

(** C9 (amended): on a server of type Phantom no worker calls a remote
    driver.  The four VM workers (build, scrub, quiesce, restart) write
    the in-progress state and then the success state of their operation and
    nothing else.  The Backup and Snapshot workers (build, update, scrub)
    have no case for Phantom: they write the in-progress state and then
    UNRESOURCED. *)
Theorem C9_phantom_servers (k : Worker) (w : World) (id s : Z)
    (resource server_id server : json) :
  recursion_limit w <> O ->
  serves w (client_of k) (JInt id) resource ->
  getitem resource "id" = Ret (JInt id) ->
  getitem resource "state" = Ret (JInt s) ->
  In s (trigger_states k) ->
  router_running k w resource ->
  accepts w (client_of k) id (in_progress k s) ->
  server_id_of k resource = Ret server_id ->
  serves w "server" server_id server ->
  server_of_type server "Phantom" ->
  on_phantom k w id s.
Proof.
  intros Hlimit Hres Hid Hstate Hs Hrouter Haccept Hserver_id Hserver Htype.
  destruct k; cbn [on_phantom client_of trigger_states server_id_of] in *;
    try exact I.
  - destruct Hs as [<- | []]. eapply phantom_build_vm; eauto.
  - destruct Hs as [<- | []]. eapply phantom_scrub_vm; eauto.
  - eapply phantom_quiesce_vm; eauto.
  - destruct Hs as [<- | []]. eapply phantom_restart_vm; eauto.
  - destruct Hs as [<- | []]. eapply phantom_build_backup; eauto.
  - destruct (getitem resource "vm") as [vm | |] eqn:Hvm; try discriminate.
    destruct Hs as [<- | []]. eapply phantom_update_backup; eauto.
  - destruct (getitem resource "vm") as [vm | |] eqn:Hvm; try discriminate.
    destruct Hs as [<- | []]. eapply phantom_scrub_backup; eauto.
  - destruct Hs as [<- | []]. eapply phantom_build_snapshot; eauto.
  - destruct (getitem resource "vm") as [vm | |] eqn:Hvm; try discriminate.
    destruct Hs as [<- | []]. eapply phantom_update_snapshot; eauto.
  - destruct (getitem resource "vm") as [vm | |] eqn:Hvm; try discriminate.
    destruct Hs as [<- | []]. eapply phantom_scrub_snapshot; eauto.
Qed.

Lemma C9_phantom_servers_witness :
  on_phantom BuildVM
    (scenarios.vm_and_router state.REQUESTED state.RUNNING "Phantom")
    42 state.REQUESTED.
Proof.
  apply (C9_phantom_servers BuildVM
           (scenarios.vm_and_router state.REQUESTED state.RUNNING "Phantom")
           42 state.REQUESTED
           (scenarios.vm 42 state.REQUESTED 7 9) (JInt 7)
           (scenarios.server 7 "Phantom")).
  - discriminate.
  - intros n; split; [reflexivity | eexists; split; reflexivity].
  - reflexivity.
  - reflexivity.
  - left; reflexivity.
  - exists (JDict [("id", JInt 1); ("virtual_router_id", JInt 9)]), (JInt 9),
      (scenarios.virtual_router 9 state.RUNNING 1), (JInt 9).
    repeat split; try reflexivity.
    eexists; split; reflexivity.
  - intros n; reflexivity.
  - reflexivity.
  - intros n; split; [reflexivity | eexists; split; reflexivity].
  - eexists; split; reflexivity.
Defined.

(** * Further properties of the workers *)










Lemma emits_send_email P name obj : P (EEmail name) -> emits P (send_email name obj).
Proof.
  intros H w st; exists [EEmail name]; unfold send_email.
  destruct (email_ok w name obj); simpl; auto.
Qed.

Lemma emits_fetch_rest P fuel client :
  (forall params s, P (EApi (ListReq client params) s)) ->
  forall params page objects total,
    emits P (utils.fetch_rest fuel client params page objects total).
Proof.
  intros H. induction fuel as [| fuel IH]; intros params page objects total;
    rewrite fetch_rest_unfold.
  - repeat emits_step.
  - apply emits_bind; [apply emits_lift | intros more].
    destruct (negb more); [apply emits_ret |]. cbv zeta.
    apply emits_bind; [apply emits_api; auto | intros response].
    apply emits_bind; [apply emits_token_is_expired | intros expired].
    apply emits_bind; [repeat emits_step | intros _].
    destruct (negb (status_code response =? 200)); [apply emits_ret |].
    repeat (apply emits_bind; [apply emits_lift | intros]).
    apply IH.
Qed.

Lemma emits_api_list P fuel client params :
  (forall params s, P (EApi (ListReq client params) s)) ->
  emits P (utils.api_list fuel client params).
Proof.
  intros H. unfold utils.api_list.
  apply emits_bind; [apply emits_ask | intros w].
  generalize (recursion_limit w) params.
  induction n as [| depth IH]; intros ps; cbn [utils.api_list_rec].
  - apply emits_raise.
  - apply emits_bind; [apply emits_api; auto | intros response].
    apply emits_bind; [apply emits_token_is_expired | intros expired].
    destruct expired; [apply IH |].
    destruct (negb (status_code response =? 200)); [apply emits_ret |].
    repeat (apply emits_bind; [apply emits_lift | intros]).
    apply emits_fetch_rest; auto.
Qed.

Lemma emits_notify_vpns P notifier virtual_router :
  P (EEmail notifier) ->
  (forall pk s, P (EApi (PartialUpdate "vpn" pk [("send_email", JBool false)]) s)) ->
  forall vpns, emits P (notify_vpns notifier virtual_router vpns).
Proof.
  intros Hemail Hupdate. induction vpns as [| vpn rest IH]; cbn [notify_vpns].
  - apply emits_ret.
  - repeat (apply emits_bind; [apply emits_lift | intros]).
    apply emits_bind; [| intros; apply IH].
    apply emits_try_except; [| intros; repeat emits_step].
    apply emits_bind; [apply emits_send_email; auto | intros].
    apply emits_bind; [apply emits_lift | intros].
    apply emits_bind; [apply emits_api; auto | intros].
    apply emits_ret.
Qed.

(** Discharges [allowed_event k e] for the events a worker emits. *)
Ltac allowed :=
  try exact I;
  cbn [allowed_event client_of];
  repeat match goal with
         | |- context [if ?b then _ else _] => destruct b
         end;
  first
    [ right; split; reflexivity
    | left; split; [reflexivity |];
      eexists; split; [reflexivity |];
      cbn; tauto ].

Ltac emits_allowed :=
  repeat first
    [ apply emits_api_read; intros; allowed
    | apply emits_api_list; intros; allowed
    | apply emits_notify_vpns; [allowed | intros; allowed]
    | emits_step; try allowed ].

Create HintDb workers.
#[local] Hint Unfold
  tasks_vm_build._unresource tasks_vm_build.call_builder
  tasks_vm_scrub.call_scrubber
  tasks_vm_quiesce._unresource tasks_vm_quiesce.call_quiescer
  tasks_vm_restart._unresource tasks_vm_restart.call_restarter
  tasks_backup_build._unresource tasks_backup_build.call_builder
  tasks_backup_update._unresource tasks_backup_update.call_updater
  tasks_backup_scrub._unresource tasks_backup_scrub.call_scrubber
  tasks_snapshot_build._unresource tasks_snapshot_build.call_builder
  tasks_snapshot_update._unresource tasks_snapshot_update.call_updater
  tasks_snapshot_scrub._unresource tasks_snapshot_scrub.call_scrubber
  tasks_virtual_router_build.call_builder
  tasks_virtual_router_update.call_updater
  tasks_virtual_router_quiesce.call_quiescer
  tasks_virtual_router_restart.call_restarter
  tasks_virtual_router_scrub.call_scrubber : workers.

Lemma emits_allowed_event (k : Worker) (id : Z) :
  emits (allowed_event k) (task k id).
Proof.
  destruct k; cbn [task];
    match goal with
    | |- emits _ ?worker => let f := head_of worker in unfold f
    end;
    autounfold with workers; emits_allowed.
Qed.

(** In every run of every worker, whatever the API and the drivers answer,
    each partial update either sets a state of the worker's own row of the
    state machine (in-progress, success) or UNRESOURCED on a resource of
    the worker's kind, or resets [send_email] of a VPN; nothing is created. *)
Theorem workers_write_only_lifecycle_states (k : Worker) (w : World) (id : Z) :
  Forall (allowed_event k) (trace (snd (run (task k id) w))).
Proof.
  destruct (emits_allowed_event k id w (mkSt 0 [])) as [evs [E F]].
  unfold run. rewrite E. exact F.
Qed.

(** Only the scrub workers can close a resource: a run that sends an update
    to CLOSED is a run of a scrub worker. *)
Theorem only_scrub_writes_closed (k : Worker) (w : World) (id : Z)
    (client : string) (pk : json) (data : list (string * json)) (status : Z) :
  In (EApi (PartialUpdate client pk data) status)
     (trace (snd (run (task k id) w))) ->
  assoc "state" data = Some (JInt state.CLOSED) ->
  scrubs k = true.
Proof.
  intros Hin Hclosed.
  destruct (emits_allowed_event k id w (mkSt 0 [])) as [evs [E Hall]].
  unfold run in Hin. rewrite E in Hin. cbn [trace app] in Hin.
  rewrite Forall_forall in Hall. specialize (Hall _ Hin).
  cbn [allowed_event] in Hall.
  destruct Hall as [[_ [s [Hs Hlife]]] | [_ ->]]; [| discriminate Hclosed].
  rewrite Hclosed in Hs. injection Hs as <-.
  destruct k; try reflexivity; exfalso;
    cbn in Hlife; repeat (destruct Hlife as [Hlife | Hlife]; try discriminate Hlife);
    exact Hlife.
Qed.

Lemma only_scrub_writes_closed_witness : scrubs ScrubVM = true.
Proof.
  apply (only_scrub_writes_closed ScrubVM scenarios.vm_scrub_update_refused 100
           "vm" (JInt 100) [("state", JInt state.CLOSED)] 200).
  - vm_compute. repeat (first [left; reflexivity | right]).
  - reflexivity.
Defined.

(** ** Scrub of a virtual router and the VMs of its project *)

Lemma api_list_trace fuel client params w st r st' :
  utils.api_list fuel client params w st = (r, st') ->
  exists evs, trace st' = trace st ++ evs /\ Forall is_read evs.
Proof.
  intros H.
  destruct (emits_api_list is_read fuel client params (fun _ _ => I) w st)
    as [evs [E F]].
  rewrite H in E. eauto.
Qed.

(** Opens [_scrub_virtual_router] on a router served in SCRUB_QUEUE, up to
    the listing of the VMs of its project. *)
Ltac to_vm_listing Hvr Hstate Hproject Hproject_id :=
  unfold run, tasks_virtual_router_scrub._scrub_virtual_router;
  direct_read_served Hvr;
  rewrite (bind_lift _ _ _ _ _ eq_refl);
  match goal with
  | Hc : getitem _ "content" = Ret _ |- _ => rewrite (bind_lift _ _ _ _ _ Hc)
  end;
  rewrite (bind_lift _ _ _ _ _ Hstate);
  cbn [py_eq_int state.SCRUB_QUEUE Z.eqb Pos.eqb negb];
  rewrite bind_api; cbn [calls trace app];
  rewrite (bind_lift _ _ _ _ _ Hproject), (bind_lift _ _ _ _ _ Hproject_id);
  cbv zeta.

(** A router in SCRUB_QUEUE whose project still lists a VM that is not
    CLOSED: the scrub worker calls no remote scrubber, writes neither
    CLOSED nor UNRESOURCED, and schedules itself 60 seconds later.  The
    update to SCRUBBING has been sent before the listing. *)
Theorem vr_scrub_waits_for_vms (fuel : nat) (w : World) (id : Z)
    (virtual_router project project_id : json) (vrf_vms : list json)
    (st3 : St) :
  let update :=
    PartialUpdate "virtual_router" (JInt id) [("state", JInt state.SCRUBBING)] in
  let st2 :=
    mkSt 2 [EApi (Read "virtual_router" (JInt id)) 200;
            EApi update (status_code (respond w update 1%nat))] in
  serves w "virtual_router" (JInt id) virtual_router ->
  getitem virtual_router "state" = Ret (JInt state.SCRUB_QUEUE) ->
  getitem virtual_router "project" = Ret project ->
  getitem project "id" = Ret project_id ->
  utils.api_list fuel "vm"
    [("search[project_id]", project_id); ("exclude[state]", JInt state.CLOSED)]
    w st2 = (Ret vrf_vms, st3) ->
  vrf_vms <> [] ->
  let r := run (tasks_virtual_router_scrub._scrub_virtual_router fuel id) w in
  fst r = Ret tt
  /\ remote_calls (trace (snd r)) = []
  /\ scheduled (trace (snd r)) = [("scrub_virtual_router", id, 60)]
  /\ state_writes "virtual_router" id (trace (snd r)) = [JInt state.SCRUBBING].
Proof.
  intros update st2 Hvr Hstate Hproject Hproject_id Hlist Hvms.
  destruct (api_list_trace _ _ _ _ _ _ _ Hlist) as [evs [Etrace Hreads]].
  cbv zeta. to_vm_listing Hvr Hstate Hproject Hproject_id.
  fold update. fold st2.
  rewrite (bind_ret _ _ _ _ _ _ Hlist).
  destruct vrf_vms as [| vm rest]; [congruence |].
  cbn [List.length]. rewrite Nat2Z.inj_succ.
  replace (0 <? Z.succ (Z.of_nat (List.length rest))) with true
    by (symmetry; apply Z.ltb_lt; lia).
  unfold apply_async, emit; cbn [fst snd trace].
  rewrite Etrace. cbn [trace st2].
  split; [reflexivity |].
  rewrite !remote_calls_app, !scheduled_app.
  rewrite (is_read_no_remote _ Hreads), (is_read_no_schedule _ Hreads).
  repeat split; try reflexivity.
  unfold state_writes. rewrite !flat_map_app.
  fold (state_writes "virtual_router" id evs).
  rewrite (state_writes_reads _ _ _ Hreads).
  cbn [flat_map app update]. rewrite Z.eqb_refl. reflexivity.
Qed.

Lemma vr_scrub_waits_for_vms_witness :
  let r := run (tasks_virtual_router_scrub._scrub_virtual_router 5 9)
             (scenarios.vr_scrub_live_vm state.SCRUB_QUEUE) in
  fst r = Ret tt
  /\ remote_calls (trace (snd r)) = []
  /\ scheduled (trace (snd r)) = [("scrub_virtual_router", 9, 60)]
  /\ state_writes "virtual_router" 9 (trace (snd r)) = [JInt state.SCRUBBING].
Proof.
  eapply (vr_scrub_waits_for_vms 5 (scenarios.vr_scrub_live_vm state.SCRUB_QUEUE) 9
            (scenarios.virtual_router 9 state.SCRUB_QUEUE 3)
            (JDict [("id", JInt 3)]) (JInt 3)
            [scenarios.vm 42 state.RUNNING 7 9]).
  - intros n. split; [reflexivity |]. eexists. split; reflexivity.
  - reflexivity.
  - reflexivity.
  - reflexivity.
  - vm_compute. reflexivity.
  - discriminate.
Defined.




(** ** The outcome of the remote driver and the final state *)














(** ** Retry of [api_read] after expired tokens *)

Lemma token_is_expired_yes response w st :
  token_expired response -> token_is_expired response w st = (Ret true, st).
Proof.
  intros (H401 & data & detail & Hbody & Hdetail & Hin).
  unfold token_is_expired. rewrite H401. cbn [Z.eqb Pos.eqb].
  unfold json_of. rewrite Hbody.
  rewrite (bind_lift _ _ _ _ _ eq_refl), (bind_lift _ _ _ _ _ Hdetail).
  unfold lift. rewrite Hin. reflexivity.
Qed.

Lemma api_read_rec_unfold depth client pk :
  utils.api_read_rec (S depth) client pk
  = (response <- api (Read client pk) ;;
     expired <- token_is_expired response ;;
     if expired then utils.api_read_rec depth client pk
     else if status_code response =? 200 then
       data <- lift (json_of response) ;;
       lift (getitem data "content")
     else ret (JDict [])).
Proof. reflexivity. Qed.

Lemma api_read_rec_retries client pk obj w :
  forall k depth st,
    (forall i, (i < k)%nat ->
               token_expired (respond w (Read client pk) (calls st + i))) ->
    (let r := respond w (Read client pk) (calls st + k) in
     status_code r = 200
     /\ exists data, body r = Some data /\ getitem data "content" = Ret obj) ->
    utils.api_read_rec (S (k + depth)) client pk w st
    = (Ret obj,
       mkSt (S (calls st + k))
         (trace st ++ repeat (EApi (Read client pk) 401) k
                   ++ [EApi (Read client pk) 200])).
Proof.
  induction k as [| k IH]; intros depth st Hexpired (H200 & data & Hbody & Hcontent).
  - rewrite Nat.add_0_r in *. cbn [Nat.add repeat app].
    rewrite api_read_rec_unfold, bind_api. unfold token_is_expired. rewrite H200.
    cbn [Z.eqb Pos.eqb]. rewrite bind_ret_l.
    unfold json_of. rewrite Hbody.
    rewrite (bind_lift _ _ _ _ _ eq_refl). unfold lift. rewrite Hcontent.
    reflexivity.
  - change (S (S k + depth)) with (S (S (k + depth))).
    rewrite api_read_rec_unfold, bind_api.
    pose proof (Hexpired O ltac:(lia)) as H0. rewrite Nat.add_0_r in H0.
    rewrite (bind_ret _ _ _ _ _ _ (token_is_expired_yes _ _ _ H0)).
    destruct H0 as [H401 _]. rewrite H401.
    rewrite IH; cbn [calls trace].
    + rewrite <- app_assoc. cbn [repeat app].
      replace (S (calls st) + k)%nat with (calls st + S k)%nat by lia.
      reflexivity.
    + intros i Hi.
      replace (S (calls st) + i)%nat with (calls st + S i)%nat by lia.
      apply Hexpired. lia.
    + replace (S (calls st) + k)%nat with (calls st + S k)%nat by lia.
      eauto.
Qed.

(** [api_read] asks again as long as it is told that the token is expired:
    after [k] such answers, fewer than the recursion limit, the next answer
    is 200 and its content is what [api_read] returns, after [k + 1]
    requests in all. *)
Theorem api_read_retries_until_answered (client : string) (pk obj : json)
    (w : World) (st : St) (k : nat) :
  (k < recursion_limit w)%nat ->
  (forall i, (i < k)%nat ->
             token_expired (respond w (Read client pk) (calls st + i))) ->
  (let r := respond w (Read client pk) (calls st + k) in
   status_code r = 200
   /\ exists data, body r = Some data /\ getitem data "content" = Ret obj) ->
  utils.api_read client pk w st
  = (Ret obj,
     mkSt (S (calls st + k))
       (trace st ++ repeat (EApi (Read client pk) 401) k
                 ++ [EApi (Read client pk) 200])).
Proof.
  intros Hk Hexpired Hanswer.
  unfold utils.api_read, bind at 1, ask.
  replace (recursion_limit w) with (S (k + (recursion_limit w - S k)))%nat by lia.
  apply api_read_rec_retries; assumption.
Qed.

Lemma api_read_retries_until_answered_witness :
  utils.api_read "vm" (JInt 42) scenarios.token_expired_once (mkSt 0 [])
  = (Ret scenarios.pending_work,
     mkSt 2 [EApi (Read "vm" (JInt 42)) 401; EApi (Read "vm" (JInt 42)) 200]).
Proof.
  apply (api_read_retries_until_answered "vm" (JInt 42) scenarios.pending_work
           scenarios.token_expired_once (mkSt 0 []) 1).
  - apply Nat.ltb_lt. reflexivity.
  - intros i Hi. replace i with O by lia.
    split; [reflexivity |]. do 2 eexists. repeat split; reflexivity.
  - split; [reflexivity |]. eexists. split; reflexivity.
Defined.

(** ** A listing fetched to the end *)

Lemma assoc_set_set k v v' d :
  assoc_set k v (assoc_set k v' d) = assoc_set k v d.
Proof.
  induction d as [| [k' x] d IH]; cbn [assoc_set].
  - rewrite String.eqb_refl. reflexivity.
  - destruct (String.eqb k k') eqn:E; cbn [assoc_set]; rewrite ?String.eqb_refl, ?E.
    + reflexivity.
    + rewrite IH. reflexivity.
Qed.

Lemma fetch_rest_pages w client params pages total :
  serves_pages w client pages total ->
  total = Z.of_nat (List.length (List.concat pages)) ->
  forall rest fetched page st fuel,
    pages = fetched ++ rest ->
    Z.of_nat (List.length fetched) = page + 1 ->
    Forall (fun p => p <> []) rest ->
    (List.length rest <= fuel)%nat ->
    utils.fetch_rest fuel client (assoc_set "page" (JInt page) params) page
      (List.concat fetched) (JInt total) w st
    = (Ret (List.concat pages),
       mkSt (calls st + List.length rest)
         (trace st ++ page_requests client params (page + 1) (List.length rest))).
Proof.
  intros Hserves Htotal.
  induction rest as [| p rest IH]; intros fetched page st fuel Hpages Hpage Hrest Hfuel.
  - rewrite app_nil_r in Hpages. subst fetched.
    rewrite fetch_rest_exit by lia.
    cbn [List.length page_requests]. rewrite Nat.add_0_r, app_nil_r.
    destruct st; reflexivity.
  - destruct fuel as [| fuel]; [cbn [List.length] in Hfuel; lia |].
    inversion Hrest as [| ? ? Hp Hrest']; subst.
    assert (Hlt : Z.of_nat (List.length (List.concat fetched))
                  < Z.of_nat (List.length (List.concat (fetched ++ p :: rest)))).
    { rewrite concat_app, length_app. cbn [List.concat]. rewrite length_app.
      destruct p; [congruence | cbn [List.length]; lia]. }
    pose (next := assoc_set "page" (JInt (page + 1))
                    (assoc_set "page" (JInt page) params)).
    destruct (Hserves next (List.length fetched) (calls st))
      as (H200 & data & metadata & Hbody & Hcontent & _).
    { unfold next. rewrite assoc_set_same, Hpage. reflexivity. }
    { rewrite length_app. cbn [List.length]. lia. }
    rewrite app_nth2, Nat.sub_diag in Hcontent by lia. cbn [nth] in Hcontent.
    rewrite (fetch_rest_next fuel client _ page (List.concat fetched) _ w st
               data (JList p) p Hlt H200 Hbody Hcontent eq_refl).
    fold next. unfold next at 1. rewrite assoc_set_set.
    replace (List.concat fetched ++ p) with (List.concat (fetched ++ [p]))
      by (rewrite concat_app; cbn [List.concat]; rewrite app_nil_r; reflexivity).
    rewrite (IH (fetched ++ [p]) (page + 1)); cbn [calls trace].
    + unfold next. rewrite assoc_set_set, <- app_assoc.
      cbn [List.length page_requests app].
      replace (S (calls st) + List.length rest)%nat
        with (calls st + S (List.length rest))%nat by lia.
      reflexivity.
    + rewrite <- app_assoc. reflexivity.
    + rewrite length_app. cbn [List.length]. lia.
    + assumption.
    + cbn [List.length] in Hfuel. lia.
Qed.

Lemma api_list_pages (w : World) (client : string)
    (params : list (string * json)) (first : list json)
    (rest : list (list json)) (fuel : nat) (st : St) :
  let pages := first :: rest in
  recursion_limit w <> O ->
  serves_pages w client pages (Z.of_nat (List.length (List.concat pages))) ->
  Forall (fun p => p <> []) rest ->
  (List.length rest <= fuel)%nat ->
  utils.api_list fuel client params w st
  = (Ret (List.concat pages),
     mkSt (calls st + List.length pages)
       (trace st ++ page_requests client params 0 (List.length pages))).
Proof.
  intros pages Hlimit Hserves Hrest Hfuel.
  destruct (Hserves (assoc_set "page" (JInt 0) params) O (calls st))
    as (H200 & data & metadata & Hbody & Hcontent & Hmetadata & Htotal).
  { apply assoc_set_same. }
  { cbn [pages List.length]. lia. }
  cbn [pages nth] in Hcontent.
  rewrite (api_list_first_page fuel client params w st data (JList first) first
             metadata _ Hlimit H200 Hbody Hcontent eq_refl Hmetadata Htotal).
  replace first with (List.concat [first]) at 1
    by (cbn [List.concat]; apply app_nil_r).
  rewrite (fetch_rest_pages w client params pages _ Hserves eq_refl
             rest [first] 0); cbn [calls trace];
    try reflexivity; try assumption.
  rewrite <- app_assoc. cbn [pages List.length page_requests app].
  replace (S (calls st) + List.length rest)%nat
    with (calls st + S (List.length rest))%nat by lia.
  reflexivity.
Qed.

(** A collection served in pages, every page after the first with at least
    one record and [total_records] the number of records in all: [api_list]
    requests the pages 0, 1, ... once each, in order, and returns the
    records of all of them. *)
Theorem api_list_fetches_every_page (w : World) (client : string)
    (params : list (string * json)) (first : list json)
    (rest : list (list json)) (fuel : nat) (st : St) :
  let pages := first :: rest in
  recursion_limit w <> O ->
  serves_pages w client pages (Z.of_nat (List.length (List.concat pages))) ->
  Forall (fun p => p <> []) rest ->
  (List.length rest <= fuel)%nat ->
  utils.api_list fuel client params w st
  = (Ret (List.concat pages),
     mkSt (calls st + List.length pages)
       (trace st ++ page_requests client params 0 (List.length pages))).
Proof.
  intros pages. exact (api_list_pages w client params first rest fuel st).
Qed.

Lemma api_list_fetches_every_page_witness :
  utils.api_list 5 "vm" [] listing.two_pages (mkSt 0 [])
  = (Ret [JInt 1; JInt 2; JInt 3],
     mkSt 2 [EApi (ListReq "vm" [("page", JInt 0)]) 200;
             EApi (ListReq "vm" [("page", JInt 1)]) 200]).
Proof.
  apply (api_list_fetches_every_page listing.two_pages "vm" []
           [JInt 1; JInt 2] [[JInt 3]] 5 (mkSt 0 [])).
  - discriminate.
  - intros params i n Hpage Hi.
    destruct i as [| [| i]]; [| | cbn [List.length] in Hi; lia];
      cbn [listing.two_pages respond]; rewrite Hpage;
      (split; [reflexivity |]); do 2 eexists; repeat split; reflexivity.
  - repeat constructor; discriminate.
  - cbn [List.length]. lia.
Defined.

(** ** Age of the token, in general *)

(** The token holder asks for a new token exactly when the time of day of
    the elapsed time, i.e. the elapsed time modulo 24 hours, is at least
    40 minutes and one second; whole days and the fraction of the last
    second do not count.  A new token is stored with the time of the second
    reading of the clock. *)
Theorem token_refresh_follows_time_of_day (self : cloudcix_token.Token)
    (now now' : Z) (admin_token : string) :
  let elapsed := now - cloudcix_token._created self in
  cloudcix_token.token self now now' admin_token
  = if 2401000000 <=? elapsed mod 86400000000
    then (admin_token, cloudcix_token.mkToken admin_token now', true)
    else (cloudcix_token._token self, self, false).
Proof.
  cbv zeta. unfold cloudcix_token.token, cloudcix_token.datetime_sub,
    cloudcix_token.THRESHOLD.
  cbn [cloudcix_token.seconds].
  set (r := (now - cloudcix_token._created self) mod 86400000000).
  pose proof (Z.div_mod r 1000000 ltac:(lia)) as Hdiv.
  pose proof (Z.mod_pos_bound r 1000000 ltac:(lia)) as Hmod.
  destruct (Z.ltb_spec (60 * 40) (r / 1000000));
    destruct (Z.leb_spec 2401000000 r); try reflexivity; lia.
Qed.

(** After a renewal the new token is handed out, with no further login,
    at every reading of the clock up to 40 minutes and one second after the
    time stored with it. *)
Theorem token_not_renewed_twice (self : cloudcix_token.Token)
    (now now' later later' : Z) (admin_token admin_token' : string) :
  2401000000 <= (now - cloudcix_token._created self) mod 86400000000 ->
  0 <= later - now' < 2401000000 ->
  let holder := snd (fst (cloudcix_token.token self now now' admin_token)) in
  holder = cloudcix_token.mkToken admin_token now'
  /\ cloudcix_token.token holder later later' admin_token'
     = (admin_token, holder, false).
Proof.
  intros Hold Hfresh.
  unfold cloudcix_token.token, cloudcix_token.datetime_sub,
    cloudcix_token.THRESHOLD.
  cbn [cloudcix_token.seconds].
  set (r := (now - cloudcix_token._created self) mod 86400000000) in *.
  pose proof (Z.div_mod r 1000000 ltac:(lia)) as Hdiv.
  pose proof (Z.mod_pos_bound r 1000000 ltac:(lia)) as Hmod.
  destruct (Z.ltb_spec (60 * 40) (r / 1000000)); [| lia].
  cbn [fst snd cloudcix_token._created cloudcix_token._token].
  split; [reflexivity |].
  rewrite (Z.mod_small (later - now') 86400000000) by lia.
  pose proof (Z.div_mod (later - now') 1000000 ltac:(lia)) as Hdiv'.
  pose proof (Z.mod_pos_bound (later - now') 1000000 ltac:(lia)) as Hmod'.
  destruct (Z.ltb_spec (60 * 40) ((later - now') / 1000000)); [lia |].
  reflexivity.
Qed.

Lemma token_not_renewed_twice_witness :
  let holder :=
    snd (fst (cloudcix_token.token (cloudcix_token.mkToken "stored" 0)
                3000000000 3000000001 "fresh")) in
  holder = cloudcix_token.mkToken "fresh" 3000000001
  /\ cloudcix_token.token holder 5000000000 5000000001 "fresher"
     = ("fresh", holder, false).
Proof.
  apply (token_not_renewed_twice (cloudcix_token.mkToken "stored" 0)
           3000000000 3000000001 5000000000 5000000001 "fresh" "fresher").
  - vm_compute. discriminate.
  - lia.
Defined.

(** ** The answer of [run_robot_get] *)

Lemma getitem_returns obj k : getitem obj k <> OutOfFuel.
Proof.
  destruct obj as [| | | | | d]; cbn; try discriminate.
  destruct (assoc k d); discriminate.
Qed.

Lemma token_is_expired_result response w st :
  exists r, token_is_expired response w st = (r, st) /\ r <> OutOfFuel
            /\ (status_code response = 200 -> r = Ret false).
Proof.
  unfold token_is_expired.
  destruct (status_code response =? 401) eqn:E.
  - unfold bind, lift, json_of.
    destruct (body response) as [data |].
    + destruct (getitem data "detail") as [detail | e |] eqn:Hd.
      * destruct detail; cbn; eexists; (split; [reflexivity |]);
          (split; [discriminate |]); intros H; rewrite H in E; discriminate E.
      * eexists; split; [reflexivity |]. split; [discriminate |].
        intros H; rewrite H in E; discriminate E.
      * exfalso. exact (getitem_returns _ _ Hd).
    + eexists; split; [reflexivity |]. split; [discriminate |].
      intros H; rewrite H in E; discriminate E.
  - eexists; split; [reflexivity |]. split; [discriminate | reflexivity].
Qed.

Lemma run_robot_get_rec_unfold depth :
  mainloop.run_robot_get_rec (S depth)
  = try_except
      (response <- api (ListReq "run_robot" []) ;;
       expired <- token_is_expired response ;;
       (if expired then _ <- mainloop.run_robot_get_rec depth ;; ret tt
        else ret tt) ;;
       if negb (status_code response =? 200) then
         ret None
       else
         data <- lift (json_of response) ;;
         content <- lift (getitem data "content") ;;
         project_ids <- lift (getitem content "project_ids") ;;
         n <- lift (mainloop.py_len project_ids) ;;
         if 0 <? n then ret (Some content) else ret None)
      (fun _ => ret None).
Proof. reflexivity. Qed.

Lemma pending_content r content content' :
  pending r content -> pending r content' -> content = content'.
Proof.
  intros (_ & data & ? & ? & Hb & Hc & _) (_ & data' & ? & ? & Hb' & Hc' & _).
  congruence.
Qed.

Lemma run_robot_get_rec_cases w :
  forall depth st,
    let response := respond w (ListReq "run_robot" []) (calls st) in
    exists x,
      fst (mainloop.run_robot_get_rec (S depth) w st) = x
      /\ ((x = Ret None /\ forall content, ~ pending response content)
          \/ (exists content, x = Ret (Some content) /\ pending response content)).
Proof.
  induction depth as [| depth IH]; intros st response;
    pose (st1 := mkSt (S (calls st))
                   (trace st ++ [EApi (ListReq "run_robot" []) (status_code response)]));
    destruct (token_is_expired_result response w st1) as (r & E & Hr & H200);
    destruct (status_code response =? 200) eqn:Hstatus.
  all: try (pose proof Hstatus as Hstatus'; apply Z.eqb_eq in Hstatus';
            rewrite (H200 Hstatus') in E;
            destruct (body response) as [data |] eqn:Hbody;
            [ destruct (getitem data "content") as [content | e |] eqn:Hcontent;
              [ destruct (getitem content "project_ids") as [ids | e |] eqn:Hids;
                [ destruct (mainloop.py_len ids) as [n | e |] eqn:Hlen;
                  [ destruct (0 <? n) eqn:Hn | |
                    destruct ids; discriminate Hlen ]
                | | exfalso; exact (getitem_returns _ _ Hids) ]
              | | exfalso; exact (getitem_returns _ _ Hcontent) ]
            | ];
            eexists; (split;
            [ rewrite run_robot_get_rec_unfold; unfold try_except;
              rewrite bind_api; fold response; fold st1;
              unfold bind at 1; rewrite E; rewrite bind_ret_l, Hstatus;
              cbn [negb]; unfold bind, lift, ret, json_of;
              try rewrite Hbody; try rewrite Hcontent; try rewrite Hids;
              try rewrite Hlen; try rewrite Hn; reflexivity |]);
            first
              [ right; exists content; split; [reflexivity |];
                split; [assumption |];
                exists data, ids, n; repeat split; try assumption;
                apply Z.ltb_lt; assumption
              | left; split; [reflexivity |];
                intros content' (_ & data' & ids' & n' & Hb' & Hc' & Hi' & Hl' & Hn');
                try congruence;
                assert (data' = data) by congruence; subst data';
                try congruence;
                assert (content' = content) by congruence; subst content';
                try congruence;
                assert (ids' = ids) by congruence; subst ids';
                try congruence;
                assert (n' = n) by congruence; subst n';
                apply Z.ltb_ge in Hn; lia ]).
  all: exists (Ret None);
    (split;
     [| left; split; [reflexivity |];
        intros content [H _]; rewrite H in Hstatus; vm_compute in Hstatus;
        discriminate Hstatus]).
  all: rewrite run_robot_get_rec_unfold; unfold try_except;
    rewrite bind_api; fold response; fold st1;
    unfold bind at 1; rewrite E; rewrite Hstatus; cbn [negb];
    destruct r as [[|] | e |]; try congruence; try reflexivity.
  - unfold bind at 1. unfold bind at 1.
    destruct (IH st1) as (x & Hx & Hcases).
    destruct (mainloop.run_robot_get_rec (S depth) w st1) as [[a | e |] st2];
      cbn [fst] in Hx; try reflexivity.
    subst x. destruct Hcases as [[H _] | [content [H _]]]; discriminate H.
Qed.

(** [run_robot_get] never raises, and what it returns is decided by the
    first answer alone: it returns the content of that answer when it is a
    200 with a non-empty [project_ids], and None in every other case,
    whatever a retry after an expired token brings. *)
Theorem run_robot_get_answer_is_the_first (w : World) (st : St) :
  recursion_limit w <> O ->
  let response := respond w (ListReq "run_robot" []) (calls st) in
  (exists answer, fst (mainloop.run_robot_get w st) = Ret answer)
  /\ (forall content,
        fst (mainloop.run_robot_get w st) = Ret (Some content)
        <-> pending response content).
Proof.
  intros Hlimit response.
  unfold mainloop.run_robot_get, bind at 1 2, ask.
  destruct (recursion_limit w) as [| depth]; [congruence |].
  destruct (run_robot_get_rec_cases w depth st)
    as (x & <- & [[H Hnone] | [content [H Hsome]]]);
    fold response in Hnone || fold response in Hsome.
  - split; [eauto |]. intros content. rewrite H. split.
    + discriminate.
    + intros Hp. destruct (Hnone _ Hp).
  - split; [eauto |]. intros content'. rewrite H. split.
    + intros [= <-]. exact Hsome.
    + intros Hp. rewrite (pending_content _ _ _ Hsome Hp). reflexivity.
Qed.

Lemma run_robot_get_answer_is_the_first_witness :
  (exists answer,
     fst (mainloop.run_robot_get scenarios.token_expired_once (mkSt 0 []))
     = Ret answer)
  /\ (forall content,
        fst (mainloop.run_robot_get scenarios.token_expired_once (mkSt 0 []))
        = Ret (Some content)
        <-> pending scenarios.expired content).
Proof.
  apply (run_robot_get_answer_is_the_first scenarios.token_expired_once (mkSt 0 [])).
  discriminate.
Defined.
(** * The main loop *)

(** ** The monad of the loop *)

Lemma lbind_llift {A B} (r : res A) (k : A -> L B) w st a :
  r = Ret a -> lbind (llift r) k w st = k a w st.
Proof. intros ->. reflexivity. Qed.

Lemma lbind_ret {A B} (m : L A) (k : A -> L B) w st a st' :
  m w st = (Ret a, st') -> lbind m k w st = k a w st'.
Proof. intros H. unfold lbind. rewrite H. reflexivity. Qed.

Lemma lbind_act {B} (a : Action) (k : unit -> L B) w st :
  lbind (act a) k w st = k tt w (mkLoop (api_calls st) (actions st ++ [a])).
Proof. reflexivity. Qed.

Lemma for_each_delay task ids w st :
  for_each ids (delay task) w st
  = (Ret tt, mkLoop (api_calls st) (actions st ++ queued task ids)).
Proof.
  revert st. induction ids as [| id ids IH]; intros st; cbn [for_each queued map].
  - unfold lret. rewrite app_nil_r. destruct st; reflexivity.
  - unfold delay at 1. rewrite lbind_act, IH. cbn [api_calls actions].
    rewrite <- app_assoc. reflexivity.
Qed.

Lemma dispatch_all_delay {B} task ids (k : unit -> L B) w st :
  lbind (robot.dispatch_all (JList ids) (delay task)) k w st
  = k tt w (mkLoop (api_calls st) (actions st ++ queued task ids)).
Proof.
  apply lbind_ret. unfold robot.dispatch_all. cbn [py_iter].
  rewrite (lbind_llift _ _ _ _ _ eq_refl). apply for_each_delay.
Qed.

(** ** One call of the robot *)

Lemma to_update_lists buckets running quiesced :
  getitem buckets "running_update" = Ret (JList running) ->
  getitem buckets "quiesced_update" = Ret (JList quiesced) ->
  exists d,
    buckets = JDict d
    /\ robot.to_update buckets
       = Ret (JList (running ++ quiesced),
              JDict (assoc_set "running_update" (JList (running ++ quiesced)) d)).
Proof.
  intros Hr Hq. destruct (getitem_dict_inv _ _ _ Hr) as [d [-> _]].
  exists d. split; [reflexivity |].
  unfold robot.to_update. rewrite Hr, Hq. reflexivity.
Qed.

Lemma to_quiesce_lists buckets quiesce scrub :
  getitem buckets "quiesce" = Ret (JList quiesce) ->
  getitem buckets "scrub" = Ret (JList scrub) ->
  robot.to_quiesce buckets = Ret (JList (quiesce ++ scrub)).
Proof. intros Hq Hs. unfold robot.to_quiesce. rewrite Hq, Hs. reflexivity. Qed.

Lemma robot_call_plan (self : robot.Robot) (w : World) (st : Loop)
    (b s r v : string -> list json) :
  robot.virtual_router_dispatcher self = dispatchers.VirtualRouter ->
  sorted_into (robot.backups self) backup_keys b ->
  sorted_into (robot.snapshots self) backup_keys s ->
  sorted_into (robot.virtual_routers self) vm_keys r ->
  sorted_into (robot.vms self) vm_keys v ->
  exists self',
    robot.__call__ self w st
    = (Ret self', mkLoop (api_calls st) (actions st ++ plan b s r v))
    /\ robot.virtual_router_dispatcher self' = dispatchers.VirtualRouter
    /\ sorted_into (robot.backups self') backup_keys (after_call b)
    /\ sorted_into (robot.snapshots self') backup_keys (after_call s)
    /\ sorted_into (robot.virtual_routers self') vm_keys (after_call r)
    /\ sorted_into (robot.vms self') vm_keys (after_call v).
Proof.
  intros Hvr Hb Hs Hr Hv. destruct self as [vr bs ss rs vs].
  cbn [robot.virtual_router_dispatcher robot.backups robot.snapshots
       robot.virtual_routers robot.vms] in *. subst vr.
  unfold sorted_into, backup_keys, vm_keys in *.
  repeat match goal with
         | H : Forall _ (_ :: _) |- _ =>
             let H1 := fresh "Hkey" in
             let H2 := fresh "Hrest" in
             inversion H as [| ? ? H1 H2]; subst; clear H
         | H : Forall _ [] |- _ => clear H
         end.
  destruct (to_update_lists _ _ _ Hkey16 Hkey17) as (db & -> & Hbu).
  destruct (to_update_lists _ _ _ Hkey12 Hkey13) as (ds & -> & Hsu).
  destruct (to_update_lists _ _ _ Hkey8 Hkey9) as (dr & -> & Hru).
  destruct (to_update_lists _ _ _ Hkey2 Hkey3) as (dv & -> & Hvu).
  pose proof (to_quiesce_lists _ _ _ Hkey6 Hkey7) as Hrq.
  pose proof (to_quiesce_lists _ _ _ Hkey0 Hkey1) as Hvq.
  eexists. split; [| split; [| split; [| split; [| split]]]].
  - unfold robot.__call__.
  cbn [robot.virtual_router_dispatcher robot.backups robot.snapshots
       robot.virtual_routers robot.vms].
  repeat (autorewrite with dict;
          match goal with
          | H : ?r = Ret _ |- context [lbind (llift ?r) _] =>
              rewrite (lbind_llift _ _ _ _ _ H)
          end).
  unfold dispatchers.Backup.build, dispatchers.Backup.update, dispatchers.Backup.scrub,
    dispatchers.Snapshot.build, dispatchers.Snapshot.update, dispatchers.Snapshot.scrub,
    dispatchers.VM.build, dispatchers.VM.quiesce, dispatchers.VM.update,
    dispatchers.VM.restart.
  cbn [dispatchers.VirtualRouter dispatchers.build dispatchers.quiesce
       dispatchers.update dispatchers.restart].
  rewrite !dispatch_all_delay. cbn [api_calls actions].
  rewrite lbind_act. unfold lret, plan. cbn [api_calls actions].
  rewrite <- !app_assoc. reflexivity.
  - reflexivity.
  - repeat (apply Forall_cons || apply Forall_nil);
      unfold after_call;
      cbn [robot.backups robot.snapshots robot.virtual_routers robot.vms
           String.eqb Ascii.eqb Bool.eqb];
      autorewrite with dict; assumption || reflexivity.
  - repeat (apply Forall_cons || apply Forall_nil);
      unfold after_call;
      cbn [robot.backups robot.snapshots robot.virtual_routers robot.vms
           String.eqb Ascii.eqb Bool.eqb];
      autorewrite with dict; assumption || reflexivity.
  - repeat (apply Forall_cons || apply Forall_nil);
      unfold after_call;
      cbn [robot.backups robot.snapshots robot.virtual_routers robot.vms
           String.eqb Ascii.eqb Bool.eqb];
      autorewrite with dict; assumption || reflexivity.
  - repeat (apply Forall_cons || apply Forall_nil);
      unfold after_call;
      cbn [robot.backups robot.snapshots robot.virtual_routers robot.vms
           String.eqb Ascii.eqb Bool.eqb];
      autorewrite with dict; assumption || reflexivity.
Qed.

(** A robot whose buckets hold lists under all their keys queues, in one
    call and without a request to the API, the tasks of [plan]: builds
    first, then quiesces, updates, restarts and the scrubs of backups and
    snapshots, each kind in the order backup, snapshot, virtual router, VM.
    The ids under [scrub] of the virtual routers and VMs are queued for the
    quiesce task, after the ids under [quiesce]; the ids under
    [quiesced_update] are queued for the update task after the ids under
    [running_update], and are left in the [running_update] bucket. *)
Theorem robot_call_follows_plan (self : robot.Robot) (w : World) (st : Loop)
    (b s r v : string -> list json) :
  robot.virtual_router_dispatcher self = dispatchers.VirtualRouter ->
  sorted_into (robot.backups self) backup_keys b ->
  sorted_into (robot.snapshots self) backup_keys s ->
  sorted_into (robot.virtual_routers self) vm_keys r ->
  sorted_into (robot.vms self) vm_keys v ->
  exists self',
    robot.__call__ self w st
    = (Ret self', mkLoop (api_calls st) (actions st ++ plan b s r v))
    /\ sorted_into (robot.backups self') backup_keys (after_call b)
    /\ sorted_into (robot.snapshots self') backup_keys (after_call s)
    /\ sorted_into (robot.virtual_routers self') vm_keys (after_call r)
    /\ sorted_into (robot.vms self') vm_keys (after_call v).
Proof.
  intros Hvr Hb Hs Hr Hv.
  destruct (robot_call_plan self w st b s r v Hvr Hb Hs Hr Hv)
    as (self' & Hcall & _ & Hafter).
  exists self'. split; assumption.
Qed.

Lemma robot_call_follows_plan_witness :
  exists self',
    robot.__call__
      (robot.__init__ work.backups work.snapshots work.virtual_routers work.vms)
      (work.region work.content) (mkLoop 0 [])
    = (Ret self',
       mkLoop 0
         [Delay "build_backup" (JInt 11); Delay "build_virtual_router" (JInt 9);
          Delay "build_vm" (JInt 42);
          Delay "quiesce_virtual_router" (JInt 8);
          Delay "quiesce_vm" (JInt 43); Delay "quiesce_vm" (JInt 45);
          Delay "update_backup" (JInt 12); Delay "update_snapshot" (JInt 21);
          Delay "update_vm" (JInt 46); Delay "update_vm" (JInt 47);
          Delay "restart_vm" (JInt 44);
          Delay "scrub_backup" (JInt 13); Flush])
    /\ sorted_into (robot.backups self') backup_keys
         (after_call (ids_of work.backups))
    /\ sorted_into (robot.snapshots self') backup_keys
         (after_call (ids_of work.snapshots))
    /\ sorted_into (robot.virtual_routers self') vm_keys
         (after_call (ids_of work.virtual_routers))
    /\ sorted_into (robot.vms self') vm_keys (after_call (ids_of work.vms)).
Proof.
  apply (robot_call_follows_plan
           (robot.__init__ work.backups work.snapshots work.virtual_routers work.vms)
           (work.region work.content) (mkLoop 0 [])
           (ids_of work.backups) (ids_of work.snapshots)
           (ids_of work.virtual_routers) (ids_of work.vms)).
  - reflexivity.
  - repeat constructor.
  - repeat constructor.
  - repeat constructor.
  - repeat constructor.
Defined.

(** ** What a call of the robot never does *)

Lemma performs_lret {A} P (a : A) : performs P (lret a).
Proof. intros w st. exists []. cbn. rewrite app_nil_r. auto. Qed.

Lemma performs_llift {A} P (r : res A) : performs P (llift r).
Proof. intros w st. exists []. cbn. rewrite app_nil_r. auto. Qed.

Lemma performs_act P a : P a -> performs P (act a).
Proof. intros H w st. exists [a]. cbn. auto. Qed.

Lemma performs_lbind {A B} P (m : L A) (k : A -> L B) :
  performs P m -> (forall a, performs P (k a)) -> performs P (lbind m k).
Proof.
  intros Hm Hk w st. unfold lbind.
  destruct (Hm w st) as [acts [E F]].
  destruct (m w st) as [[a | e |] st']; cbn [snd] in E.
  - destruct (Hk a w st') as [acts' [E' F']].
    exists (acts ++ acts'). rewrite E', E, app_assoc. split; auto.
    apply Forall_app; auto.
  - exists acts; auto.
  - exists acts; auto.
Qed.

Lemma performs_for_each P items body :
  (forall x, performs P (body x)) -> performs P (for_each items body).
Proof.
  intros H. induction items as [| x items IH]; cbn [for_each].
  - apply performs_lret.
  - apply performs_lbind; auto.
Qed.

Lemma performs_dispatch_all P ids task :
  (forall arg, P (Delay task arg)) ->
  performs P (robot.dispatch_all ids (delay task)).
Proof.
  intros H. unfold robot.dispatch_all.
  apply performs_lbind; [apply performs_llift | intros items].
  apply performs_for_each. intros x. apply performs_act. apply H.
Qed.

Ltac unfold_dispatchers :=
  unfold dispatchers.Backup.build, dispatchers.Backup.update, dispatchers.Backup.scrub,
    dispatchers.Snapshot.build, dispatchers.Snapshot.update, dispatchers.Snapshot.scrub,
    dispatchers.VM.build, dispatchers.VM.quiesce, dispatchers.VM.update,
    dispatchers.VM.restart, dispatchers.VM.scrub;
  cbn [dispatchers.VirtualRouter dispatchers.build dispatchers.quiesce
       dispatchers.update dispatchers.restart dispatchers.scrub].

(** Whatever the buckets hold, a call of the robot does nothing but queue
    build, quiesce, update and restart tasks and the scrub tasks of backups
    and snapshots, and flush the logs: it makes no request to the API and
    never queues [scrub_vm] or [scrub_virtual_router]. *)
Theorem robot_call_never_scrubs_vms (self : robot.Robot) :
  robot.virtual_router_dispatcher self = dispatchers.VirtualRouter ->
  performs call_action (robot.__call__ self).
Proof.
  intros Hvr. unfold robot.__call__. rewrite Hvr. unfold_dispatchers.
  repeat first
    [ apply performs_dispatch_all; intros; cbn; tauto
    | apply performs_lbind; [| intros]
    | apply performs_llift
    | apply performs_lret
    | apply performs_act; exact I
    | match goal with
      | |- performs _ (let '(_, _) := ?x in _) => destruct x
      end ].
Qed.

Lemma robot_call_never_scrubs_vms_witness :
  performs call_action
    (robot.__call__
       (robot.__init__ work.backups work.snapshots work.virtual_routers work.vms)).
Proof.
  apply (robot_call_never_scrubs_vms
           (robot.__init__ work.backups work.snapshots work.virtual_routers work.vms)).
  reflexivity.
Defined.

(** ** A missing bucket *)

Lemma raises_only_lbind {A B} P (m : L A) (k : A -> L B) :
  raises_only P m -> (forall a, raises_only P (k a)) -> raises_only P (lbind m k).
Proof.
  intros Hm Hk w st e. unfold lbind.
  specialize (Hm w st). destruct (m w st) as [[a | e' |] st']; cbn [fst] in *.
  - apply Hk.
  - intros [= <-]. apply Hm. reflexivity.
  - discriminate.
Qed.

Lemma raises_only_dispatch_all ids task :
  raises_only (fun e => e = TypeError) (robot.dispatch_all ids (delay task)).
Proof.
  intros w st e. unfold robot.dispatch_all, lbind, llift.
  destruct ids; cbn [py_iter fst]; try (intros [= <-]; reflexivity);
    rewrite for_each_delay; discriminate.
Qed.

Lemma raises_only_act P a : raises_only P (act a).
Proof. intros w st e. discriminate. Qed.

Lemma raises_only_lret {A} P (a : A) : raises_only P (lret a).
Proof. intros w st e. discriminate. Qed.

Lemma lbind_llift_raise {A B} (k : A -> L B) w st e :
  lbind (llift (Raise e)) k w st = (Raise e, st).
Proof. reflexivity. Qed.

Lemma lbind_llift_fuel {A B} (k : A -> L B) w st :
  lbind (llift OutOfFuel) k w st = (OutOfFuel, st).
Proof. reflexivity. Qed.

(** Runs the sorting of the buckets; a statement that raises ends the call
    in the state it started in. *)
Ltac sort_buckets :=
  repeat match goal with
         | |- context [lbind (llift ?r) _ _ _] =>
             let E := fresh "E" in
             destruct r as [? | ? |] eqn:E;
             [ rewrite (lbind_llift _ _ _ _ _ eq_refl)
             | rewrite lbind_llift_raise; cbn [fst]; intros [= ->]; reflexivity
             | rewrite lbind_llift_fuel; cbn [fst]; discriminate ]
         | |- context [let '(_, _) := ?x in _] => destruct x
         end.

Lemma robot_call_key_error (self : robot.Robot) (w : World) (st : Loop) (k : string) :
  robot.virtual_router_dispatcher self = dispatchers.VirtualRouter ->
  fst (robot.__call__ self w st) = Raise (KeyError k) ->
  robot.__call__ self w st = (Raise (KeyError k), st).
Proof.
  intros Hvr. unfold robot.__call__. rewrite Hvr. unfold_dispatchers.
  sort_buckets.
  intros H. exfalso.
  match type of H with
  | fst (?m w st) = _ =>
      assert (Honly : raises_only (fun e => e = TypeError) m)
  end.
  { repeat first
      [ apply raises_only_dispatch_all
      | apply raises_only_lbind; [| intros]
      | apply raises_only_act
      | apply raises_only_lret ]. }
  specialize (Honly w st _ H). discriminate Honly.
Qed.

(** A bucket that is missing is noticed before anything is queued: a call
    of the robot that raises KeyError has queued no task and leaves the
    loop as it found it. *)
Theorem missing_bucket_stops_the_call (self : robot.Robot) (w : World)
    (st : Loop) (k : string) :
  robot.virtual_router_dispatcher self = dispatchers.VirtualRouter ->
  fst (robot.__call__ self w st) = Raise (KeyError k) ->
  snd (robot.__call__ self w st) = st.
Proof.
  intros Hvr H. rewrite (robot_call_key_error self w st k Hvr H). reflexivity.
Qed.

Lemma missing_bucket_stops_the_call_witness :
  snd (robot.__call__
         (robot.__init__ work.backups work.snapshots work.virtual_routers
            (JDict [("build", JList [JInt 42])]))
         (work.region work.content) (mkLoop 0 []))
  = mkLoop 0 [].
Proof.
  apply (missing_bucket_stops_the_call
           (robot.__init__ work.backups work.snapshots work.virtual_routers
              (JDict [("build", JList [JInt 42])]))
           (work.region work.content) (mkLoop 0 []) "quiesce").
  - reflexivity.
  - reflexivity.
Defined.

(** ** One round of the main loop *)

Lemma lbind_embed {A B} (m : M A) (k : A -> L B) w st a st' :
  m w (mkSt (api_calls st) []) = (Ret a, st') ->
  lbind (embed m) k w st
  = k a w (mkLoop (calls st') (actions st ++ map Did (trace st'))).
Proof. intros H. unfold lbind, embed. rewrite H. reflexivity. Qed.

Lemma emits_run_robot_get P :
  (forall s, P (EApi (ListReq "run_robot" []) s)) ->
  emits P mainloop.run_robot_get.
Proof.
  intros H. unfold mainloop.run_robot_get.
  apply emits_bind; [apply emits_ask | intros w].
  induction (recursion_limit w) as [| depth IH]; cbn [mainloop.run_robot_get_rec].
  - apply emits_raise.
  - apply emits_try_except; [| intros; apply emits_ret].
    apply emits_bind; [apply emits_api; auto | intros response].
    apply emits_bind; [apply emits_token_is_expired | intros expired].
    apply emits_bind.
    + destruct expired; [| apply emits_ret].
      apply emits_bind; [exact IH | intros; apply emits_ret].
    + intros _. repeat emits_step.
Qed.

Lemma run_robot_get_idle w st :
  recursion_limit w <> O ->
  (forall content, ~ pending (respond w (ListReq "run_robot" []) (calls st)) content) ->
  fst (mainloop.run_robot_get w st) = Ret None.
Proof.
  intros Hlimit Hidle.
  unfold mainloop.run_robot_get, bind, ask.
  destruct (recursion_limit w) as [| depth]; [congruence |].
  destruct (run_robot_get_rec_cases w depth st)
    as (x & <- & [[H _] | [content [_ Hp]]]).
  - exact H.
  - destruct (Hidle _ Hp).
Qed.

(** The answer of [run_robot] brings no pending work: the round is the
    heartbeat, the requests of [run_robot_get], which only read, and a
    sleep of 15 seconds; no task is queued and nothing is acknowledged. *)
Theorem round_without_work_sleeps (w : World) :
  recursion_limit w <> O ->
  (forall content, ~ pending (respond w (ListReq "run_robot" []) 0) content) ->
  exists reads,
    fst (lrun loop.round w) = Ret tt
    /\ actions (snd (lrun loop.round w)) = Heartbeat :: map Did reads ++ [Sleep 15]
    /\ Forall is_read reads.
Proof.
  intros Hlimit Hidle.
  pose proof (run_robot_get_idle w (mkSt 0 []) Hlimit Hidle) as Hget.
  destruct (emits_run_robot_get is_read (fun _ => I) w (mkSt 0 []))
    as (reads & Htrace & Hreads).
  destruct (mainloop.run_robot_get w (mkSt 0 [])) as [r st'] eqn:Hrun.
  cbn [fst snd trace app] in *. subst r.
  exists reads.
  unfold lrun, loop.round. rewrite lbind_act. cbn [api_calls actions app].
  rewrite (lbind_embed _ _ w (mkLoop 0 [Heartbeat]) _ _ Hrun).
  rewrite Htrace. unfold act. cbn [fst snd api_calls actions app].
  auto.
Qed.

Lemma round_without_work_sleeps_witness :
  exists reads,
    fst (lrun loop.round cases.api_down) = Ret tt
    /\ actions (snd (lrun loop.round cases.api_down))
       = Heartbeat :: map Did reads ++ [Sleep 15]
    /\ Forall is_read reads.
Proof.
  apply (round_without_work_sleeps cases.api_down).
  - discriminate.
  - intros content [H _]. discriminate H.
Defined.

Lemma run_robot_get_pending w st content :
  recursion_limit w <> O ->
  pending (respond w (ListReq "run_robot" []) (calls st)) content ->
  mainloop.run_robot_get w st
  = (Ret (Some content),
     mkSt (S (calls st)) (trace st ++ [EApi (ListReq "run_robot" []) 200])).
Proof.
  intros Hlimit (H200 & data & ids & n & Hbody & Hcontent & Hids & Hlen & Hn).
  unfold mainloop.run_robot_get, bind at 1, ask.
  destruct (recursion_limit w) as [| depth]; [congruence |].
  rewrite run_robot_get_rec_unfold. unfold try_except.
  rewrite bind_api. rewrite H200.
  unfold token_is_expired. rewrite H200. cbn [Z.eqb Pos.eqb negb].
  rewrite !bind_ret_l. unfold json_of. rewrite Hbody.
  rewrite (bind_lift _ _ _ _ _ eq_refl), (bind_lift _ _ _ _ _ Hcontent),
    (bind_lift _ _ _ _ _ Hids), (bind_lift _ _ _ _ _ Hlen).
  apply Z.ltb_lt in Hn. rewrite Hn. reflexivity.
Qed.




(** A round that finds pending work with a bucket missing: the KeyError of
    the robot is caught nowhere, so the main loop ends in its first round
    with that exception, after the heartbeat and the request that fetched
    the work; no task has been queued and the work is not acknowledged. *)
Theorem missing_bucket_ends_the_main_loop (w : World) (rounds : nat)
    (content project_ids backups snapshots virtual_routers vms : json)
    (k : string) :
  let get := ListReq "run_robot" [] in
  let robot := robot.__init__ backups snapshots virtual_routers vms in
  recursion_limit w <> O ->
  brings (respond w get 0) content project_ids backups snapshots virtual_routers vms ->
  (forall st, fst (robot.__call__ robot w st) = Raise (KeyError k)) ->
  lrun (loop.mainloop (S rounds)) w
  = (Raise (KeyError k), mkLoop 1 [Heartbeat; Did (EApi get 200)]).
Proof.
  intros get robot Hlimit (Hpending & Hids & Hb & Hs & Hr & Hv) Hraises.
  unfold lrun. cbn [loop.mainloop]. unfold loop.round.
  unfold lbind at 1. rewrite lbind_act. cbn [api_calls actions app].
  rewrite (lbind_embed _ _ w (mkLoop 0 [Heartbeat]) _ _
             (run_robot_get_pending w (mkSt 0 []) content Hlimit Hpending)).
  cbn [calls trace map app].
  rewrite (lbind_llift _ _ _ _ _ Hids), (lbind_llift _ _ _ _ _ Hb),
    (lbind_llift _ _ _ _ _ Hs), (lbind_llift _ _ _ _ _ Hr),
    (lbind_llift _ _ _ _ _ Hv).
  cbv zeta. fold robot. unfold lbind.
  rewrite (robot_call_key_error robot w _ k eq_refl (Hraises _)).
  reflexivity.
Qed.

Lemma missing_bucket_ends_the_main_loop_witness :
  lrun (loop.mainloop 3) (work.region work.no_restart_bucket)
  = (Raise (KeyError "restart"),
     mkLoop 1 [Heartbeat; Did (EApi (ListReq "run_robot" []) 200)]).
Proof.
  apply (missing_bucket_ends_the_main_loop (work.region work.no_restart_bucket) 2
           work.no_restart_bucket (JList [JInt 1])
           work.backups work.snapshots work.virtual_routers
           (JDict [("build", JList [JInt 42]); ("quiesce", JList []);
                   ("scrub", JList []); ("running_update", JList []);
                   ("quiesced_update", JList [])])
           "restart").
  - discriminate.
  - split; [| repeat split].
    split; [reflexivity |].
    exists (JDict [("content", work.no_restart_bucket)]), (JList [JInt 1]), 1.
    repeat split.
  - intros st. reflexivity.
Defined.

(** ** The scrub at midnight *)




(** * Further tasks *)

(** ** Reset of the debug logging of firewall rules *)

(** Whatever the API and the updater answer, a run of [_debug_logs] sends
    no update other than [debug = False] on its own router: it never
    writes a state, creates nothing and schedules nothing; the only remote
    driver it calls is the updater of the virtual router. *)
Theorem debug_logs_never_writes_a_state (w : World) (id : Z) :
  Forall (debug_event id)
    (trace (snd (run (tasks_virtual_router_debug._debug_logs id) w))).
Proof.
  assert (H : emits (debug_event id) (tasks_virtual_router_debug._debug_logs id)).
  { unfold tasks_virtual_router_debug._debug_logs,
      tasks_virtual_router_debug.call_updater.
    repeat first
      [ apply emits_api_read; intros; exact I
      | emits_step; try exact I; try (cbn; tauto) ]. }
  destruct (H w (mkSt 0 [])) as [evs [E F]].
  unfold run. rewrite E. exact F.
Qed.

Lemma reset_debug_logging_quiet rules :
  no_debug_logging rules ->
  tasks_virtual_router_debug.reset_debug_logging rules = Ret (false, rules).
Proof.
  induction 1 as [| rule rules (flag & Hflag & Hfalse) _ IH];
    cbn [tasks_virtual_router_debug.reset_debug_logging]; [reflexivity |].
  rewrite Hflag, Hfalse, IH. reflexivity.
Qed.

(** A router that is RUNNING and has no firewall rule with debug logging:
    the run is the read of the router and nothing else. *)
Theorem debug_logs_without_debug_rules (w : World) (id : Z)
    (virtual_router : json) (rules : list json) :
  recursion_limit w <> O ->
  serves w "virtual_router" (JInt id) virtual_router ->
  getitem virtual_router "state" = Ret (JInt state.RUNNING) ->
  getitem virtual_router "firewall_rules" = Ret (JList rules) ->
  no_debug_logging rules ->
  run (tasks_virtual_router_debug._debug_logs id) w
  = (Ret tt, mkSt 1 [EApi (Read "virtual_router" (JInt id)) 200]).
Proof.
  intros Hlimit Hvr Hstate Hrules Hquiet.
  pose proof (fun st => api_read_serves _ _ _ w st Hlimit Hvr) as Hread.
  pose proof (reset_debug_logging_quiet _ Hquiet) as Hreset.
  unfold run, tasks_virtual_router_debug._debug_logs.
  repeat step. cbn [py_iter]. repeat step.
  reflexivity.
Qed.

Lemma debug_logs_without_debug_rules_witness :
  run (tasks_virtual_router_debug._debug_logs 9)
    (firewall.served [firewall.rule false; firewall.rule false])
  = (Ret tt, mkSt 1 [EApi (Read "virtual_router" (JInt 9)) 200]).
Proof.
  apply (debug_logs_without_debug_rules
           (firewall.served [firewall.rule false; firewall.rule false]) 9
           (firewall.router [firewall.rule false; firewall.rule false])
           [firewall.rule false; firewall.rule false]).
  - discriminate.
  - intros n. split; [reflexivity |]. eexists. split; reflexivity.
  - reflexivity.
  - reflexivity.
  - repeat constructor; exists (JBool false); split; reflexivity.
Defined.





(** ** The phantom dispatcher of virtual routers *)




(** ** The acknowledgement of the work *)




